(** * Reciprocal frequency counter for the ATtiny84A (main.c)

    A shallow embedding of the measurement engine of main.c: the tick
    clock, the slow (INT0) and fast (timer 1 compare-match) counters, the
    watchdog of the polling loop, the frequency computation and the
    auto-ranging display code, followed by the properties established
    about them.

    Integer widths are those of avr-gcc: [uint8_t] and [signed char] are
    8 bits, [int] and [unsigned int] 16 bits, [unsigned long] (and hence
    [tick_t]) 32 bits, [unsigned long long] 64 bits. Every C integer is a
    [Z] and each wrap-around is written out where the C code performs it. *)

From Stdlib Require Import ZArith List Bool Lia Ascii String.
Import ListNotations.
Local Open Scope Z_scope.

(** ** Machine integers *)

Module Word.

Definition u8 (x : Z) : Z := x mod 2 ^ 8.
Definition u16 (x : Z) : Z := x mod 2 ^ 16.
Definition u32 (x : Z) : Z := x mod 2 ^ 32.
Definition u64 (x : Z) : Z := x mod 2 ^ 64.

(** Conversion to [signed char] as avr-gcc performs it (modular). *)
Definition s8 (x : Z) : Z := (x + 128) mod 2 ^ 8 - 128.

(** [_BV(bit)] of avr/sfr_defs.h. *)
Definition _BV (bit : Z) : Z := Z.shiftl 1 bit.

End Word.
Import Word.

(** ** Faults and the state-and-fault monad

    The C code has no error values. What can go wrong is undefined
    behaviour: a division by zero, an access outside an array, a signed
    shift whose result is not representable. The model reports these as
    faults; [OutOfFuel] is the model's own, for a loop that was not run to
    its end. *)

Inductive fault : Type :=
| DivByZero
| OutOfBounds
| ShiftUndefined
| OutOfFuel.

Inductive result (A : Type) : Type :=
| Ok (a : A)
| Fault (f : fault).
Arguments Ok {A} a.
Arguments Fault {A} f.

Definition M (S A : Type) : Type := S -> result (A * S).

Definition ret {S A : Type} (a : A) : M S A := fun s => Ok (a, s).

Definition bind {S A B : Type} (c : M S A) (k : A -> M S B) : M S B :=
  fun s => match c s with
           | Ok (a, s') => k a s'
           | Fault f => Fault f
           end.

Definition raise {S A : Type} (f : fault) : M S A := fun _ => Fault f.

(** Read a variable or register. *)
Definition rd {S A : Type} (get : S -> A) : M S A := fun s => Ok (get s, s).

(** Write a variable or register. *)
Definition wr {S A : Type} (set : A -> S -> S) (v : A) : M S unit :=
  fun s => Ok (tt, set v s).

Definition lift {S A : Type} (r : result A) : M S A :=
  fun s => match r with
           | Ok a => Ok (a, s)
           | Fault f => Fault f
           end.

Declare Scope cmd_scope.
Delimit Scope cmd_scope with cmd.
Notation "x <- c ;; k" := (bind c (fun x => k))
  (at level 61, c at next level, right associativity) : cmd_scope.
Notation "c ;; k" := (bind c (fun _ => k))
  (at level 61, right associativity) : cmd_scope.
Local Open Scope cmd_scope.

(** The state a command leaves behind, when it does not fault. *)
Definition exec {S A : Type} (c : M S A) (s : S) : option S :=
  match c s with
  | Ok (_, s') => Some s'
  | Fault _ => None
  end.

(** Unsigned C division and remainder. *)
Definition udiv (a b : Z) : result Z :=
  if b =? 0 then Fault DivByZero else Ok (a / b).

Definition umod (a b : Z) : result Z :=
  if b =? 0 then Fault DivByZero else Ok (a mod b).

(** ** Shared state of the measurement engine *)

Definition MAX_PERIOD : Z := 4294967295.   (* 0xffffffffUL *)
Definition WD_TOP : Z := 4.
Definition MIN_PERIOD : Z := 10000.

(** Bit numbers of avr/io.h for the ATtiny84A. *)
Definition TOV0 : Z := 0.
Definition INT0 : Z := 6.

(** [struct counter]. *)
Record counter : Type := mkCounter {
  period : Z;                    (* tick_t *)
  log2num_events : Z;            (* uint8_t *)
  first_time : Z;                (* uint8_t *)
  current_log2num_events : Z;    (* uint8_t *)
  prev_ticks : Z                 (* tick_t *)
}.

Definition set_period (v : Z) (c : counter) : counter :=
  mkCounter v (log2num_events c) (first_time c) (current_log2num_events c)
            (prev_ticks c).
Definition set_log2num_events (v : Z) (c : counter) : counter :=
  mkCounter (period c) v (first_time c) (current_log2num_events c)
            (prev_ticks c).
Definition set_first_time (v : Z) (c : counter) : counter :=
  mkCounter (period c) (log2num_events c) v (current_log2num_events c)
            (prev_ticks c).
Definition set_current_log2num_events (v : Z) (c : counter) : counter :=
  mkCounter (period c) (log2num_events c) (first_time c) v (prev_ticks c).
Definition set_prev_ticks (v : Z) (c : counter) : counter :=
  mkCounter (period c) (log2num_events c) (first_time c)
            (current_log2num_events c) v.

(** What [current] points to. *)
Inductive which : Type := Slow | Fast.

Definition which_eqb (a b : which) : bool :=
  match a, b with
  | Slow, Slow | Fast, Fast => true
  | _, _ => false
  end.

(** Calls the properties below speak about. *)
Inductive call : Type :=
| SetTimerCmpReg (log2ne : Z)
| SlowMode.

(** The variables shared between the interrupt handlers and the polling
    loop, and the hardware registers they use. [calls] is a history
    variable: the calls of [set_timer_cmp_reg] and [slow_mode] made so
    far, most recent first. No code reads it. *)
Record machine : Type := mkMachine {
  slow_cnt : counter;
  fast_cnt : counter;
  current : which;
  fast_wd : Z;                   (* signed char *)
  timer0_overflow_count : Z;     (* unsigned long *)
  counter_high : Z;              (* uint8_t *)
  cmp_high : Z;                  (* uint8_t *)
  TCNT0 : Z;                     (* 8-bit register *)
  TIFR0 : Z;                     (* 8-bit register *)
  TCNT1 : Z;                     (* 16-bit register *)
  OCR1A : Z;                     (* 16-bit register *)
  GIMSK : Z;                     (* 8-bit register *)
  calls : list call
}.

Definition set_slow_cnt (v : counter) (s : machine) : machine :=
  mkMachine v (fast_cnt s) (current s) (fast_wd s) (timer0_overflow_count s)
            (counter_high s) (cmp_high s) (TCNT0 s) (TIFR0 s) (TCNT1 s)
            (OCR1A s) (GIMSK s) (calls s).
Definition set_fast_cnt (v : counter) (s : machine) : machine :=
  mkMachine (slow_cnt s) v (current s) (fast_wd s) (timer0_overflow_count s)
            (counter_high s) (cmp_high s) (TCNT0 s) (TIFR0 s) (TCNT1 s)
            (OCR1A s) (GIMSK s) (calls s).
Definition set_current (v : which) (s : machine) : machine :=
  mkMachine (slow_cnt s) (fast_cnt s) v (fast_wd s) (timer0_overflow_count s)
            (counter_high s) (cmp_high s) (TCNT0 s) (TIFR0 s) (TCNT1 s)
            (OCR1A s) (GIMSK s) (calls s).
Definition set_fast_wd (v : Z) (s : machine) : machine :=
  mkMachine (slow_cnt s) (fast_cnt s) (current s) v (timer0_overflow_count s)
            (counter_high s) (cmp_high s) (TCNT0 s) (TIFR0 s) (TCNT1 s)
            (OCR1A s) (GIMSK s) (calls s).
Definition set_timer0_overflow_count (v : Z) (s : machine) : machine :=
  mkMachine (slow_cnt s) (fast_cnt s) (current s) (fast_wd s) v
            (counter_high s) (cmp_high s) (TCNT0 s) (TIFR0 s) (TCNT1 s)
            (OCR1A s) (GIMSK s) (calls s).
Definition set_counter_high (v : Z) (s : machine) : machine :=
  mkMachine (slow_cnt s) (fast_cnt s) (current s) (fast_wd s)
            (timer0_overflow_count s) v (cmp_high s) (TCNT0 s) (TIFR0 s)
            (TCNT1 s) (OCR1A s) (GIMSK s) (calls s).
Definition set_cmp_high (v : Z) (s : machine) : machine :=
  mkMachine (slow_cnt s) (fast_cnt s) (current s) (fast_wd s)
            (timer0_overflow_count s) (counter_high s) v (TCNT0 s) (TIFR0 s)
            (TCNT1 s) (OCR1A s) (GIMSK s) (calls s).
Definition set_TCNT1 (v : Z) (s : machine) : machine :=
  mkMachine (slow_cnt s) (fast_cnt s) (current s) (fast_wd s)
            (timer0_overflow_count s) (counter_high s) (cmp_high s) (TCNT0 s)
            (TIFR0 s) v (OCR1A s) (GIMSK s) (calls s).
Definition set_OCR1A (v : Z) (s : machine) : machine :=
  mkMachine (slow_cnt s) (fast_cnt s) (current s) (fast_wd s)
            (timer0_overflow_count s) (counter_high s) (cmp_high s) (TCNT0 s)
            (TIFR0 s) (TCNT1 s) v (GIMSK s) (calls s).
Definition set_GIMSK (v : Z) (s : machine) : machine :=
  mkMachine (slow_cnt s) (fast_cnt s) (current s) (fast_wd s)
            (timer0_overflow_count s) (counter_high s) (cmp_high s) (TCNT0 s)
            (TIFR0 s) (TCNT1 s) (OCR1A s) v (calls s).
Definition log_call (v : call) (s : machine) : machine :=
  mkMachine (slow_cnt s) (fast_cnt s) (current s) (fast_wd s)
            (timer0_overflow_count s) (counter_high s) (cmp_high s) (TCNT0 s)
            (TIFR0 s) (TCNT1 s) (OCR1A s) (GIMSK s) (v :: calls s).

(** Timer 0 runs on its own: what the hardware did to its count and its
    flag register since the machine was last looked at. *)
Definition timer0_runs (tcnt0 tifr0 : Z) (s : machine) : machine :=
  mkMachine (slow_cnt s) (fast_cnt s) (current s) (fast_wd s)
            (timer0_overflow_count s) (counter_high s) (cmp_high s) tcnt0
            tifr0 (TCNT1 s) (OCR1A s) (GIMSK s) (calls s).

(** Timer 1 counts input edges on its own. *)
Definition timer1_runs (tcnt1 : Z) (s : machine) : machine := set_TCNT1 tcnt1 s.

(** Assignments to a field of one of the two counters. *)
Definition in_slow (set : Z -> counter -> counter) (v : Z) (s : machine)
  : machine := set_slow_cnt (set v (slow_cnt s)) s.
Definition in_fast (set : Z -> counter -> counter) (v : Z) (s : machine)
  : machine := set_fast_cnt (set v (fast_cnt s)) s.

Definition cmd (A : Type) : Type := M machine A.

(** ** Time keeping *)

(** [ISR(TIM0_OVF_vect)]. *)
Definition ISR_TIM0_OVF : cmd unit :=
  m <- rd timer0_overflow_count ;;
  wr set_timer0_overflow_count (u32 (m + 1)).

(** [cli_ticks]. *)
Definition cli_ticks : cmd Z :=
  m <- rd timer0_overflow_count ;;
  t <- rd TCNT0 ;;
  f <- rd TIFR0 ;;
  let m := if negb (Z.land f (_BV TOV0) =? 0) && (t <? 255)
           then u32 (m + 1) else m in
  ret (Z.lor (u32 (Z.shiftl m 8)) t).

(** The value [cli_ticks] returns in a state. *)
Definition ticks_at (s : machine) : Z :=
  match cli_ticks s with
  | Ok (v, _) => v
  | Fault _ => 0
  end.

(** ** Event counting *)

(** [a << k] on [int]: defined only when the result is representable. *)
Definition shl_int (a k : Z) : result Z :=
  if (0 <=? k) && (k <? 16) && (a * 2 ^ k <=? 32767)
  then Ok (a * 2 ^ k) else Fault ShiftUndefined.

(** [set_timer_cmp_reg]. *)
Definition set_timer_cmp_reg (log2ne : Z) : cmd unit :=
  wr log_call (SetTimerCmpReg log2ne) ;;
  if log2ne <=? 16 then
    wr set_OCR1A (u16 (u32 (Z.shiftl 1 log2ne) - 1)) ;;
    wr set_cmp_high 0
  else
    wr set_OCR1A 65535 ;;
    v <- lift (shl_int 1 (log2ne - 16)) ;;
    wr set_cmp_high (u8 (v - 1)) ;;
    wr set_counter_high 0.

(** The static initialisers. [current] is a null pointer until
    [init_event_counting] assigns it; nothing reads it before. The
    registers have their reset values. *)
Definition power_on : machine :=
  {| slow_cnt := mkCounter MAX_PERIOD 0 1 0 0;
     fast_cnt := mkCounter MAX_PERIOD 0 1 1 0;
     current := Slow;
     fast_wd := WD_TOP;
     timer0_overflow_count := 0;
     counter_high := 0;
     cmp_high := 0;
     TCNT0 := 0; TIFR0 := 0; TCNT1 := 0; OCR1A := 0; GIMSK := 0;
     calls := [] |}.

(** [init_event_counting], on the registers the handlers use. *)
Definition init_event_counting : cmd unit :=
  wr set_GIMSK (_BV INT0) ;;
  e <- rd (fun s => current_log2num_events (fast_cnt s)) ;;
  set_timer_cmp_reg e ;;
  wr set_TCNT1 0 ;;
  wr set_current Slow.

(** [ISR(EXT_INT0_vect)]: the handler of the slow counting mode. *)
Definition ISR_EXT_INT0 : cmd unit :=
  cs <- cli_ticks ;;
  ft <- rd (fun s => first_time (slow_cnt s)) ;;
  if negb (ft =? 0) then
    wr (in_slow set_first_time) 0 ;;
    wr (in_slow set_prev_ticks) cs
  else
    pt <- rd (fun s => prev_ticks (slow_cnt s)) ;;
    let period := u32 (cs - pt) in
    wr (in_slow set_period) period ;;
    wr (in_slow set_prev_ticks) cs ;;
    if period <? 100 then
      wr set_GIMSK 0 ;;
      wr (in_fast set_period) MAX_PERIOD ;;
      wr (in_fast set_first_time) 1 ;;
      wr (in_fast set_current_log2num_events) 1 ;;
      wr (in_fast set_prev_ticks) cs ;;
      e <- rd (fun s => current_log2num_events (fast_cnt s)) ;;
      v <- lift (shl_int 1 e) ;;
      wr set_OCR1A (u16 (v - 1)) ;;
      wr set_TCNT1 0 ;;
      wr set_current Fast
    else ret tt.

(** [slow_mode]: the forced switch to slow mode. *)
Definition slow_mode : cmd unit :=
  wr log_call SlowMode ;;
  wr set_GIMSK (_BV INT0) ;;
  wr (in_slow set_first_time) 1 ;;
  wr (in_slow set_period) MAX_PERIOD ;;
  wr set_current Slow ;;
  wr (in_fast set_first_time) 1 ;;
  wr (in_fast set_current_log2num_events) 1 ;;
  e <- rd (fun s => current_log2num_events (fast_cnt s)) ;;
  set_timer_cmp_reg e ;;
  wr set_TCNT1 0.

(** The loop [do { log2ne++; period *= 2; }
    while (period < MIN_PERIOD && log2ne < 20)] on its two locals. *)
Fixpoint count_more (fuel : nat) (log2ne period : Z) : result (Z * Z) :=
  match fuel with
  | O => Fault OutOfFuel
  | S fuel' =>
      let log2ne := u8 (log2ne + 1) in
      let period := u32 (period * 2) in
      if (period <? MIN_PERIOD) && (log2ne <? 20)
      then count_more fuel' log2ne period
      else Ok (log2ne, period)
  end.

(** The loop [do { log2ne--; period /= 2; }
    while (period > MIN_PERIOD*3 && log2ne > 1)]. *)
Fixpoint count_fewer (fuel : nat) (log2ne period : Z) : result (Z * Z) :=
  match fuel with
  | O => Fault OutOfFuel
  | S fuel' =>
      let log2ne := u8 (log2ne - 1) in
      let period := period / 2 in
      if (period >? MIN_PERIOD * 3) && (log2ne >? 1)
      then count_fewer fuel' log2ne period
      else Ok (log2ne, period)
  end.

(** Enough for either loop on 8-bit exponents. *)
Definition loop_fuel : nat := 256.

(** The adjustment of the number of events in [ISR(TIM1_COMPA_vect)];
    returns the locals [log2ne] and [period] as the mode check sees them. *)
Definition adjust_events (log2ne period : Z) : cmd (Z * Z) :=
  if (period <? MIN_PERIOD) && (log2ne <? 20) then
    lp <- lift (count_more loop_fuel log2ne period) ;;
    set_timer_cmp_reg (fst lp) ;;
    wr set_GIMSK 0 ;;
    wr set_current Fast ;;
    wr (in_fast set_current_log2num_events) (fst lp) ;;
    ret lp
  else if (period >? MIN_PERIOD * 3) && (log2ne >? 1) then
    lp <- lift (count_fewer loop_fuel log2ne period) ;;
    set_timer_cmp_reg (fst lp) ;;
    wr (in_fast set_current_log2num_events) (fst lp) ;;
    ret lp
  else ret (log2ne, period).

(** The mode check that ends [ISR(TIM1_COMPA_vect)]. *)
Definition change_mode (ticks log2ne per : Z) : cmd unit :=
  c <- rd current ;;
  if which_eqb c Fast then
    if (per >? MIN_PERIOD * 3) && (log2ne =? 1) then
      wr set_GIMSK (_BV INT0) ;;
      wr (in_slow set_period) (per / 2) ;;
      wr (in_slow set_prev_ticks) ticks ;;
      wr (in_slow set_first_time) 1 ;;
      wr set_current Slow
    else ret tt
  else
    sp <- rd (fun s => period (slow_cnt s)) ;;
    if sp <? MIN_PERIOD then
      wr set_GIMSK 0 ;;
      wr set_current Fast
    else ret tt.

(** [ISR(TIM1_COMPA_vect)]: the handler of the fast counting mode. *)
Definition ISR_TIM1_COMPA : cmd unit :=
  ticks <- cli_ticks ;;
  wr set_fast_wd WD_TOP ;;
  ch <- rd counter_high ;;
  wr set_counter_high (u8 (ch + 1)) ;;
  cmp <- rd cmp_high ;;
  if negb (ch =? cmp) then ret tt
  else
    wr set_counter_high 0 ;;
    ft <- rd (fun s => first_time (fast_cnt s)) ;;
    if negb (ft =? 0) then
      wr (in_fast set_first_time) 0 ;;
      wr (in_fast set_prev_ticks) ticks
    else
      log2ne <- rd (fun s => current_log2num_events (fast_cnt s)) ;;
      wr (in_fast set_log2num_events) log2ne ;;
      pt <- rd (fun s => prev_ticks (fast_cnt s)) ;;
      let period := u32 (ticks - pt) in
      wr (in_fast set_period) period ;;
      wr (in_fast set_prev_ticks) ticks ;;
      lp <- adjust_events log2ne period ;;
      change_mode ticks (fst lp) (snd lp).

(** ** The polling loop, up to the display *)

Definition counter_of (w : which) (s : machine) : counter :=
  match w with
  | Slow => slow_cnt s
  | Fast => fast_cnt s
  end.

(** One iteration of the [for (;;)] loop of [main], from the snapshot to
    the watchdog test; returns the snapshot [(n, p)] handed to
    [display_measurement]. The snapshot and [slow_mode] run with
    interrupts off; the turn as a whole is one step of the model, so no
    interrupt is served between the test of the watchdog and
    [slow_mode]. *)
Definition poll : cmd (Z * Z) :=
  n <- rd (fun s => log2num_events (counter_of (current s) s)) ;;
  p <- rd (fun s => period (counter_of (current s) s)) ;;
  wd <- rd fast_wd ;;
  wr set_fast_wd (s8 (wd - 1)) ;;
  (if wd <? 0 then
     c <- rd current ;;
     if which_eqb c Fast then
       wr set_fast_wd WD_TOP ;;
       slow_mode
     else ret tt
   else ret tt) ;;
  ret (n, p).

(** What can happen to the machine: an interrupt is served, the polling
    loop makes a turn, or a timer counts on. *)
Inductive event : Type :=
| EdgeInterrupt
| CompareMatch
| Timer0Overflow
| PollingTurn
| Timer0Counts (tcnt0 tifr0 : Z)
| Timer1Counts (tcnt1 : Z).

Definition handle (e : event) : cmd unit :=
  match e with
  | EdgeInterrupt => ISR_EXT_INT0
  | CompareMatch => ISR_TIM1_COMPA
  | Timer0Overflow => ISR_TIM0_OVF
  | PollingTurn => poll ;; ret tt
  | Timer0Counts tcnt0 tifr0 => wr (fun _ => timer0_runs tcnt0 tifr0) tt
  | Timer1Counts tcnt1 => wr timer1_runs tcnt1
  end.

Fixpoint run (es : list event) : cmd unit :=
  match es with
  | [] => ret tt
  | e :: es' => handle e ;; run es'
  end.

(** The machine when [main] enters its loop. *)
Definition started : machine :=
  match exec init_event_counting power_on with
  | Some s => s
  | None => power_on
  end.

(** States the machine can be in while [main] loops. *)
Inductive reachable : machine -> Prop :=
| reachable_started : reachable started
| reachable_step e s s' :
    reachable s -> exec (handle e) s = Some s' -> reachable s'.

(** ** The display *)

Definition NUL : ascii := "000"%char.

(** A [char *] is the memory it points to; reading past it is a fault. *)
Definition char_at (s : list ascii) (i : Z) : result ascii :=
  if i <? 0 then Fault OutOfBounds
  else match nth_error s (Z.to_nat i) with
       | Some c => Ok c
       | None => Fault OutOfBounds
       end.

Fixpoint poke_nat (i : nat) (c : ascii) (buf : list ascii) : list ascii :=
  match buf, i with
  | [], _ => []
  | _ :: buf', O => c :: buf'
  | x :: buf', S i' => x :: poke_nat i' c buf'
  end.

(** [buf[i] = c]. *)
Definition poke (buf : list ascii) (i : Z) (c : ascii) : result (list ascii) :=
  if (0 <=? i) && (i <? Z.of_nat (List.length buf))
  then Ok (poke_nat (Z.to_nat i) c buf) else Fault OutOfBounds.

(** [strcmp(a, b) == 0]. *)
Fixpoint strcmp_eq (a b : list ascii) : result bool :=
  match a, b with
  | x :: a', y :: b' =>
      if Ascii.eqb x y
      then if Ascii.eqb x NUL then Ok true else strcmp_eq a' b'
      else Ok false
  | _, _ => Fault OutOfBounds
  end.

(** A string literal, with its terminator. *)
Definition literal (s : string) : list ascii := list_ascii_of_string s ++ [NUL].

(** The statics of [show_line] and [display_freq], [curr_range], and the
    display module: a line of eight characters and the write position
    that [lcd_home] resets and [lcd_putc] advances. *)
Record display : Type := mkDisplay {
  prev_line : list ascii;        (* char[9] *)
  prev_freq : Z;                 (* unsigned long *)
  curr_range : Z;                (* unsigned int *)
  lcd_pos : Z;
  lcd_line : list ascii
}.

Definition set_prev_line (v : list ascii) (d : display) : display :=
  mkDisplay v (prev_freq d) (curr_range d) (lcd_pos d) (lcd_line d).
Definition set_prev_freq (v : Z) (d : display) : display :=
  mkDisplay (prev_line d) v (curr_range d) (lcd_pos d) (lcd_line d).
Definition set_curr_range (v : Z) (d : display) : display :=
  mkDisplay (prev_line d) (prev_freq d) v (lcd_pos d) (lcd_line d).
Definition set_lcd_pos (v : Z) (d : display) : display :=
  mkDisplay (prev_line d) (prev_freq d) (curr_range d) v (lcd_line d).
Definition set_lcd_line (v : list ascii) (d : display) : display :=
  mkDisplay (prev_line d) (prev_freq d) (curr_range d) (lcd_pos d) v.

Definition out (A : Type) : Type := M display A.

(** [lcd_home]: the display module moves its write position to the
    start of the line. *)
Definition lcd_home : out unit := wr set_lcd_pos 0.

(** [lcd_putc]: the display module stores the character at its write
    position, which it advances; only eight positions are visible. *)
Definition lcd_putc (c : ascii) : out unit :=
  p <- rd lcd_pos ;;
  l <- rd lcd_line ;;
  wr set_lcd_line (if (0 <=? p) && (p <? 8)
                   then poke_nat (Z.to_nat p) c l else l) ;;
  wr set_lcd_pos (p + 1).

(** The display after [lcd_init] has cleared it, and the statics. *)
Definition blank : display :=
  {| prev_line := repeat NUL 9;
     prev_freq := 4294967295;
     curr_range := 0;
     lcd_pos := 0;
     lcd_line := repeat " "%char 8 |}.

(** [for (i = 0; i < 8 && s[i]; i++) { prev_line[i] = s[i]; lcd_putc(s[i]); }]
    of [show_line]; returns [i]. *)
Fixpoint show_line_copy (fuel : nat) (s : list ascii) (i : Z) : out Z :=
  match fuel with
  | O => raise OutOfFuel
  | S fuel' =>
      if i <? 8 then
        c <- lift (char_at s i) ;;
        if negb (Ascii.eqb c NUL) then
          pl <- rd prev_line ;;
          pl <- lift (poke pl i c) ;;
          wr set_prev_line pl ;;
          lcd_putc c ;;
          show_line_copy fuel' s (i + 1)
        else ret i
      else ret i
  end.

(** [while (i < 8) { lcd_putc(' '); i++; }] of [show_line]. *)
Fixpoint show_line_pad (fuel : nat) (i : Z) : out unit :=
  match fuel with
  | O => raise OutOfFuel
  | S fuel' =>
      if i <? 8 then lcd_putc " "%char ;; show_line_pad fuel' (i + 1)
      else ret tt
  end.

Definition line_fuel : nat := 9.

(** [show_line]. *)
Definition show_line (s : list ascii) : out unit :=
  pl <- rd prev_line ;;
  same <- lift (strcmp_eq s pl) ;;
  if same then ret tt
  else
    lcd_home ;;
    i <- show_line_copy line_fuel s 0 ;;
    pl <- rd prev_line ;;
    pl <- lift (poke pl i NUL) ;;
    wr set_prev_line pl ;;
    show_line_pad line_fuel i.

(** An entry of [range]. *)
Record band : Type := mkBand {
  min : Z;                       (* unsigned long *)
  max : Z;                       (* unsigned long *)
  point : Z;                     (* signed char *)
  lsd : Z;                       (* signed char *)
  divisor : Z;                   (* unsigned int *)
  prefix : ascii                 (* uint8_t *)
}.

Definition range : list band :=
  [ mkBand       0     9999 4 5     1 " ";
    mkBand    9900    99999 1 4    10 "k";
    mkBand   99000   999999 2 4   100 "k";
    mkBand  990000  9999999 3 4  1000 "k";
    mkBand 9900000 99999999 1 4 10000 "M" ]%char.

(** [range[i]]. *)
Definition range_at (i : Z) : result band :=
  if i <? 0 then Fault OutOfBounds
  else match nth_error range (Z.to_nat i) with
       | Some b => Ok b
       | None => Fault OutOfBounds
       end.

(** [while (freq > range[curr_range].max) { curr_range++; }]. *)
Fixpoint range_up (fuel : nat) (freq : Z) : out unit :=
  match fuel with
  | O => raise OutOfFuel
  | S fuel' =>
      i <- rd curr_range ;;
      b <- lift (range_at i) ;;
      if freq >? max b
      then wr set_curr_range (u16 (i + 1)) ;; range_up fuel' freq
      else ret tt
  end.

(** [while (freq < range[curr_range].min) { curr_range--; }]. *)
Fixpoint range_down (fuel : nat) (freq : Z) : out unit :=
  match fuel with
  | O => raise OutOfFuel
  | S fuel' =>
      i <- rd curr_range ;;
      b <- lift (range_at i) ;;
      if freq <? min b
      then wr set_curr_range (u16 (i - 1)) ;; range_down fuel' freq
      else ret tt
  end.

(** One more than the table has entries: a scan that has not stopped by
    then has left the table. *)
Definition range_fuel : nat := 6.

(** The two loops of [display_freq] that choose the range. *)
Definition change_range (freq : Z) : out unit :=
  range_up range_fuel freq ;;
  range_down range_fuel freq.

(** The locals of [display_freq] while it formats. *)
Record locals : Type := mkLocals {
  line : list ascii;             (* char[9] *)
  pos : Z;                       (* signed char *)
  freq_left : Z                  (* unsigned long freq *)
}.

Definition set_line (v : list ascii) (l : locals) : locals :=
  mkLocals v (pos l) (freq_left l).
Definition set_pos (v : Z) (l : locals) : locals :=
  mkLocals (line l) v (freq_left l).
Definition set_freq_left (v : Z) (l : locals) : locals :=
  mkLocals (line l) (pos l) v.

Definition fmt (A : Type) : Type := M locals A.

(** [line[i] = c]. *)
Definition poke_line (i : Z) (c : ascii) : fmt unit :=
  l <- rd line ;;
  l <- lift (poke l i c) ;;
  wr set_line l.

(** [line[pos--] = c]. *)
Definition put_back (c : ascii) : fmt unit :=
  p <- rd pos ;;
  wr set_pos (s8 (p - 1)) ;;
  poke_line p c.

(** [line[pos--] = freq % 10 + '0'; freq /= 10;]. *)
Definition put_digit : fmt unit :=
  f <- rd freq_left ;;
  put_back (ascii_of_N (Z.to_N (u8 (f mod 10 + 48)))) ;;
  f <- rd freq_left ;;
  wr set_freq_left (f / 10).

(** [while (pos > point) { ... }]. *)
Fixpoint fraction_digits (fuel : nat) (point : Z) : fmt unit :=
  match fuel with
  | O => raise OutOfFuel
  | S fuel' =>
      p <- rd pos ;;
      if p >? point then put_digit ;; fraction_digits fuel' point
      else ret tt
  end.

(** [while (freq) { ... }]. *)
Fixpoint integer_digits (fuel : nat) : fmt unit :=
  match fuel with
  | O => raise OutOfFuel
  | S fuel' =>
      f <- rd freq_left ;;
      if negb (f =? 0) then put_digit ;; integer_digits fuel'
      else ret tt
  end.

(** [while (pos >= 0) { line[pos--] = ' '; }]. *)
Fixpoint leading_spaces (fuel : nat) : fmt unit :=
  match fuel with
  | O => raise OutOfFuel
  | S fuel' =>
      p <- rd pos ;;
      if p >=? 0 then put_back " "%char ;; leading_spaces fuel'
      else ret tt
  end.

Definition format_fuel : nat := 16.

(** The formatting part of [display_freq], in the range [b]. *)
Definition format_line (b : band) : fmt unit :=
  poke_line 5 (prefix b) ;;
  poke_line 6 "H"%char ;;
  poke_line 7 "z"%char ;;
  poke_line 8 NUL ;;
  wr set_pos (lsd b) ;;
  f <- rd freq_left ;;
  q <- lift (udiv f (divisor b)) ;;
  wr set_freq_left q ;;
  fraction_digits format_fuel (point b) ;;
  put_back "."%char ;;
  put_digit ;;
  integer_digits format_fuel ;;
  leading_spaces format_fuel.

(** [display_freq]. The buffer [line] starts out as whatever the stack
    holds; the model starts it with zeros. *)
Definition display_freq (freq : Z) : out unit :=
  pf <- rd prev_freq ;;
  if freq =? pf then ret tt
  else
    wr set_prev_freq freq ;;
    if freq =? 0 then show_line (literal "---")
    else
      change_range freq ;;
      i <- rd curr_range ;;
      b <- lift (range_at i) ;;
      match format_line b (mkLocals (repeat NUL 9) 0 freq) with
      | Ok (_, l) => show_line (line l)
      | Fault f => raise f
      end.

Section Clock.

(** The macro [F_CPU] comes from the compiler's command line. *)
Variable F_CPU : Z.

(** [a << n] on [unsigned long long]. *)
Definition shl_u64 (a n : Z) : result Z :=
  if (0 <=? n) && (n <? 64) then Ok (u64 (a * 2 ^ n))
  else Fault ShiftUndefined.

(** The value [display_measurement] assigns to [f] when [ticks] is not
    zero. *)
Definition frequency (n ticks : Z) : result Z :=
  if n <? 11 then
    udiv (u32 (u32 (u32 (10 * F_CPU) / 64 * 2 ^ n) + ticks / 2)) ticks
  else
    match shl_u64 (u64 (10 * F_CPU) / 64) n with
    | Ok events =>
        match udiv (u64 (events + ticks / 2)) ticks with
        | Ok q => Ok (u32 q)
        | Fault f => Fault f
        end
    | Fault f => Fault f
    end.

(** [display_measurement]. *)
Definition display_measurement (n ticks : Z) : out unit :=
  if ticks =? 0 then show_line (literal "---")
  else
    f <- lift (frequency n ticks) ;;
    display_freq f.

(** One turn of the loop of [main]. *)
Definition main_turn (sd : machine * display)
  : result (machine * display) :=
  match poll (fst sd) with
  | Ok ((n, p), s') =>
      match display_measurement n p (snd sd) with
      | Ok (_, d') => Ok (s', d')
      | Fault f => Fault f
      end
  | Fault f => Fault f
  end.

End Clock.

(** The clock the comments of main.c assume: 20 MHz. *)
Definition F_CPU_20MHz : Z := 20000000.

(** The tick-frequency constant [10 * F_CPU / 64]. *)
Definition tick_constant (F_CPU : Z) : Z := 10 * F_CPU / 64.

(** Rounding [a / b] to the nearest integer, halves upwards, on unbounded
    integers: the floor of [a / b + 1 / 2]. *)
Definition round_half_up (a b : Z) : Z := (2 * a + b) / (2 * b).

(** What the display shows. *)
Definition shows (d : display) : string := string_of_list_ascii (lcd_line d).

(** * Vocabulary of the properties *)

(** ** Closed forms of the handlers *)

(** The state after the emergency switch to the fast mode. *)
Definition escalated (s : machine) : machine :=
  let cs := ticks_at s in
  {| slow_cnt := set_prev_ticks cs
                   (set_period (u32 (cs - prev_ticks (slow_cnt s)))
                      (slow_cnt s));
     fast_cnt := mkCounter MAX_PERIOD (log2num_events (fast_cnt s)) 1 1 cs;
     current := Fast;
     fast_wd := fast_wd s;
     timer0_overflow_count := timer0_overflow_count s;
     counter_high := counter_high s;
     cmp_high := cmp_high s;
     TCNT0 := TCNT0 s;
     TIFR0 := TIFR0 s;
     TCNT1 := 0;
     OCR1A := 1;
     GIMSK := 0;
     calls := calls s |}.

(** The machine after [set_timer_cmp_reg(e)], for the exponents in use. *)
Definition programmed (e : Z) (s : machine) : machine :=
  if e <=? 16 then
    set_cmp_high 0 (set_OCR1A (2 ^ e - 1) (log_call (SetTimerCmpReg e) s))
  else
    set_counter_high 0
      (set_cmp_high (2 ^ (e - 16) - 1)
         (set_OCR1A 65535 (log_call (SetTimerCmpReg e) s))).

(** The machine when a compare-match has closed a measuring window:
    watchdog rearmed, extended counter cleared, result stored. *)
Definition window_closed (s : machine) : machine :=
  let t := ticks_at s in
  let e := current_log2num_events (fast_cnt s) in
  {| slow_cnt := slow_cnt s;
     fast_cnt := mkCounter (u32 (t - prev_ticks (fast_cnt s))) e
                   (first_time (fast_cnt s)) e t;
     current := current s;
     fast_wd := WD_TOP;
     timer0_overflow_count := timer0_overflow_count s;
     counter_high := 0;
     cmp_high := cmp_high s;
     TCNT0 := TCNT0 s;
     TIFR0 := TIFR0 s;
     TCNT1 := TCNT1 s;
     OCR1A := OCR1A s;
     GIMSK := GIMSK s;
     calls := calls s |}.

(** The machine after the mode check. *)
Definition mode_checked (t l p : Z) (s : machine) : machine :=
  if which_eqb (current s) Fast then
    if (p >? MIN_PERIOD * 3) && (l =? 1) then
      set_current Slow
        (in_slow set_first_time 1
           (in_slow set_prev_ticks t
              (in_slow set_period (p / 2) (set_GIMSK (_BV INT0) s))))
    else s
  else if period (slow_cnt s) <? MIN_PERIOD then
    set_current Fast (set_GIMSK 0 s)
  else s.

(** The machine after [slow_mode]. *)
Definition forced_slow (s : machine) : machine :=
  {| slow_cnt := set_period MAX_PERIOD (set_first_time 1 (slow_cnt s));
     fast_cnt := set_current_log2num_events 1
                   (set_first_time 1 (fast_cnt s));
     current := Slow;
     fast_wd := fast_wd s;
     timer0_overflow_count := timer0_overflow_count s;
     counter_high := counter_high s;
     cmp_high := 0;
     TCNT0 := TCNT0 s;
     TIFR0 := TIFR0 s;
     TCNT1 := 0;
     OCR1A := 1;
     GIMSK := _BV INT0;
     calls := SetTimerCmpReg 1 :: SlowMode :: calls s |}.

(** The test [fast_wd-- < 0 && current == &fast_cnt] of the loop. *)
Definition watchdog_expired (s : machine) : bool :=
  (fast_wd s <? 0) && which_eqb (current s) Fast.

(** The machine after one turn of the polling loop. *)
Definition polled (s : machine) : machine :=
  if watchdog_expired s
  then forced_slow (set_fast_wd WD_TOP s)
  else set_fast_wd (s8 (fast_wd s - 1)) s.

(** ** Runs of events *)

(** The machine after some events; an event that faults is skipped. *)
Fixpoint reach (es : list event) (s : machine) : machine :=
  match es with
  | [] => s
  | e :: es' =>
      match exec (handle e) s with
      | Some s' => reach es' s'
      | None => s
      end
  end.

(** How often [slow_mode] has been called. *)
Fixpoint slow_mode_calls (cs : list call) : nat :=
  match cs with
  | [] => O
  | SlowMode :: cs' => S (slow_mode_calls cs')
  | SetTimerCmpReg _ :: cs' => slow_mode_calls cs'
  end.

(** The turns of the polling loop among some events. *)
Fixpoint polling_turns (es : list event) : Z :=
  match es with
  | [] => 0
  | PollingTurn :: es' => 1 + polling_turns es'
  | _ :: es' => polling_turns es'
  end.

(** No compare-match is served, and no edge interrupt (which is masked
    while the fast counter is the current one). *)
Fixpoint fast_mode_silent (es : list event) : bool :=
  match es with
  | [] => true
  | (CompareMatch | EdgeInterrupt) :: _ => false
  | _ :: es' => fast_mode_silent es'
  end.

(** A call that stays within the exponents the counter is built for. *)
Definition call_ok (c : call) : Prop :=
  match c with
  | SetTimerCmpReg log2ne => 1 <= log2ne <= 20
  | SlowMode => True
  end.

(** The exponent of the next window of the fast counter, and every
    exponent [set_timer_cmp_reg] has been called with, is within 1..20. *)
Definition exponent_ok (s : machine) : Prop :=
  1 <= current_log2num_events (fast_cnt s) <= 20 /\
  Forall call_ok (calls s).

(** The edge interrupt is served only while [GIMSK] enables it; the
    timer interrupts are enabled from the start on. *)
Definition can_be_served (e : event) (s : machine) : bool :=
  match e with
  | EdgeInterrupt => Z.testbit (GIMSK s) INT0
  | _ => true
  end.

(** States the machine can be in while [main] loops, interrupts being
    served only when enabled. *)
Inductive in_service : machine -> Prop :=
| in_service_started : in_service started
| in_service_step e s s' :
    in_service s -> can_be_served e s = true ->
    exec (handle e) s = Some s' -> in_service s'.

(** The machine after some events, each served only if enabled. *)
Fixpoint serve (es : list event) (s : machine) : option machine :=
  match es with
  | [] => Some s
  | e :: es' =>
      if can_be_served e s then
        match exec (handle e) s with
        | Some s' => serve es' s'
        | None => None
        end
      else None
  end.

(** The machine after [serve], or as it was if an event could not be
    served. *)
Definition served (es : list event) (s : machine) : machine :=
  match serve es s with
  | Some s' => s'
  | None => s
  end.

(** What [GIMSK] holds while a counter is the current one. *)
Definition edge_mask (w : which) : Z :=
  match w with
  | Slow => _BV INT0
  | Fast => 0
  end.

(** The events timer 1 and the extended counter let pass per window. *)
Definition events_per_window (s : machine) : Z :=
  (OCR1A s + 1) * (cmp_high s + 1).

(** What the handlers and the polling loop keep between them. *)
Definition arbitrated (s : machine) : Prop :=
  let e := current_log2num_events (fast_cnt s) in
  GIMSK s = edge_mask (current s) /\
  (current s = Slow -> e = 1) /\
  1 <= e <= 20 /\
  OCR1A s = (if e <=? 16 then 2 ^ e - 1 else 65535) /\
  cmp_high s = (if e <=? 16 then 0 else 2 ^ (e - 16) - 1) /\
  log2num_events (slow_cnt s) = 0.

(** The machine after the pending overflow of timer 0 has been served:
    the hardware clears the flag [TOV0] as it enters the handler. *)
Definition overflow_served (s : machine) : machine :=
  set_timer0_overflow_count (u32 (timer0_overflow_count s + 1))
    (timer0_runs (TCNT0 s) (Z.clearbit (TIFR0 s) TOV0) s).

(** Timer 0 wraps from 255 to 0 and raises [TOV0]. *)
Definition timer0_wraps (s : machine) : machine :=
  timer0_runs 0 (Z.setbit (TIFR0 s) TOV0) s.

(** ** Commands and what they keep *)

(** A command that, where it runs to its end, keeps a property of the
    state. *)
Definition keeps {S A : Type} (I : S -> Prop) (c : M S A) : Prop :=
  forall s a s', I s -> c s = Ok (a, s') -> I s'.

(** ** What the display shows *)

(** The band a frequency is displayed in: the entry the scan stops at. *)
Definition in_band (freq : Z) (i : Z) : Prop :=
  exists b, range_at i = Ok b /\ min b <= freq <= max b.

(** The characters of a C string: those before the first NUL. *)
Fixpoint c_string (buf : list ascii) : list ascii :=
  match buf with
  | [] => []
  | c :: buf' => if Ascii.eqb c NUL then [] else c :: c_string buf'
  end.

(** A text as the display shows it: cut or filled with spaces to eight
    characters. *)
Definition padded (w : list ascii) : list ascii :=
  firstn 8 (w ++ repeat " "%char 8).

(** The line on the display is the one [prev_line] remembers. *)
Definition in_step (d : display) : Prop :=
  List.length (prev_line d) = 9%nat /\
  In NUL (prev_line d) /\
  List.length (lcd_line d) = 8%nat /\
  lcd_line d = padded (c_string (prev_line d)).

(** While [display_freq] formats, the terminator of [line] stays in
    place: [pos] starts at the least significant digit, at most 5, and
    only goes down. *)
Definition terminated (l : locals) : Prop :=
  nth_error (line l) 8 = Some NUL /\ pos l <= 5.

Definition placeholder : list ascii := list_ascii_of_string "---".

(** What holds of the display between two calls of [display_measurement]:
    it shows what [prev_line] remembers, a remembered frequency of 0 means
    the placeholder is on it, and [curr_range] is inside the table. *)
Definition settled (d : display) : Prop :=
  in_step d /\
  (prev_freq d = 0 -> c_string (prev_line d) = placeholder) /\
  0 <= curr_range d < 5.

(** The display states [display_measurement] leads to, at a clock. *)
Inductive displayed (F_CPU : Z) : display -> Prop :=
| displayed_blank : displayed F_CPU blank
| displayed_next n ticks d d' :
    displayed F_CPU d ->
    0 <= ticks ->
    display_measurement F_CPU n ticks d = Ok (tt, d') ->
    displayed F_CPU d'.

(** The character [freq % 10 + '0']. *)
Definition digit_char (f : Z) : ascii :=
  ascii_of_N (Z.to_N (u8 (f mod 10 + 48))).

(** The value of a decimal digit. *)
Definition digit_of (c : ascii) : option Z :=
  let n := Z.of_N (N_of_ascii c) in
  if (48 <=? n) && (n <=? 57) then Some (n - 48) else None.

(** The number a text shows: its decimal digits read from the left, the
    other characters skipped. *)
Fixpoint number_shown (acc : Z) (cs : list ascii) : Z :=
  match cs with
  | [] => acc
  | c :: cs' =>
      match digit_of c with
      | Some v => number_shown (acc * 10 + v) cs'
      | None => number_shown acc cs'
      end
  end.

(** A line as [display_freq] lays it out in the range [b] for [freq]:
    eight characters, the decimal point in the column of the range, "Hz"
    at the end with the prefix of the range before it (where the last
    digit does not take its place), and the digits of [freq] divided by
    the divisor of the range. *)
Definition rendered (b : band) (freq : Z) (w : list ascii) : Prop :=
  List.length w = 8%nat /\
  forallb (fun c => negb (Ascii.eqb c NUL)) w = true /\
  number_shown 0 w = freq / divisor b /\
  nth_error w (Z.to_nat (point b)) = Some "."%char /\
  skipn 6 w = ["H"; "z"]%char /\
  (lsd b = 4 -> nth_error w 5 = Some (prefix b)).

(** ** Instances *)

(** An instance: a window of 2500 ticks at exponent 3 is followed by
    windows at exponent 5. *)
Definition short_window : machine :=
  timer0_runs 196 0
    (set_timer0_overflow_count 9
       (set_fast_cnt (mkCounter 2400 3 0 3 0) started)).

(** An instance: a fast signal raises the exponent to 20, then the signal
    stops and the watchdog forces the slow mode. *)
Definition busy_then_silent : list event :=
  [ EdgeInterrupt; EdgeInterrupt; CompareMatch; Timer1Counts 1;
    CompareMatch; PollingTurn; PollingTurn; PollingTurn; PollingTurn;
    PollingTurn; PollingTurn ].

(** The machine after the edge interrupt has been served twice within
    the same tick: the fast counter is the current one, the countdown of
    the watchdog is at [WD_TOP]. *)
Definition fast_active : machine :=
  reach [EdgeInterrupt; EdgeInterrupt] started.

(** A fast signal is measured with 2^12 events to the window and stops;
    the watchdog forces the slow mode; the signal comes back, fast. *)
Definition stale_exponent : list event :=
  [EdgeInterrupt; EdgeInterrupt; CompareMatch; Timer0Counts 5 0; CompareMatch]
  ++ repeat Timer0Overflow 40 ++ [CompareMatch]
  ++ repeat PollingTurn 6 ++ [EdgeInterrupt; EdgeInterrupt].

(** A window of 100000 ticks at exponent 5 is followed by windows at
    exponent 3. *)
Definition long_window : machine :=
  timer0_runs 160 0
    (set_timer0_overflow_count 390
       (set_fast_cnt (mkCounter 20000 5 0 5 0) (set_current Fast started))).

(** A window of 100000 ticks for two events. *)
Definition slow_signal : machine :=
  timer0_runs 160 0
    (set_timer0_overflow_count 390
       (set_fast_cnt (mkCounter 20000 1 0 1 0) (set_current Fast started))).

(** A fast signal has raised the exponent to 20 and three compare-matches
    of the sixteen of a window have been counted. *)
Definition mid_window : machine :=
  served [EdgeInterrupt; EdgeInterrupt; CompareMatch; CompareMatch;
          CompareMatch; CompareMatch; CompareMatch] started.

(** The same, and then the signal stops until the watchdog expires. *)
Definition silenced : machine := served (repeat PollingTurn 6) mid_window.

(** The exponent is 20: fifteen compare-matches, and the sixteenth
    stores a result. *)
Definition window_start : machine :=
  served [EdgeInterrupt; EdgeInterrupt; CompareMatch; CompareMatch] started.

(** An overflow of timer 0 is pending, 7 ticks after the wrap. *)
Definition overflow_pending : machine :=
  timer0_runs 7 1 (set_timer0_overflow_count 41 started).

(** Timer 0 is at its last count before a wrap. *)
Definition about_to_wrap : machine :=
  timer0_runs 255 0 (set_timer0_overflow_count 41 started).

(** The display after a first line has been shown. *)
Definition shown_once : display :=
  match show_line (literal "12.3 Hz") blank with
  | Ok (_, d) => d
  | Fault _ => blank
  end.

(** The display after a measurement of 2^4 events in 5000 ticks at
    20 MHz: 1 kHz. *)
Definition showing_1kHz : display :=
  match display_measurement F_CPU_20MHz 4 5000 blank with
  | Ok (_, d) => d
  | Fault _ => blank
  end.

(** ** Tactics *)

(** Projections of records that are written out. *)
Ltac simpl_machine :=
  cbn [slow_cnt fast_cnt current fast_wd timer0_overflow_count counter_high
       cmp_high TCNT0 TIFR0 TCNT1 OCR1A GIMSK calls
       period log2num_events first_time current_log2num_events prev_ticks
       negb andb fst snd].

(** Unfolds the plumbing of a command applied to a state. *)
Ltac step_cmd :=
  unfold bind, rd, wr, ret, lift, raise;
  unfold in_slow, in_fast, set_slow_cnt, set_fast_cnt, set_current,
    set_fast_wd, set_timer0_overflow_count, set_counter_high, set_cmp_high,
    set_TCNT1, set_OCR1A, set_GIMSK, log_call, timer0_runs, timer1_runs,
    set_period, set_log2num_events, set_first_time,
    set_current_log2num_events, set_prev_ticks;
  simpl_machine.

(** * Properties *)

(** ** Machine integers *)


Lemma u16_range x : 0 <= u16 x < 65536.
Proof. unfold u16. change (2 ^ 16) with 65536. apply Z.mod_pos_bound. lia. Qed.

Lemma u32_range x : 0 <= u32 x < 4294967296.
Proof.
  unfold u32. change (2 ^ 32) with 4294967296. apply Z.mod_pos_bound. lia.
Qed.

Lemma u8_small x : 0 <= x < 256 -> u8 x = x.
Proof. intros H. unfold u8. apply Z.mod_small. exact H. Qed.

Lemma u16_small x : 0 <= x < 65536 -> u16 x = x.
Proof. intros H. unfold u16. apply Z.mod_small. exact H. Qed.

Lemma u32_small x : 0 <= x < 4294967296 -> u32 x = x.
Proof. intros H. unfold u32. apply Z.mod_small. exact H. Qed.

Lemma u64_small x : 0 <= x < 18446744073709551616 -> u64 x = x.
Proof. intros H. unfold u64. apply Z.mod_small. exact H. Qed.

Lemma s8_small x : -128 <= x < 128 -> s8 x = x.
Proof. intros H. unfold s8. rewrite Z.mod_small; lia. Qed.

(** Wrapping an operand before the subtraction changes nothing. *)
Lemma u32_sub_u32_l a b : u32 (u32 a - b) = u32 (a - b).
Proof. unfold u32. apply Zminus_mod_idemp_l. Qed.

Lemma u32_mul_u32_l a b : u32 (u32 a * b) = u32 (a * b).
Proof. unfold u32. apply Zmult_mod_idemp_l. Qed.

(** The test [x & _BV(0)] reads bit 0. *)
Lemma land_BV0_testbit x : negb (Z.land x (_BV 0) =? 0) = Z.testbit x 0.
Proof.
  unfold _BV. change (Z.shiftl 1 0) with (Z.ones 1).
  rewrite Z.land_ones by lia. rewrite <- Z.bit0_mod.
  destruct (Z.testbit x 0); reflexivity.
Qed.

(** ** Time keeping *)

(** [cli_ticks] changes nothing. *)
Lemma cli_ticks_pure s : cli_ticks s = Ok (ticks_at s, s).
Proof. reflexivity. Qed.

(** What [cli_ticks] reads. *)
Lemma ticks_at_value (s : machine) :
  ticks_at s =
  Z.lor (u32 ((if Z.testbit (TIFR0 s) TOV0 && (TCNT0 s <? 255)
               then timer0_overflow_count s + 1
               else timer0_overflow_count s) * 256)) (TCNT0 s).
Proof.
  unfold ticks_at, cli_ticks, bind, rd, ret. unfold TOV0.
  rewrite land_BV0_testbit.
  destruct (Z.testbit (TIFR0 s) 0 && (TCNT0 s <? 255)).
  - rewrite Z.shiftl_mul_pow2 by lia. change (2 ^ 8) with 256.
    rewrite u32_mul_u32_l. reflexivity.
  - rewrite Z.shiftl_mul_pow2 by lia. reflexivity.
Qed.

(** C6. [cli_ticks] returns [(m' << 8) | t] as a 32-bit value, where [t]
    is the hardware count and [m'] is the software overflow count [m],
    plus one exactly when the overflow flag is set and [t < 255]; it
    leaves the state as it found it. The overflow handler adds one to the
    (32-bit) software overflow count and changes nothing else. *)
Theorem cli_ticks_overflow_race (s : machine) :
  let m := timer0_overflow_count s in
  let t := TCNT0 s in
  let m' := if Z.testbit (TIFR0 s) TOV0 && (t <? 255) then m + 1 else m in
  cli_ticks s = Ok (Z.lor (u32 (m' * 256)) t, s) /\
  ISR_TIM0_OVF s = Ok (tt, set_timer0_overflow_count (u32 (m + 1)) s).
Proof.
  cbv zeta. split; [| reflexivity].
  rewrite cli_ticks_pure, ticks_at_value. reflexivity.
Qed.

(** Bits 8 and up of a byte are zero. *)
Lemma high_bits_byte t n : 0 <= t < 256 -> 8 <= n -> Z.testbit t n = false.
Proof.
  intros Ht Hn. destruct (Z.eq_dec t 0) as [E | E].
  - rewrite E. apply Z.bits_0.
  - apply Z.bits_above_log2; [lia |].
    apply Z.lt_le_trans with 8; [| exact Hn].
    apply Z.log2_lt_pow2; [lia |]. change (2 ^ 8) with 256. lia.
Qed.

(** Below a multiple of 256, [|] with a byte is an addition. *)
Lemma lor_byte m t : 0 <= t < 256 -> Z.lor (m * 256) t = m * 256 + t.
Proof.
  intros Ht.
  assert (D : Z.land (m * 256) t = 0).
  { apply Z.bits_inj'. intros n Hn. rewrite Z.land_spec, Z.bits_0.
    change 256 with (2 ^ 8). rewrite <- Z.shiftl_mul_pow2 by lia.
    destruct (Z.ltb_spec n 8).
    - rewrite Z.shiftl_spec_low by lia. reflexivity.
    - rewrite (high_bits_byte t n) by lia. apply andb_false_r. }
  rewrite <- Z.lxor_lor by exact D. symmetry. apply Z.add_nocarry_lxor.
  exact D.
Qed.

(** While the overflow count stays below 2^24 and the hardware count is
    a byte, the value is the tick count itself: nothing wraps and the
    [|] is an addition. *)
Lemma cli_ticks_exact (s : machine) :
  0 <= timer0_overflow_count s < 2 ^ 24 - 1 ->
  0 <= TCNT0 s < 256 ->
  ticks_at s =
  (if Z.testbit (TIFR0 s) TOV0 && (TCNT0 s <? 255)
   then timer0_overflow_count s + 1 else timer0_overflow_count s) * 256
  + TCNT0 s.
Proof.
  intros Hm Ht. change (2 ^ 24) with 16777216 in Hm.
  rewrite ticks_at_value.
  destruct (Z.testbit (TIFR0 s) TOV0 && (TCNT0 s <? 255));
    (rewrite u32_small by lia); apply lor_byte; exact Ht.
Qed.

(** ** The slow counting mode *)

(** The first edge of an epoch only opens the window. *)
Lemma ISR_EXT_INT0_first s :
  first_time (slow_cnt s) <> 0 ->
  ISR_EXT_INT0 s =
  Ok (tt, in_slow set_prev_ticks (ticks_at s) (in_slow set_first_time 0 s)).
Proof.
  intros H. unfold ISR_EXT_INT0. unfold bind at 1. rewrite cli_ticks_pure.
  step_cmd. apply Z.eqb_neq in H. rewrite H. reflexivity.
Qed.

(** A later edge closes a window; a window of 100 ticks or more changes
    the slow counter only. *)
Lemma ISR_EXT_INT0_next s :
  first_time (slow_cnt s) = 0 ->
  100 <= u32 (ticks_at s - prev_ticks (slow_cnt s)) ->
  ISR_EXT_INT0 s =
  Ok (tt, in_slow set_prev_ticks (ticks_at s)
            (in_slow set_period
               (u32 (ticks_at s - prev_ticks (slow_cnt s))) s)).
Proof.
  intros H Hp. unfold ISR_EXT_INT0. unfold bind at 1. rewrite cli_ticks_pure.
  step_cmd. apply Z.eqb_eq in H. rewrite H. simpl_machine.
  apply Z.ltb_ge in Hp. rewrite Hp. reflexivity.
Qed.

Lemma ISR_EXT_INT0_escalates s :
  first_time (slow_cnt s) = 0 ->
  u32 (ticks_at s - prev_ticks (slow_cnt s)) < 100 ->
  ISR_EXT_INT0 s = Ok (tt, escalated s).
Proof.
  intros H Hp. unfold ISR_EXT_INT0. unfold bind at 1. rewrite cli_ticks_pure.
  step_cmd. apply Z.eqb_eq in H. rewrite H. simpl_machine.
  apply Z.ltb_lt in Hp. rewrite Hp. reflexivity.
Qed.

(** The handler always runs to its end. *)
Lemma ISR_EXT_INT0_total s : exists s', ISR_EXT_INT0 s = Ok (tt, s').
Proof.
  destruct (Z.eq_dec (first_time (slow_cnt s)) 0) as [E | E].
  - destruct (Z.lt_ge_cases (u32 (ticks_at s - prev_ticks (slow_cnt s))) 100).
    + eexists. apply ISR_EXT_INT0_escalates; assumption.
    + eexists. apply ISR_EXT_INT0_next; assumption.
  - eexists. apply ISR_EXT_INT0_first; assumption.
Qed.

(** C4. When the slow-mode handler computes a period below 100 ticks it
    has, by the time it returns, put the fast counter back to its start
    (period at the sentinel, exponent 1, first edge awaited, window
    starting at the current tick), programmed the compare register for
    two events, zeroed timer 1, disabled the edge interrupt and made the
    fast counter the current one. *)
Theorem emergency_switch_to_fast (s : machine) :
  first_time (slow_cnt s) = 0 ->
  u32 (ticks_at s - prev_ticks (slow_cnt s)) < 100 ->
  exists s',
    ISR_EXT_INT0 s = Ok (tt, s') /\
    period (slow_cnt s') = u32 (ticks_at s - prev_ticks (slow_cnt s)) /\
    period (fast_cnt s') = MAX_PERIOD /\
    current_log2num_events (fast_cnt s') = 1 /\
    first_time (fast_cnt s') = 1 /\
    prev_ticks (fast_cnt s') = ticks_at s /\
    OCR1A s' = 2 ^ 1 - 1 /\
    TCNT1 s' = 0 /\
    GIMSK s' = 0 /\
    current s' = Fast.
Proof.
  intros H Hp. exists (escalated s).
  split; [apply ISR_EXT_INT0_escalates; assumption |].
  repeat split.
Qed.

(** An instance: the edge interrupt is served twice within 50 ticks of
    the start. *)
Lemma emergency_switch_to_fast_witness :
  exists s',
    ISR_EXT_INT0
      (timer0_runs 50 0 (in_slow set_first_time 0 started)) = Ok (tt, s') /\
    period (slow_cnt s') = 50 /\
    period (fast_cnt s') = MAX_PERIOD /\
    current_log2num_events (fast_cnt s') = 1 /\
    first_time (fast_cnt s') = 1 /\
    prev_ticks (fast_cnt s') = 50 /\
    OCR1A s' = 2 ^ 1 - 1 /\
    TCNT1 s' = 0 /\
    GIMSK s' = 0 /\
    current s' = Fast.
Proof.
  apply (emergency_switch_to_fast
           (timer0_runs 50 0 (in_slow set_first_time 0 started))).
  - reflexivity.
  - vm_compute. reflexivity.
Defined.

(** C8. Two edges served by the slow-mode handler, the first one awaited
    with the period at its sentinel, the tick clock reading [P] more at
    the second than at the first and the slow counter untouched in
    between: after the first edge the period is still the sentinel, after
    the second it is [P], and the exponent of the slow counter stays 0. *)
Theorem slow_two_edges (s : machine) (P : Z) :
  first_time (slow_cnt s) <> 0 ->
  period (slow_cnt s) = MAX_PERIOD ->
  log2num_events (slow_cnt s) = 0 ->
  0 <= P < 2 ^ 32 ->
  exists s1,
    ISR_EXT_INT0 s = Ok (tt, s1) /\
    period (slow_cnt s1) = MAX_PERIOD /\
    log2num_events (slow_cnt s1) = 0 /\
    forall s2,
      slow_cnt s2 = slow_cnt s1 ->
      ticks_at s2 = u32 (ticks_at s + P) ->
      exists s3,
        ISR_EXT_INT0 s2 = Ok (tt, s3) /\
        period (slow_cnt s3) = P /\
        log2num_events (slow_cnt s3) = 0.
Proof.
  intros Hft Hper Hlog HP.
  eexists. split; [apply ISR_EXT_INT0_first; exact Hft |].
  split; [exact Hper |]. split; [exact Hlog |].
  intros s2 Hslow Hticks.
  assert (Hft2 : first_time (slow_cnt s2) = 0) by (rewrite Hslow; reflexivity).
  assert (Hpt2 : prev_ticks (slow_cnt s2) = ticks_at s)
    by (rewrite Hslow; reflexivity).
  assert (Hlog2 : log2num_events (slow_cnt s2) = 0)
    by (rewrite Hslow; exact Hlog).
  assert (Hp : u32 (ticks_at s2 - prev_ticks (slow_cnt s2)) = P).
  { rewrite Hticks, Hpt2, u32_sub_u32_l.
    replace (ticks_at s + P - ticks_at s) with P by lia.
    apply u32_small. change (2 ^ 32) with 4294967296 in HP. exact HP. }
  destruct (Z.lt_ge_cases P 100).
  - exists (escalated s2).
    split; [apply ISR_EXT_INT0_escalates; [exact Hft2 | lia] |].
    split; [exact Hp | exact Hlog2].
  - eexists.
    split; [apply ISR_EXT_INT0_next; [exact Hft2 | lia] |].
    split; [exact Hp | exact Hlog2].
Qed.

(** An instance: from the start, two edges 12345 ticks apart. *)
Lemma slow_two_edges_witness :
  exists s1,
    ISR_EXT_INT0 started = Ok (tt, s1) /\
    period (slow_cnt s1) = MAX_PERIOD /\
    log2num_events (slow_cnt s1) = 0 /\
    forall s2,
      slow_cnt s2 = slow_cnt s1 ->
      ticks_at s2 = u32 (ticks_at started + 12345) ->
      exists s3,
        ISR_EXT_INT0 s2 = Ok (tt, s3) /\
        period (slow_cnt s3) = 12345 /\
        log2num_events (slow_cnt s3) = 0.
Proof.
  apply (slow_two_edges started 12345).
  - vm_compute. discriminate.
  - reflexivity.
  - reflexivity.
  - vm_compute. split; [discriminate | reflexivity].
Defined.

(** ** The fast counting mode *)

Lemma pow2_le_16 e : 0 <= e <= 16 -> 1 <= 2 ^ e <= 65536.
Proof.
  intros He. split.
  - apply (Z.pow_le_mono_r 2 0 e); lia.
  - change 65536 with (2 ^ 16). apply Z.pow_le_mono_r; lia.
Qed.

Lemma set_timer_cmp_reg_programs e s :
  0 <= e <= 20 -> set_timer_cmp_reg e s = Ok (tt, programmed e s).
Proof.
  intros He. unfold set_timer_cmp_reg, programmed. step_cmd.
  destruct (Z.leb_spec e 16) as [Hlo | Hhi].
  - pose proof (pow2_le_16 e) as Hpow.
    rewrite Z.shiftl_1_l, u32_small, u16_small by lia. reflexivity.
  - pose proof (pow2_le_16 (e - 16)) as Hpow.
    assert (Hpow4 : 2 ^ (e - 16) <= 2 ^ 4) by (apply Z.pow_le_mono_r; lia).
    change (2 ^ 4) with 16 in Hpow4.
    unfold shl_int. rewrite Z.mul_1_l.
    replace ((0 <=? e - 16) && (e - 16 <? 16) && (2 ^ (e - 16) <=? 32767))
      with true
      by (symmetry; repeat (apply andb_true_intro; split);
          [apply Z.leb_le | apply Z.ltb_lt | apply Z.leb_le]; lia).
    rewrite u8_small by lia. reflexivity.
Qed.

(** The upward loop: from an exponent below 20 and a period below the
    target it stops after [e' - e] doublings, the first time the period
    has reached the target or the exponent has reached 20. *)
Lemma count_more_stops fuel : forall e p,
  0 <= e < 20 -> 0 <= p < MIN_PERIOD -> 20 - e <= Z.of_nat fuel ->
  exists e',
    count_more fuel e p = Ok (e', p * 2 ^ (e' - e)) /\
    e < e' <= 20 /\
    (forall k, 0 < k < e' - e -> p * 2 ^ k < MIN_PERIOD) /\
    (MIN_PERIOD <= p * 2 ^ (e' - e) \/ e' = 20).
Proof.
  unfold MIN_PERIOD.
  induction fuel as [| fuel IH]; intros e p He Hp Hfuel; [lia |].
  cbn [count_more]. unfold MIN_PERIOD.
  rewrite (u8_small (e + 1)) by lia. rewrite (u32_small (p * 2)) by lia.
  destruct (Z.ltb_spec (p * 2) 10000) as [Hlt | Hge];
    [destruct (Z.ltb_spec (e + 1) 20) as [Hlt' | Hge'] |]; cbn [andb].
  - destruct (IH (e + 1) (p * 2)) as (e' & Hrun & He' & Hall & Hstop);
      [lia | lia | lia |].
    assert (Hpow : forall j, 0 <= j -> p * 2 * 2 ^ j = p * 2 ^ (j + 1)).
    { intros j Hj. rewrite Z.pow_add_r by lia. change (2 ^ 1) with 2. lia. }
    exists e'. rewrite Hrun.
    replace (e' - e) with (e' - (e + 1) + 1) by lia.
    rewrite <- Hpow by lia.
    split; [reflexivity |]. split; [lia |]. split; [| exact Hstop].
    intros k Hk. destruct (Z.eq_dec k 1) as [-> | Hk1].
    + change (2 ^ 1) with 2. exact Hlt.
    + replace k with (k - 1 + 1) by lia. rewrite <- Hpow by lia.
      apply Hall. lia.
  - exists (e + 1). replace (e + 1 - e) with 1 by lia. change (2 ^ 1) with 2.
    split; [reflexivity |]. split; [lia |]. split; [intros k Hk; lia |].
    right. lia.
  - exists (e + 1). replace (e + 1 - e) with 1 by lia. change (2 ^ 1) with 2.
    split; [reflexivity |]. split; [lia |]. split; [intros k Hk; lia |].
    left. exact Hge.
Qed.

(** The downward loop stops at an exponent that is smaller and at
    least 1. *)
Lemma count_fewer_stops fuel : forall e p,
  1 < e < 256 -> e <= Z.of_nat fuel ->
  exists e' p', count_fewer fuel e p = Ok (e', p') /\ 1 <= e' < e.
Proof.
  induction fuel as [| fuel IH]; intros e p He Hfuel; [lia |].
  cbn [count_fewer]. rewrite (u8_small (e - 1)) by lia.
  destruct ((p / 2 >? MIN_PERIOD * 3) && (e - 1 >? 1)) eqn:Hc.
  - apply andb_prop in Hc as [_ Hc]. apply Z.gtb_lt in Hc.
    destruct (IH (e - 1) (p / 2)) as (e' & p' & Hrun & He'); [lia | lia |].
    exists e', p'. split; [exact Hrun | lia].
  - exists (e - 1), (p / 2). split; [reflexivity | lia].
Qed.

(** The three ways the adjustment can go. *)
Lemma adjust_events_more e p s :
  0 <= e < 20 -> 0 <= p < MIN_PERIOD ->
  exists e',
    adjust_events e p s =
    Ok ((e', p * 2 ^ (e' - e)),
        in_fast set_current_log2num_events e'
          (set_current Fast (set_GIMSK 0 (programmed e' s)))) /\
    e < e' <= 20 /\
    (forall k, 0 < k < e' - e -> p * 2 ^ k < MIN_PERIOD) /\
    (MIN_PERIOD <= p * 2 ^ (e' - e) \/ e' = 20).
Proof.
  intros He Hp.
  destruct (count_more_stops loop_fuel e p He Hp) as (e' & Hrun & He' & Hrest).
  { unfold loop_fuel. lia. }
  exists e'. split; [| split; [exact He' | exact Hrest]].
  unfold adjust_events.
  replace ((p <? MIN_PERIOD) && (e <? 20)) with true
    by (symmetry; apply andb_true_intro; split; apply Z.ltb_lt; lia).
  unfold bind at 1. unfold lift. rewrite Hrun. cbn [fst].
  unfold bind at 1. rewrite set_timer_cmp_reg_programs by lia.
  reflexivity.
Qed.

Lemma adjust_events_fewer e p s :
  1 < e <= 20 -> MIN_PERIOD * 3 < p ->
  exists e' p',
    adjust_events e p s =
    Ok ((e', p'), in_fast set_current_log2num_events e' (programmed e' s)) /\
    1 <= e' < e.
Proof.
  intros He Hp.
  destruct (count_fewer_stops loop_fuel e p) as (e' & p' & Hrun & He').
  { lia. } { unfold loop_fuel. lia. }
  exists e', p'. split; [| exact He'].
  unfold adjust_events.
  replace ((p <? MIN_PERIOD) && (e <? 20)) with false
    by (symmetry; apply andb_false_intro1; apply Z.ltb_ge;
        unfold MIN_PERIOD in *; lia).
  replace ((p >? MIN_PERIOD * 3) && (e >? 1)) with true
    by (symmetry; apply andb_true_intro; split; apply Z.gtb_lt; lia).
  unfold bind at 1. unfold lift. rewrite Hrun. cbn [fst].
  unfold bind at 1. rewrite set_timer_cmp_reg_programs by lia.
  reflexivity.
Qed.

Lemma adjust_events_cases e p s :
  0 <= p -> 1 <= e <= 20 ->
  (exists e' p',
      adjust_events e p s =
      Ok ((e', p'),
          in_fast set_current_log2num_events e'
            (set_current Fast (set_GIMSK 0 (programmed e' s)))) /\
      1 <= e' <= 20) \/
  (exists e' p',
      adjust_events e p s =
      Ok ((e', p'),
          in_fast set_current_log2num_events e' (programmed e' s)) /\
      1 <= e' <= 20) \/
  adjust_events e p s = Ok ((e, p), s).
Proof.
  intros Hp He.
  destruct ((p <? MIN_PERIOD) && (e <? 20)) eqn:Hup.
  - left. apply andb_prop in Hup as [H1 H2].
    apply Z.ltb_lt in H1. apply Z.ltb_lt in H2.
    destruct (adjust_events_more e p s) as (e' & Hrun & He' & _);
      [lia | lia |].
    exists e', (p * 2 ^ (e' - e)). split; [exact Hrun | lia].
  - destruct ((p >? MIN_PERIOD * 3) && (e >? 1)) eqn:Hdown.
    + right. left. apply andb_prop in Hdown as [H1 H2].
      apply Z.gtb_lt in H1. apply Z.gtb_lt in H2.
      destruct (adjust_events_fewer e p s) as (e' & p' & Hrun & He');
        [lia | lia |].
      exists e', p'. split; [exact Hrun | lia].
    + right. right. unfold adjust_events. rewrite Hup, Hdown. reflexivity.
Qed.

Lemma change_mode_runs t l p s :
  change_mode t l p s = Ok (tt, mode_checked t l p s).
Proof.
  unfold change_mode, mode_checked. step_cmd.
  destruct (which_eqb (current s) Fast).
  - destruct ((p >? MIN_PERIOD * 3) && (l =? 1)); reflexivity.
  - destruct (period (slow_cnt s) <? MIN_PERIOD); reflexivity.
Qed.

(** The mode check leaves the fast counter, the compare registers, the
    watchdog and the history alone. *)
Lemma mode_checked_frame t l p s :
  fast_cnt (mode_checked t l p s) = fast_cnt s /\
  calls (mode_checked t l p s) = calls s /\
  fast_wd (mode_checked t l p s) = fast_wd s /\
  OCR1A (mode_checked t l p s) = OCR1A s /\
  cmp_high (mode_checked t l p s) = cmp_high s /\
  counter_high (mode_checked t l p s) = counter_high s.
Proof.
  unfold mode_checked.
  destruct (which_eqb (current s) Fast);
    [destruct ((p >? MIN_PERIOD * 3) && (l =? 1)) |
     destruct (period (slow_cnt s) <? MIN_PERIOD)];
    repeat split.
Qed.

(** A compare-match that only advances the extended counter. *)
Lemma ISR_TIM1_COMPA_waits s :
  counter_high s <> cmp_high s ->
  ISR_TIM1_COMPA s =
  Ok (tt, set_counter_high (u8 (counter_high s + 1)) (set_fast_wd WD_TOP s)).
Proof.
  intros H. unfold ISR_TIM1_COMPA. unfold bind at 1. rewrite cli_ticks_pure.
  step_cmd. apply Z.eqb_neq in H. rewrite H. reflexivity.
Qed.

(** The first complete count of an epoch only opens the window. *)
Lemma ISR_TIM1_COMPA_first s :
  counter_high s = cmp_high s ->
  first_time (fast_cnt s) <> 0 ->
  ISR_TIM1_COMPA s =
  Ok (tt, in_fast set_prev_ticks (ticks_at s)
            (in_fast set_first_time 0
               (set_counter_high 0
                  (set_counter_high (u8 (counter_high s + 1))
                     (set_fast_wd WD_TOP s))))).
Proof.
  intros H Hft. unfold ISR_TIM1_COMPA. unfold bind at 1.
  rewrite cli_ticks_pure. step_cmd.
  apply Z.eqb_eq in H. rewrite H. simpl_machine.
  apply Z.eqb_neq in Hft. rewrite Hft. reflexivity.
Qed.

(** A later complete count closes the window, adjusts the number of
    events and checks the mode. *)
Lemma ISR_TIM1_COMPA_fires s :
  counter_high s = cmp_high s ->
  first_time (fast_cnt s) = 0 ->
  ISR_TIM1_COMPA s =
  (lp <- adjust_events (current_log2num_events (fast_cnt s))
           (u32 (ticks_at s - prev_ticks (fast_cnt s))) ;;
   change_mode (ticks_at s) (fst lp) (snd lp)) (window_closed s).
Proof.
  intros H Hft. unfold ISR_TIM1_COMPA. unfold bind at 1.
  rewrite cli_ticks_pure. step_cmd.
  apply Z.eqb_eq in H. rewrite H. simpl_machine.
  apply Z.eqb_eq in Hft. rewrite Hft. reflexivity.
Qed.

(** C5. A compare-match that closes a window with a period below
    [MIN_PERIOD] while the exponent [e] is below 20 runs the upward loop:
    step [k] has exponent [e + k] and tracked period [p * 2 ^ k], and the
    loop stops at the first step at which that period has reached
    [MIN_PERIOD] or the exponent has reached 20. The exponent [e'] it
    stops at is stored as the exponent of the next window and the compare
    registers are programmed for it. *)
Theorem fast_mode_counts_more (s : machine) :
  let e := current_log2num_events (fast_cnt s) in
  let p := u32 (ticks_at s - prev_ticks (fast_cnt s)) in
  counter_high s = cmp_high s ->
  first_time (fast_cnt s) = 0 ->
  0 <= e < 20 ->
  p < MIN_PERIOD ->
  exists e' s1 s',
    adjust_events e p (window_closed s) = Ok ((e', p * 2 ^ (e' - e)), s1) /\
    ISR_TIM1_COMPA s = Ok (tt, s') /\
    e < e' <= 20 /\
    (forall k, 0 < k < e' - e -> p * 2 ^ k < MIN_PERIOD) /\
    (MIN_PERIOD <= p * 2 ^ (e' - e) \/ e' = 20) /\
    current_log2num_events (fast_cnt s') = e' /\
    OCR1A s' = (if e' <=? 16 then 2 ^ e' - 1 else 65535) /\
    cmp_high s' = (if e' <=? 16 then 0 else 2 ^ (e' - 16) - 1) /\
    calls s' = SetTimerCmpReg e' :: calls s /\
    log2num_events (fast_cnt s') = e /\
    period (fast_cnt s') = p /\
    current s' = Fast.
Proof.
  intros e p Hch Hft He Hp.
  assert (Hp0 : 0 <= p) by (subst p; apply u32_range).
  destruct (adjust_events_more e p (window_closed s))
    as (e' & Hadj & He' & Hall & Hstop); [exact He | lia |].
  assert (Hsmall : p * 2 ^ (e' - e) <= MIN_PERIOD * 3).
  { unfold MIN_PERIOD in *.
    destruct (Z.eq_dec (e' - e) 1) as [E | E].
    - rewrite E. change (2 ^ 1) with 2. lia.
    - specialize (Hall (e' - e - 1)).
      replace (e' - e) with (e' - e - 1 + 1) by lia.
      rewrite Z.pow_add_r by lia. change (2 ^ 1) with 2. lia. }
  eexists e', _, _. split; [exact Hadj |].
  split.
  { rewrite ISR_TIM1_COMPA_fires by assumption.
    fold e. fold p. unfold bind. rewrite Hadj. cbn [fst snd].
    apply change_mode_runs. }
  split; [exact He' |]. split; [exact Hall |]. split; [exact Hstop |].
  unfold mode_checked.
  replace (p * 2 ^ (e' - e) >? MIN_PERIOD * 3) with false
    by (symmetry; rewrite Z.gtb_ltb; apply Z.ltb_ge; lia).
  unfold programmed.
  destruct (e' <=? 16); repeat split.
Qed.

Lemma fast_mode_counts_more_witness :
  let e := current_log2num_events (fast_cnt short_window) in
  let p := u32 (ticks_at short_window - prev_ticks (fast_cnt short_window)) in
  exists e' s1 s',
    adjust_events e p (window_closed short_window)
    = Ok ((e', p * 2 ^ (e' - e)), s1) /\
    ISR_TIM1_COMPA short_window = Ok (tt, s') /\
    e < e' <= 20 /\
    (forall k, 0 < k < e' - e -> p * 2 ^ k < MIN_PERIOD) /\
    (MIN_PERIOD <= p * 2 ^ (e' - e) \/ e' = 20) /\
    current_log2num_events (fast_cnt s') = e' /\
    OCR1A s' = (if e' <=? 16 then 2 ^ e' - 1 else 65535) /\
    cmp_high s' = (if e' <=? 16 then 0 else 2 ^ (e' - 16) - 1) /\
    calls s' = SetTimerCmpReg e' :: calls short_window /\
    log2num_events (fast_cnt s') = e /\
    period (fast_cnt s') = p /\
    current s' = Fast.
Proof.
  apply (fast_mode_counts_more short_window).
  - reflexivity.
  - reflexivity.
  - vm_compute. split; [discriminate | reflexivity].
  - vm_compute. reflexivity.
Defined.

(** What the instance computes. *)
Example short_window_result :
  ticks_at short_window = 2500 /\
  match exec ISR_TIM1_COMPA short_window with
  | Some s' => current_log2num_events (fast_cnt s') = 5
  | None => False
  end.
Proof. vm_compute. split; reflexivity. Qed.

(** ** The polling loop and the watchdog *)


Lemma poll_runs s :
  poll s = Ok ((log2num_events (counter_of (current s) s),
                period (counter_of (current s) s)), polled s).
Proof.
  unfold poll, polled, watchdog_expired. step_cmd.
  destruct (fast_wd s <? 0); [destruct (current s) |]; reflexivity.
Qed.

Lemma polling_turns_nonneg es : 0 <= polling_turns es.
Proof. induction es as [| [] es IH]; cbn [polling_turns]; lia. Qed.

(** Once the slow counter is the current one, silence keeps it so and
    [slow_mode] is not called. *)
Lemma run_silent_slow es : forall s,
  fast_mode_silent es = true ->
  current s = Slow ->
  exists s',
    run es s = Ok (tt, s') /\
    current s' = Slow /\
    slow_mode_calls (calls s') = slow_mode_calls (calls s).
Proof.
  induction es as [| e es IH]; intros s Hq Hc.
  - exists s. repeat split; assumption.
  - destruct e; cbn [fast_mode_silent] in Hq; try discriminate;
      cbn [run handle]; unfold bind.
    + (* overflow *)
      destruct (IH (set_timer0_overflow_count
                      (u32 (timer0_overflow_count s + 1)) s) Hq Hc)
        as (s' & Hrun & H1 & H2).
      exists s'. split; [exact Hrun | split; assumption].
    + (* polling turn *)
      rewrite poll_runs. cbn [ret].
      assert (Hp : polled s = set_fast_wd (s8 (fast_wd s - 1)) s).
      { unfold polled, watchdog_expired. rewrite Hc.
        rewrite andb_false_r. reflexivity. }
      rewrite Hp.
      destruct (IH (set_fast_wd (s8 (fast_wd s - 1)) s) Hq Hc)
        as (s' & Hrun & H1 & H2).
      exists s'. split; [exact Hrun | split; assumption].
    + destruct (IH (timer0_runs tcnt0 tifr0 s) Hq Hc)
        as (s' & Hrun & H1 & H2).
      exists s'. split; [exact Hrun | split; assumption].
    + destruct (IH (timer1_runs tcnt1 s) Hq Hc) as (s' & Hrun & H1 & H2).
      exists s'. split; [exact Hrun | split; assumption].
Qed.

(** With the fast counter current and the countdown at [w], silence lets
    [w + 1] turns pass; turn [w + 2] finds the countdown negative and
    calls [slow_mode]. *)
Lemma run_silent_fast es : forall s,
  fast_mode_silent es = true ->
  current s = Fast ->
  -1 <= fast_wd s <= WD_TOP ->
  exists s',
    run es s = Ok (tt, s') /\
    (polling_turns es < fast_wd s + 2 ->
     current s' = Fast /\
     fast_wd s' = fast_wd s - polling_turns es /\
     slow_mode_calls (calls s') = slow_mode_calls (calls s)) /\
    (fast_wd s + 2 <= polling_turns es ->
     current s' = Slow /\
     slow_mode_calls (calls s') = S (slow_mode_calls (calls s))).
Proof.
  unfold WD_TOP.
  induction es as [| e es IH]; intros s Hq Hc Hw.
  - exists s. cbn [polling_turns]. split; [reflexivity |].
    split; intros H; [| lia]. repeat split; [exact Hc | lia].
  - destruct e; cbn [fast_mode_silent] in Hq; try discriminate;
      cbn [run handle polling_turns]; unfold bind.
    + exact (IH (set_timer0_overflow_count
                   (u32 (timer0_overflow_count s + 1)) s) Hq Hc Hw).
    + rewrite poll_runs. cbn [ret]. unfold polled, watchdog_expired.
      rewrite Hc. cbn [which_eqb]. rewrite andb_true_r.
      pose proof (polling_turns_nonneg es) as Hn.
      destruct (Z.ltb_spec (fast_wd s) 0) as [Hneg | Hpos].
      * destruct (run_silent_slow es (forced_slow (set_fast_wd WD_TOP s)))
          as (s' & Hrun & H1 & H2); [exact Hq | reflexivity |].
        exists s'. split; [exact Hrun |].
        split; intros H; [lia |]. split; [exact H1 | exact H2].
      * destruct (IH (set_fast_wd (s8 (fast_wd s - 1)) s) Hq Hc)
          as (s' & Hrun & H1 & H2).
        { cbn [fast_wd set_fast_wd]. rewrite s8_small; lia. }
        cbn [fast_wd set_fast_wd calls] in H1, H2.
        rewrite s8_small in H1, H2 by lia.
        exists s'. split; [exact Hrun |].
        split; intros H.
        -- destruct H1 as (A & B & C); [lia |].
           split; [exact A |]. split; [lia | exact C].
        -- apply H2. lia.
    + exact (IH (timer0_runs tcnt0 tifr0 s) Hq Hc Hw).
    + exact (IH (timer1_runs tcnt1 s) Hq Hc Hw).
Qed.

(** ** The exponent of the fast counter *)

Lemma programmed_frame e s :
  slow_cnt (programmed e s) = slow_cnt s /\
  fast_cnt (programmed e s) = fast_cnt s /\
  current (programmed e s) = current s /\
  fast_wd (programmed e s) = fast_wd s /\
  calls (programmed e s) = SetTimerCmpReg e :: calls s.
Proof. unfold programmed. destruct (e <=? 16); repeat split. Qed.

Lemma started_exponent_ok : exponent_ok started.
Proof.
  split; [vm_compute; split; discriminate |].
  repeat constructor; vm_compute; discriminate.
Qed.

Lemma ISR_EXT_INT0_keeps s :
  exponent_ok s ->
  exists s', ISR_EXT_INT0 s = Ok (tt, s') /\ exponent_ok s'.
Proof.
  intros [He Hc].
  destruct (Z.eq_dec (first_time (slow_cnt s)) 0) as [E | E].
  - destruct (Z.lt_ge_cases (u32 (ticks_at s - prev_ticks (slow_cnt s))) 100).
    + eexists. split; [apply ISR_EXT_INT0_escalates; assumption |].
      split; [cbn; lia | exact Hc].
    + eexists. split; [apply ISR_EXT_INT0_next; assumption |].
      split; [exact He | exact Hc].
  - eexists. split; [apply ISR_EXT_INT0_first; assumption |].
    split; [exact He | exact Hc].
Qed.

(** The compare-match handler runs to its end, keeps the exponent within
    1..20 and rearms the watchdog. *)
Lemma ISR_TIM1_COMPA_keeps s :
  exponent_ok s ->
  exists s',
    ISR_TIM1_COMPA s = Ok (tt, s') /\ exponent_ok s' /\ fast_wd s' = WD_TOP.
Proof.
  intros [He Hc].
  destruct (Z.eq_dec (counter_high s) (cmp_high s)) as [Hch | Hch].
  2:{ eexists. split; [apply ISR_TIM1_COMPA_waits; exact Hch |].
      split; [split; [exact He | exact Hc] | reflexivity]. }
  destruct (Z.eq_dec (first_time (fast_cnt s)) 0) as [Hft | Hft].
  2:{ eexists. split; [apply ISR_TIM1_COMPA_first; assumption |].
      split; [split; [exact He | exact Hc] | reflexivity]. }
  rewrite ISR_TIM1_COMPA_fires by assumption.
  set (e := current_log2num_events (fast_cnt s)) in *.
  set (p := u32 (ticks_at s - prev_ticks (fast_cnt s))).
  assert (Hp : 0 <= p) by apply u32_range.
  unfold bind.
  destruct (adjust_events_cases e p (window_closed s) Hp He)
    as [(e' & p' & Hrun & He') | [(e' & p' & Hrun & He') | Hrun]];
    rewrite Hrun; cbn [fst snd]; rewrite change_mode_runs;
    eexists; (split; [reflexivity |]);
    match goal with
    | |- context [mode_checked ?t ?l ?q ?x] =>
        destruct (mode_checked_frame t l q x) as (F1 & F2 & F3 & _)
    end;
    unfold exponent_ok; rewrite F1, F2, F3.
  - destruct (programmed_frame e' (window_closed s)) as (_ & _ & _ & G1 & G2).
    cbn [in_fast set_fast_cnt set_current set_GIMSK fast_cnt calls fast_wd
         set_current_log2num_events current_log2num_events].
    rewrite G1, G2.
    split; [split; [exact He' | constructor; [exact He' | exact Hc]] |].
    reflexivity.
  - destruct (programmed_frame e' (window_closed s)) as (_ & _ & _ & G1 & G2).
    cbn [in_fast set_fast_cnt fast_cnt calls fast_wd
         set_current_log2num_events current_log2num_events].
    rewrite G1, G2.
    split; [split; [exact He' | constructor; [exact He' | exact Hc]] |].
    reflexivity.
  - split; [split; [exact He | exact Hc] | reflexivity].
Qed.

Lemma poll_keeps s : exponent_ok s -> exponent_ok (polled s).
Proof.
  intros [He Hc]. unfold polled.
  destruct (watchdog_expired s).
  - split; [cbn; lia |].
    cbn [forced_slow calls set_fast_wd].
    repeat constructor; [lia | lia | exact Hc].
  - split; [exact He | exact Hc].
Qed.

(** Every event is handled to its end and keeps the exponent of the
    fast counter, and the arguments [set_timer_cmp_reg] has seen, within
    1..20. *)
Lemma handle_keeps e s :
  exponent_ok s ->
  exists s', handle e s = Ok (tt, s') /\ exponent_ok s'.
Proof.
  intros H. destruct e; cbn [handle].
  - apply ISR_EXT_INT0_keeps. exact H.
  - destruct (ISR_TIM1_COMPA_keeps s H) as (s' & Hrun & Hok & _).
    exists s'. split; assumption.
  - eexists. split; [reflexivity | exact H].
  - unfold bind. rewrite poll_runs. eexists. split; [reflexivity |].
    apply poll_keeps. exact H.
  - eexists. split; [reflexivity | exact H].
  - eexists. split; [reflexivity | exact H].
Qed.

Lemma reachable_exponent_ok s : reachable s -> exponent_ok s.
Proof.
  induction 1 as [| e s s' _ IH Hstep].
  - exact started_exponent_ok.
  - destruct (handle_keeps e s IH) as (s1 & Hrun & Hok).
    unfold exec in Hstep. rewrite Hrun in Hstep.
    injection Hstep as <-. exact Hok.
Qed.

(** C10. In every state the machine can reach, the exponent for the
    next window of the fast counter is within 1..20, every event is
    handled to its end, and every call of [set_timer_cmp_reg] made so far
    had an exponent within 1..20, so that the shift by [log2ne - 16] in
    its branch for more than 2^16 events was by 4 at most. *)
Theorem fast_exponent_in_range (s : machine) :
  reachable s ->
  1 <= current_log2num_events (fast_cnt s) <= 20 /\
  (forall e, exists s', handle e s = Ok (tt, s') /\ reachable s') /\
  (forall log2ne,
      In (SetTimerCmpReg log2ne) (calls s) ->
      1 <= log2ne <= 20 /\ log2ne - 16 <= 4).
Proof.
  intros Hr. destruct (reachable_exponent_ok s Hr) as [He Hc].
  split; [exact He |]. split.
  - intros e. destruct (handle_keeps e s (conj He Hc)) as (s' & Hrun & _).
    exists s'. split; [exact Hrun |].
    apply (reachable_step e s s' Hr). unfold exec. rewrite Hrun. reflexivity.
  - intros l Hin. rewrite Forall_forall in Hc.
    specialize (Hc _ Hin). cbn [call_ok] in Hc. lia.
Qed.

Lemma reach_reachable es : forall s, reachable s -> reachable (reach es s).
Proof.
  induction es as [| e es IH]; intros s Hr; cbn [reach]; [exact Hr |].
  destruct (exec (handle e) s) as [s' |] eqn:E; [| exact Hr].
  apply IH. exact (reachable_step e s s' Hr E).
Qed.

Lemma fast_exponent_in_range_witness :
  1 <= current_log2num_events (fast_cnt (reach busy_then_silent started))
    <= 20 /\
  (forall e, exists s',
      handle e (reach busy_then_silent started) = Ok (tt, s') /\
      reachable s') /\
  (forall log2ne,
      In (SetTimerCmpReg log2ne) (calls (reach busy_then_silent started)) ->
      1 <= log2ne <= 20 /\ log2ne - 16 <= 4).
Proof.
  apply (fast_exponent_in_range (reach busy_then_silent started)).
  apply reach_reachable. exact reachable_started.
Defined.

Example busy_then_silent_calls :
  calls (reach busy_then_silent started) =
  [SetTimerCmpReg 1; SlowMode; SetTimerCmpReg 20; SetTimerCmpReg 1].
Proof. vm_compute. reflexivity. Qed.

(** C3, as stated, fails: with the countdown at 4 and the fast counter
    current, four turns of the polling loop without a compare-match bring
    the countdown to 0 and do not call [slow_mode]. *)
Lemma four_turns_do_not_force_slow_mode :
  current fast_active = Fast /\
  fast_wd fast_active = WD_TOP /\
  slow_mode_calls (calls fast_active) = 0%nat /\
  exists s',
    run [PollingTurn; PollingTurn; PollingTurn; PollingTurn] fast_active
    = Ok (tt, s') /\
    slow_mode_calls (calls s') = 0%nat /\
    current s' = Fast /\
    fast_wd s' = 0.
Proof.
  split; [reflexivity |]. split; [reflexivity |]. split; [reflexivity |].
  eexists. split; [vm_compute; reflexivity |].
  repeat split.
Qed.

(** C3, amended. With the countdown at [WD_TOP = 4], the fast counter
    current and no compare-match served, the first five turns of the
    polling loop only count down, to -1, and the sixth, the first to find
    the countdown negative, calls [slow_mode]: once, however many turns
    follow. Every turn decrements the countdown once (the turn that calls
    [slow_mode] then sets it to [WD_TOP]), and every compare-match sets it
    to [WD_TOP]. *)
Theorem watchdog_forces_slow_mode (es : list event) (s t : machine) :
  fast_mode_silent es = true ->
  current s = Fast ->
  fast_wd s = WD_TOP ->
  (exists s',
      run es s = Ok (tt, s') /\
      (polling_turns es <= 5 ->
       current s' = Fast /\
       fast_wd s' = WD_TOP - polling_turns es /\
       slow_mode_calls (calls s') = slow_mode_calls (calls s)) /\
      (6 <= polling_turns es ->
       current s' = Slow /\
       slow_mode_calls (calls s') = S (slow_mode_calls (calls s)))) /\
  (exists np, poll t = Ok (np, polled t)) /\
  fast_wd (polled t) =
    (if watchdog_expired t then WD_TOP else s8 (fast_wd t - 1)) /\
  (exponent_ok t ->
   exists t', ISR_TIM1_COMPA t = Ok (tt, t') /\ fast_wd t' = WD_TOP).
Proof.
  intros Hq Hc Hw. split; [| split; [| split]].
  - destruct (run_silent_fast es s Hq Hc) as (s' & Hrun & H1 & H2).
    { rewrite Hw. unfold WD_TOP. lia. }
    rewrite Hw in H1, H2. unfold WD_TOP in *.
    exists s'. split; [exact Hrun |]. split; intros H.
    + apply H1. lia.
    + apply H2. lia.
  - eexists. apply poll_runs.
  - unfold polled. destruct (watchdog_expired t); reflexivity.
  - intros Hok. destruct (ISR_TIM1_COMPA_keeps t Hok) as (t' & Hrun & _ & H).
    exists t'. split; assumption.
Qed.

(** An instance: six turns of the polling loop. *)
Lemma watchdog_forces_slow_mode_witness :
  (exists s',
      run (repeat PollingTurn 6) fast_active = Ok (tt, s') /\
      (polling_turns (repeat PollingTurn 6) <= 5 ->
       current s' = Fast /\
       fast_wd s' = WD_TOP - polling_turns (repeat PollingTurn 6) /\
       slow_mode_calls (calls s') = slow_mode_calls (calls fast_active)) /\
      (6 <= polling_turns (repeat PollingTurn 6) ->
       current s' = Slow /\
       slow_mode_calls (calls s')
       = S (slow_mode_calls (calls fast_active)))) /\
  (exists np, poll fast_active = Ok (np, polled fast_active)) /\
  fast_wd (polled fast_active) =
    (if watchdog_expired fast_active then WD_TOP
     else s8 (fast_wd fast_active - 1)) /\
  (exponent_ok fast_active ->
   exists t', ISR_TIM1_COMPA fast_active = Ok (tt, t') /\ fast_wd t' = WD_TOP).
Proof.
  apply (watchdog_forces_slow_mode (repeat PollingTurn 6) fast_active
           fast_active); reflexivity.
Defined.

(** The countdown over the six turns. *)
Example countdown_of_six_turns :
  map (fun n => option_map fast_wd
                  (exec (run (repeat PollingTurn n)) fast_active))
      [1; 2; 3; 4; 5; 6]%nat
  = [Some 3; Some 2; Some 1; Some 0; Some (-1); Some 4] /\
  map (fun n => option_map current
                  (exec (run (repeat PollingTurn n)) fast_active))
      [4; 5; 6]%nat
  = [Some Fast; Some Fast; Some Slow].
Proof. vm_compute. split; reflexivity. Qed.

(** ** The frequency computation *)

(** Adding half the divisor before dividing rounds to nearest, halves
    upwards. *)
Lemma add_half_rounds a t : 0 < t -> (a + t / 2) / t = round_half_up a t.
Proof.
  intros Ht. unfold round_half_up.
  rewrite <- Z.div_div by lia.
  replace (2 * a + t) with (a * 2 + t) by lia.
  rewrite Z.div_add_l by lia. reflexivity.
Qed.

Lemma pow2_le_20 n : 0 <= n <= 20 -> 1 <= 2 ^ n <= 1048576.
Proof.
  intros Hn. split.
  - apply (Z.pow_le_mono_r 2 0 n); lia.
  - change 1048576 with (2 ^ 20). apply Z.pow_le_mono_r; lia.
Qed.

(** C1, as stated, fails. At 20 MHz, exponent 11 and one tick the rounded
    quotient is 6400000000, which the 32-bit variable [f] cannot hold; and
    at exponent 10 and the largest period the 32-bit sum wraps, giving 0
    where the rounded quotient is 1. *)
Lemma frequency_not_exact :
  frequency F_CPU_20MHz 11 1 = Ok 2105032704 /\
  round_half_up (tick_constant F_CPU_20MHz * 2 ^ 11) 1 = 6400000000 /\
  frequency F_CPU_20MHz 10 4294967295 = Ok 0 /\
  round_half_up (tick_constant F_CPU_20MHz * 2 ^ 10) 4294967295 = 1.
Proof. vm_compute. repeat split. Qed.

(** C1, amended. With [K = 10 * F_CPU / 64] computed without overflow,
    an exponent within 0..20 and ticks within 1..0xffffffff: the 64-bit
    branch (exponent 11 and up) yields the rounded quotient of [K * 2^n]
    by [ticks] reduced modulo 2^32, and so does the 32-bit branch
    whenever [K * 2^n + ticks / 2] fits 32 bits; the result is the
    rounded quotient itself whenever that is below 2^32. *)
Theorem frequency_rounds_half_up (F_CPU n ticks : Z) :
  0 <= 10 * F_CPU < 2 ^ 32 ->
  0 <= n <= 20 ->
  0 < ticks <= MAX_PERIOD ->
  (n < 11 -> tick_constant F_CPU * 2 ^ n + ticks / 2 < 2 ^ 32) ->
  frequency F_CPU n ticks
  = Ok (u32 (round_half_up (tick_constant F_CPU * 2 ^ n) ticks)) /\
  (round_half_up (tick_constant F_CPU * 2 ^ n) ticks < 2 ^ 32 ->
   frequency F_CPU n ticks
   = Ok (round_half_up (tick_constant F_CPU * 2 ^ n) ticks)).
Proof.
  unfold MAX_PERIOD, tick_constant.
  change (2 ^ 32) with 4294967296.
  intros HF Hn Ht Hfit.
  pose proof (pow2_le_20 n Hn) as Hpow.
  set (K := 10 * F_CPU / 64) in *.
  assert (HK : 0 <= K < 67108864).
  { subst K. split.
    - apply Z.div_pos; lia.
    - apply Z.div_lt_upper_bound; lia. }
  assert (Hhalf : 0 <= ticks / 2 < 2147483648).
  { split.
    - apply Z.div_pos; lia.
    - apply Z.div_lt_upper_bound; lia. }
  assert (Hprod : 0 <= K * 2 ^ n <= 67108864 * 1048576) by nia.
  assert (Hround : 0 <= round_half_up (K * 2 ^ n) ticks).
  { rewrite <- add_half_rounds by lia. apply Z.div_pos; lia. }
  assert (Hfreq : frequency F_CPU n ticks
                  = Ok (u32 (round_half_up (K * 2 ^ n) ticks))).
  { unfold frequency. destruct (Z.ltb_spec n 11) as [Hlo | Hhi].
    - specialize (Hfit Hlo).
      unfold udiv. replace (ticks =? 0) with false
        by (symmetry; apply Z.eqb_neq; lia).
      rewrite (u32_small (10 * F_CPU)) by lia. fold K.
      rewrite (u32_small (K * 2 ^ n)) by lia.
      rewrite (u32_small (K * 2 ^ n + ticks / 2)) by lia.
      rewrite add_half_rounds by lia.
      rewrite u32_small; [reflexivity |].
      split; [exact Hround |].
      rewrite <- add_half_rounds by lia.
      apply Z.div_lt_upper_bound; nia.
    - unfold shl_u64.
      replace ((0 <=? n) && (n <? 64)) with true
        by (symmetry; apply andb_true_intro; split;
            [apply Z.leb_le | apply Z.ltb_lt]; lia).
      rewrite (u64_small (10 * F_CPU)) by lia. fold K.
      rewrite (u64_small (K * 2 ^ n)) by lia.
      rewrite (u64_small (K * 2 ^ n + ticks / 2)) by lia.
      unfold udiv. replace (ticks =? 0) with false
        by (symmetry; apply Z.eqb_neq; lia).
      rewrite add_half_rounds by lia. reflexivity. }
  split; [exact Hfreq |].
  intros Hsmall. rewrite Hfreq. rewrite u32_small; [reflexivity | lia].
Qed.

(** At 20 MHz the 32-bit branch fits for every period when the exponent
    is at most 9, and up to 2189934591 ticks when it is 10. *)
Lemma sum_fits_at_20MHz n ticks :
  0 <= n <= 10 ->
  0 < ticks <= MAX_PERIOD ->
  (n = 10 -> ticks <= 2189934591) ->
  tick_constant F_CPU_20MHz * 2 ^ n + ticks / 2 < 2 ^ 32.
Proof.
  unfold MAX_PERIOD. intros Hn Ht H10.
  change (tick_constant F_CPU_20MHz) with 3125000.
  change (2 ^ 32) with 4294967296.
  assert (Hhalf : ticks / 2 < 2147483648)
    by (apply Z.div_lt_upper_bound; lia).
  destruct (Z.eq_dec n 10) as [-> | Hne].
  - specialize (H10 eq_refl). change (2 ^ 10) with 1024.
    assert (ticks / 2 < 1094967296) by (apply Z.div_lt_upper_bound; lia).
    lia.
  - assert (H9 : 2 ^ n <= 2 ^ 9) by (apply Z.pow_le_mono_r; lia).
    change (2 ^ 9) with 512 in H9. lia.
Qed.

(** An instance: the two exponents around the switch of width, at
    20 MHz and 16000 ticks. *)
Lemma frequency_rounds_half_up_witness :
  (frequency F_CPU_20MHz 10 16000
   = Ok (u32 (round_half_up (tick_constant F_CPU_20MHz * 2 ^ 10) 16000)) /\
   (round_half_up (tick_constant F_CPU_20MHz * 2 ^ 10) 16000 < 2 ^ 32 ->
    frequency F_CPU_20MHz 10 16000
    = Ok (round_half_up (tick_constant F_CPU_20MHz * 2 ^ 10) 16000))) /\
  (frequency F_CPU_20MHz 11 16000
   = Ok (u32 (round_half_up (tick_constant F_CPU_20MHz * 2 ^ 11) 16000)) /\
   (round_half_up (tick_constant F_CPU_20MHz * 2 ^ 11) 16000 < 2 ^ 32 ->
    frequency F_CPU_20MHz 11 16000
    = Ok (round_half_up (tick_constant F_CPU_20MHz * 2 ^ 11) 16000))).
Proof.
  split.
  - apply (frequency_rounds_half_up F_CPU_20MHz 10 16000).
    + vm_compute. split; [discriminate | reflexivity].
    + lia.
    + unfold MAX_PERIOD. lia.
    + intros _. vm_compute. reflexivity.
  - apply (frequency_rounds_half_up F_CPU_20MHz 11 16000).
    + vm_compute. split; [discriminate | reflexivity].
    + lia.
    + unfold MAX_PERIOD. lia.
    + intros H. lia.
Defined.

Example frequency_examples :
  frequency F_CPU_20MHz 10 16000 = Ok 200000 /\
  frequency F_CPU_20MHz 11 16000 = Ok 400000 /\
  frequency 100000 10 16000 = Ok 1000.
Proof. vm_compute. repeat split. Qed.

(** ** Choosing the range *)

(** *** The table *)

Lemma range_at_inside i : 0 <= i < 5 -> exists b, range_at i = Ok b.
Proof.
  intros Hi.
  assert (C : i = 0 \/ i = 1 \/ i = 2 \/ i = 3 \/ i = 4) by lia.
  destruct C as [C | [C | [C | [C | C]]]]; subst i; eexists; reflexivity.
Qed.

Lemma range_at_outside i : ~ 0 <= i < 5 -> range_at i = Fault OutOfBounds.
Proof.
  intros Hi. unfold range_at.
  destruct (Z.ltb_spec i 0) as [Hneg | Hpos]; [reflexivity |].
  replace (nth_error range (Z.to_nat i)) with (@None band); [reflexivity |].
  symmetry. apply nth_error_None. cbn [range List.length]. lia.
Qed.

Lemma range_at_index i b : range_at i = Ok b -> 0 <= i < 5.
Proof.
  intros H. destruct (Z.lt_ge_cases i 0); [| destruct (Z.lt_ge_cases i 5)];
    [| lia |]; rewrite range_at_outside in H by lia; discriminate.
Qed.

(** The bounds of an entry, entry by entry. *)
Lemma range_at_bounds i b :
  range_at i = Ok b ->
  (i = 0 /\ min b = 0 /\ max b = 9999) \/
  (i = 1 /\ min b = 9900 /\ max b = 99999) \/
  (i = 2 /\ min b = 99000 /\ max b = 999999) \/
  (i = 3 /\ min b = 990000 /\ max b = 9999999) \/
  (i = 4 /\ min b = 9900000 /\ max b = 99999999).
Proof.
  intros H. pose proof (range_at_index i b H) as Hi.
  assert (C : i = 0 \/ i = 1 \/ i = 2 \/ i = 3 \/ i = 4) by lia.
  destruct C as [C | [C | [C | [C | C]]]]; subst i;
    injection H as <-; cbn [min max]; lia.
Qed.

(** The first range starts at 0. *)
Lemma range_first b : range_at 0 = Ok b -> min b = 0.
Proof. intros H. destruct (range_at_bounds 0 b H) as [C | C]; lia. Qed.

(** No range ends above that of the last, 99999999. *)
Lemma range_last i b :
  range_at i = Ok b -> max b <= 99999999 /\ (max b = 99999999 <-> i = 4).
Proof. intros H. destruct (range_at_bounds i b H) as [C | C]; lia. Qed.

(** Each range starts within the one below it. *)
Lemma range_overlap i b b' :
  range_at i = Ok b -> range_at (i + 1) = Ok b' -> min b' <= max b.
Proof.
  intros H H'.
  destruct (range_at_bounds i b H) as [C | C],
           (range_at_bounds (i + 1) b' H') as [C' | C']; lia.
Qed.

(** *** The two loops *)

Lemma set_curr_range_same d : set_curr_range (curr_range d) d = d.
Proof. destruct d. reflexivity. Qed.

Lemma range_up_step fuel freq d b :
  range_at (curr_range d) = Ok b ->
  range_up (S fuel) freq d =
  if freq >? max b
  then range_up fuel freq (set_curr_range (u16 (curr_range d + 1)) d)
  else Ok (tt, d).
Proof.
  intros H. cbn [range_up]. unfold bind, rd, lift, wr, ret. rewrite H.
  destruct (freq >? max b); reflexivity.
Qed.

Lemma range_down_step fuel freq d b :
  range_at (curr_range d) = Ok b ->
  range_down (S fuel) freq d =
  if freq <? min b
  then range_down fuel freq (set_curr_range (u16 (curr_range d - 1)) d)
  else Ok (tt, d).
Proof.
  intros H. cbn [range_down]. unfold bind, rd, lift, wr, ret. rewrite H.
  destruct (freq <? min b); reflexivity.
Qed.

(** Up to 99999999 the upward loop stops inside the table, at an entry
    that does not end below the frequency. *)
Lemma range_up_stops fuel freq : forall d,
  freq <= 99999999 ->
  0 <= curr_range d < 5 ->
  5 - curr_range d <= Z.of_nat fuel ->
  exists j b,
    range_up fuel freq d = Ok (tt, set_curr_range j d) /\
    curr_range d <= j < 5 /\
    range_at j = Ok b /\ freq <= max b.
Proof.
  induction fuel as [| fuel IH]; intros d Hf Hi Hfuel; [lia |].
  destruct (range_at_inside _ Hi) as [b Hb].
  rewrite (range_up_step fuel freq d b Hb).
  destruct (Z.gtb_spec freq (max b)) as [Hgt | Hle].
  - destruct (range_last _ _ Hb) as [_ Hlast].
    assert (Hnot4 : curr_range d <> 4) by (intros E; apply Hlast in E; lia).
    rewrite u16_small by lia.
    destruct (IH (set_curr_range (curr_range d + 1) d)) as (j & b' & Hrun & Hj);
      cbn [curr_range set_curr_range]; try lia.
    exists j, b'. split; [exact Hrun |].
    cbn [curr_range set_curr_range] in Hj. split; [lia | apply Hj].
  - exists (curr_range d), b. rewrite set_curr_range_same.
    split; [reflexivity |]. split; [lia |]. split; [exact Hb | exact Hle].
Qed.

(** Above 99999999 the upward loop runs off the end of the table. *)
Lemma range_up_leaves_table fuel freq : forall d,
  99999999 < freq ->
  0 <= curr_range d < 5 ->
  5 - curr_range d < Z.of_nat fuel ->
  range_up fuel freq d = Fault OutOfBounds.
Proof.
  induction fuel as [| fuel IH]; intros d Hf Hi Hfuel; [lia |].
  destruct (range_at_inside _ Hi) as [b Hb].
  rewrite (range_up_step fuel freq d b Hb).
  destruct (range_last _ _ Hb) as [Hmax _].
  destruct (Z.gtb_spec freq (max b)) as [Hgt | Hle]; [| lia].
  rewrite u16_small by lia.
  destruct (Z.eq_dec (curr_range d) 4) as [E | E].
  - destruct fuel as [| fuel]; [lia |].
    cbn [range_up]. unfold bind, rd, lift. cbn [curr_range set_curr_range].
    rewrite range_at_outside by lia. reflexivity.
  - apply IH; cbn [curr_range set_curr_range]; lia.
Qed.

(** From an entry that does not end below the frequency, the downward
    loop stops inside the table, at an entry that contains it. *)
Lemma range_down_stops fuel freq : forall d b,
  0 <= freq ->
  range_at (curr_range d) = Ok b -> freq <= max b ->
  curr_range d < Z.of_nat fuel ->
  exists j,
    range_down fuel freq d = Ok (tt, set_curr_range j d) /\
    0 <= j <= curr_range d /\
    in_band freq j.
Proof.
  induction fuel as [| fuel IH]; intros d b Hf Hb Hmax Hfuel.
  { apply range_at_index in Hb. lia. }
  pose proof (range_at_index _ _ Hb) as Hi.
  rewrite (range_down_step fuel freq d b Hb).
  destruct (Z.ltb_spec freq (min b)) as [Hlt | Hge].
  - assert (Hnot0 : curr_range d <> 0).
    { intros E. rewrite E in Hb. apply range_first in Hb. lia. }
    rewrite u16_small by lia.
    destruct (range_at_inside (curr_range d - 1)) as [b' Hb']; [lia |].
    assert (Hover : min b <= max b').
    { apply (range_overlap (curr_range d - 1) b' b Hb').
      replace (curr_range d - 1 + 1) with (curr_range d) by lia. exact Hb. }
    destruct (IH (set_curr_range (curr_range d - 1) d) b') as (j & Hrun & Hj);
      cbn [curr_range set_curr_range]; try lia; try assumption.
    exists j. split; [exact Hrun |].
    cbn [curr_range set_curr_range] in Hj. split; [lia | apply Hj].
  - exists (curr_range d). rewrite set_curr_range_same.
    split; [reflexivity |]. split; [lia |].
    exists b. split; [exact Hb | lia].
Qed.

(** Within what the table covers, the scan stops at an entry of the
    table whose bounds contain the frequency, and changes nothing but
    [curr_range]. *)
Lemma change_range_finds_band freq d :
  0 <= freq <= 99999999 ->
  0 <= curr_range d < 5 ->
  exists i,
    change_range freq d = Ok (tt, set_curr_range i d) /\
    0 <= i < 5 /\
    in_band freq i.
Proof.
  intros Hf Hi. unfold change_range, bind.
  destruct (range_up_stops range_fuel freq d) as (j & b & Hup & Hj & Hb & Hmax);
    [lia | exact Hi | unfold range_fuel; lia |].
  rewrite Hup.
  destruct (range_down_stops range_fuel freq (set_curr_range j d) b)
    as (i & Hdown & Hi' & Hband);
    cbn [curr_range set_curr_range]; try assumption; try lia.
  { unfold range_fuel. lia. }
  exists i. split; [exact Hdown |].
  cbn [curr_range set_curr_range] in Hi'. split; [lia | exact Hband].
Qed.

(** Above 99999999 the scan reads past the end of the table. *)
Lemma change_range_leaves_table freq d :
  99999999 < freq ->
  0 <= curr_range d < 5 ->
  change_range freq d = Fault OutOfBounds.
Proof.
  intros Hf Hi. unfold change_range, bind.
  rewrite range_up_leaves_table; [reflexivity | exact Hf | exact Hi |].
  unfold range_fuel. lia.
Qed.

(** At an entry that contains the frequency the scan does not move. *)
Lemma change_range_settled freq d :
  in_band freq (curr_range d) -> change_range freq d = Ok (tt, d).
Proof.
  intros (b & Hb & Hmin & Hmax). unfold change_range, range_fuel, bind.
  rewrite (range_up_step _ freq d b Hb).
  replace (freq >? max b) with false
    by (symmetry; rewrite Z.gtb_ltb; apply Z.ltb_ge; lia).
  rewrite (range_down_step _ freq d b Hb).
  replace (freq <? min b) with false by (symmetry; apply Z.ltb_ge; lia).
  reflexivity.
Qed.

(** C7, as stated, fails. The last range ends at 99999999, which is a
    frequency the computation can exceed: at 20 MHz, exponent 20 and
    32768 ticks give 100000000, for which the upward loop reads
    [range[5]]. *)
Lemma range_scan_leaves_table :
  frequency F_CPU_20MHz 20 32768 = Ok 100000000 /\
  0 <= curr_range blank < 5 /\
  change_range 100000000 blank = Fault OutOfBounds /\
  display_measurement F_CPU_20MHz 20 32768 blank = Fault OutOfBounds.
Proof. vm_compute. repeat split; discriminate. Qed.

(** C7, amended. For a frequency within 1..99999999 and a current index
    inside the table, the scan (upwards while the frequency is above the
    range, then downwards while it is below) ends at an index inside the
    table of five, at a range that contains the frequency, having changed
    [curr_range] only. The first range starts at 0, so the downward loop
    does not pass index 0; the upward loop stays inside only because the
    frequency is at most the end of the last range. *)
Theorem range_scan_stays_in_table (freq : Z) (d : display) :
  0 < freq <= 99999999 ->
  0 <= curr_range d < 5 ->
  exists i,
    change_range freq d = Ok (tt, set_curr_range i d) /\
    0 <= i < 5 /\
    in_band freq i.
Proof.
  intros Hf Hi. apply change_range_finds_band; [lia | exact Hi].
Qed.

Lemma range_scan_stays_in_table_witness :
  exists i,
    change_range 12345 blank = Ok (tt, set_curr_range i blank) /\
    0 <= i < 5 /\
    in_band 12345 i.
Proof.
  apply (range_scan_stays_in_table 12345 blank).
  - lia.
  - cbn [curr_range blank]. lia.
Defined.

(** C9. A scan that ends at an index ends at the same index when it is
    run again from there with the same frequency. *)
Theorem range_scan_idempotent (freq : Z) (d d' : display) :
  0 < freq ->
  0 <= curr_range d < 5 ->
  change_range freq d = Ok (tt, d') ->
  change_range freq d' = Ok (tt, d').
Proof.
  intros Hf Hi Hrun.
  destruct (Z.le_gt_cases freq 99999999) as [Hle | Hgt].
  - destruct (change_range_finds_band freq d) as (i & Hrun' & _ & Hband);
      [lia | exact Hi |].
    rewrite Hrun' in Hrun. injection Hrun as <-.
    apply change_range_settled. exact Hband.
  - rewrite change_range_leaves_table in Hrun by (exact Hi || lia).
    discriminate.
Qed.

Lemma range_scan_idempotent_witness :
  change_range 12345 (set_curr_range 1 blank)
  = Ok (tt, set_curr_range 1 blank).
Proof.
  apply (range_scan_idempotent 12345 blank (set_curr_range 1 blank)).
  - lia.
  - cbn [curr_range blank]. lia.
  - reflexivity.
Defined.

(** ** What the display shows *)

Lemma c_string_no_NUL buf : ~ In NUL (c_string buf).
Proof.
  induction buf as [| c buf IH]; cbn [c_string]; [intros [] |].
  destruct (Ascii.eqb_spec c NUL) as [E | E]; [intros [] |].
  intros [H | H]; [congruence | exact (IH H)].
Qed.

Lemma c_string_app_NUL w r : ~ In NUL w -> c_string (w ++ NUL :: r) = w.
Proof.
  induction w as [| c w IH]; intros H; cbn [c_string app].
  - reflexivity.
  - destruct (Ascii.eqb_spec c NUL) as [E | E].
    + exfalso. apply H. left. exact E.
    + f_equal. apply IH. intros Hin. apply H. right. exact Hin.
Qed.

Lemma c_string_length buf : (List.length (c_string buf) <= List.length buf)%nat.
Proof.
  induction buf as [| c buf IH]; cbn [c_string List.length]; [lia |].
  destruct (Ascii.eqb c NUL); cbn [List.length]; lia.
Qed.

Lemma c_string_shorter buf :
  In NUL buf -> (List.length (c_string buf) < List.length buf)%nat.
Proof.
  induction buf as [| c buf IH]; intros H; [destruct H |].
  cbn [c_string List.length].
  destruct (Ascii.eqb_spec c NUL) as [E | E]; cbn [List.length]; [lia |].
  destruct H as [H | H]; [congruence |]. specialize (IH H). lia.
Qed.

Lemma strcmp_eq_total a : forall b,
  In NUL a -> In NUL b -> exists r, strcmp_eq a b = Ok r.
Proof.
  induction a as [| x a IH]; intros b Ha Hb; [destruct Ha |].
  destruct b as [| y b]; [destruct Hb |].
  cbn [strcmp_eq].
  destruct (Ascii.eqb_spec x y) as [E | E]; [| eexists; reflexivity].
  destruct (Ascii.eqb_spec x NUL) as [N | N]; [eexists; reflexivity |].
  apply IH.
  - destruct Ha as [Ha | Ha]; [congruence | exact Ha].
  - destruct Hb as [Hb | Hb]; [congruence | exact Hb].
Qed.

Lemma strcmp_eq_true a : forall b,
  strcmp_eq a b = Ok true -> c_string a = c_string b.
Proof.
  induction a as [| x a IH]; intros b H; [discriminate |].
  destruct b as [| y b]; [discriminate |].
  cbn [strcmp_eq] in H. cbn [c_string].
  destruct (Ascii.eqb_spec x y) as [E | E]; [| discriminate].
  subst y. destruct (Ascii.eqb x NUL); [reflexivity |].
  f_equal. apply IH. exact H.
Qed.

Lemma poke_nat_app a c x r :
  poke_nat (List.length a) c (a ++ x :: r) = a ++ c :: r.
Proof.
  induction a as [| y a IH]; cbn [poke_nat List.length app]; [reflexivity |].
  f_equal. exact IH.
Qed.

Lemma poke_app a c x r :
  poke (a ++ x :: r) (Z.of_nat (List.length a)) c = Ok (a ++ c :: r).
Proof.
  unfold poke. rewrite length_app. cbn [List.length].
  replace ((0 <=? Z.of_nat (List.length a)) &&
           (Z.of_nat (List.length a) <? Z.of_nat (List.length a + S (List.length r))))
    with true
    by (symmetry; apply andb_true_intro; split;
        [apply Z.leb_le | apply Z.ltb_lt]; lia).
  rewrite Nat2Z.id. rewrite poke_nat_app. reflexivity.
Qed.

Lemma char_at_app a c r :
  char_at (a ++ c :: r) (Z.of_nat (List.length a)) = Ok c.
Proof.
  unfold char_at.
  replace (Z.of_nat (List.length a) <? 0) with false
    by (symmetry; apply Z.ltb_ge; lia).
  rewrite Nat2Z.id. rewrite nth_error_app2 by lia.
  rewrite Nat.sub_diag. reflexivity.
Qed.

Lemma lcd_putc_app a c x r d :
  lcd_line d = a ++ x :: r ->
  lcd_pos d = Z.of_nat (List.length a) ->
  (List.length a < 8)%nat ->
  lcd_putc c d =
  Ok (tt, set_lcd_pos (Z.of_nat (List.length (a ++ [c])))
            (set_lcd_line (a ++ c :: r) d)).
Proof.
  intros Hl Hp Hlen. unfold lcd_putc, bind, rd, wr. rewrite Hp, Hl.
  replace ((0 <=? Z.of_nat (List.length a)) && (Z.of_nat (List.length a) <? 8))
    with true
    by (symmetry; apply andb_true_intro; split;
        [apply Z.leb_le | apply Z.ltb_lt]; lia).
  rewrite Nat2Z.id, poke_nat_app.
  rewrite length_app. cbn [List.length].
  replace (Z.of_nat (List.length a + 1)) with (Z.of_nat (List.length a) + 1)
    by lia.
  destruct d; reflexivity.
Qed.

(** The copying loop of [show_line], started with [a] already copied:
    it copies the characters of the string up to its NUL or up to eight
    in all, to [prev_line] and to the display alike. *)
Lemma show_line_copy_copies fuel : forall a sr pr lr pf cr,
  In NUL sr ->
  (List.length a + List.length pr = 9)%nat ->
  (List.length a + List.length lr = 8)%nat ->
  (8 - List.length a < fuel)%nat ->
  exists w pr' lr',
    w = firstn (8 - List.length a) (c_string sr) /\
    show_line_copy fuel (a ++ sr) (Z.of_nat (List.length a))
      (mkDisplay (a ++ pr) pf cr (Z.of_nat (List.length a)) (a ++ lr))
    = Ok (Z.of_nat (List.length (a ++ w)),
          mkDisplay ((a ++ w) ++ pr') pf cr
            (Z.of_nat (List.length (a ++ w))) ((a ++ w) ++ lr')) /\
    (List.length (a ++ w) + List.length pr' = 9)%nat /\
    (List.length (a ++ w) + List.length lr' = 8)%nat.
Proof.
  induction fuel as [| fuel IH]; intros a sr pr lr pf cr Hnul Hpr Hlr Hfuel;
    [lia |].
  cbn [show_line_copy].
  destruct (Z.ltb_spec (Z.of_nat (List.length a)) 8) as [Hlt | Hge].
  - destruct sr as [| c sr0]; [destruct Hnul |].
    unfold bind at 1. unfold lift. rewrite char_at_app.
    cbn [c_string].
    destruct (Ascii.eqb_spec c NUL) as [E | E]; cbn [negb].
    + exists [], pr, lr. rewrite firstn_nil, app_nil_r.
      split; [reflexivity |]. split; [reflexivity |]. split; assumption.
    + destruct pr as [| p0 pr0]; [cbn [List.length] in Hpr; lia |].
      destruct lr as [| l0 lr0]; [cbn [List.length] in Hlr; lia |].
      cbn [List.length] in Hpr, Hlr.
      destruct Hnul as [Hnul | Hnul]; [congruence |].
      destruct (IH (a ++ [c]) sr0 pr0 lr0 pf cr Hnul)
        as (w & pr' & lr' & Hw & Hrun & Hpr' & Hlr').
      { rewrite length_app. cbn [List.length]. lia. }
      { rewrite length_app. cbn [List.length]. lia. }
      { rewrite length_app. cbn [List.length]. lia. }
      exists (c :: w), pr', lr'.
      split.
      { rewrite Hw. rewrite length_app. cbn [List.length].
        replace (8 - List.length a)%nat with (S (8 - (List.length a + 1)))
          by lia.
        reflexivity. }
      replace (a ++ c :: w) with ((a ++ [c]) ++ w)
        by (rewrite <- app_assoc; reflexivity).
      split; [| split; assumption].
      rewrite <- Hrun.
      unfold bind at 1. unfold rd at 1. cbn [prev_line].
      unfold bind at 1. unfold lift. rewrite poke_app.
      unfold bind at 1. unfold wr at 1.
      unfold bind at 1.
      rewrite (lcd_putc_app a c l0 lr0) by (cbn [lcd_line lcd_pos set_prev_line]; (reflexivity || lia)).
      cbn [set_lcd_pos set_lcd_line set_prev_line prev_line prev_freq
           curr_range lcd_pos lcd_line].
      replace (Z.of_nat (List.length a) + 1)
        with (Z.of_nat (List.length (a ++ [c])))
        by (rewrite length_app; cbn [List.length]; lia).
      replace (a ++ c :: sr0) with ((a ++ [c]) ++ sr0)
        by (rewrite <- app_assoc; reflexivity).
      replace (a ++ c :: pr0) with ((a ++ [c]) ++ pr0)
        by (rewrite <- app_assoc; reflexivity).
      replace (a ++ c :: lr0) with ((a ++ [c]) ++ lr0)
        by (rewrite <- app_assoc; reflexivity).
      reflexivity.
  - exists [], pr, lr.
    replace (8 - List.length a)%nat with 0%nat by lia.
    rewrite app_nil_r. split; [reflexivity |]. split; [reflexivity |].
    split; assumption.
Qed.

(** The padding loop of [show_line] fills the rest of the line with
    spaces. *)
Lemma show_line_pad_pads fuel : forall a lr pl pf cr,
  (List.length a + List.length lr = 8)%nat ->
  (8 - List.length a < fuel)%nat ->
  show_line_pad fuel (Z.of_nat (List.length a))
    (mkDisplay pl pf cr (Z.of_nat (List.length a)) (a ++ lr))
  = Ok (tt, mkDisplay pl pf cr 8
              (a ++ repeat " "%char (List.length lr))).
Proof.
  induction fuel as [| fuel IH]; intros a lr pl pf cr Hlr Hfuel; [lia |].
  cbn [show_line_pad].
  destruct (Z.ltb_spec (Z.of_nat (List.length a)) 8) as [Hlt | Hge].
  - destruct lr as [| l0 lr0]; [cbn [List.length] in Hlr; lia |].
    cbn [List.length] in Hlr.
    unfold bind at 1.
    rewrite (lcd_putc_app a " "%char l0 lr0)
      by (cbn [lcd_line lcd_pos]; (reflexivity || lia)).
    unfold set_lcd_pos, set_lcd_line.
    cbn [prev_line prev_freq curr_range lcd_pos lcd_line].
    replace (Z.of_nat (List.length a) + 1)
      with (Z.of_nat (List.length (a ++ [" "%char])))
      by (rewrite length_app; cbn [List.length]; lia).
    replace (a ++ " "%char :: lr0) with ((a ++ [" "%char]) ++ lr0)
      by (rewrite <- app_assoc; reflexivity).
    rewrite IH by (rewrite length_app; cbn [List.length]; lia).
    cbn [List.length repeat]. rewrite <- app_assoc. reflexivity.
  - destruct lr as [| l0 lr0]; [| cbn [List.length] in Hlr; lia].
    cbn [repeat List.length]. rewrite app_nil_r.
    replace (Z.of_nat (List.length a)) with 8 by lia. reflexivity.
Qed.

Lemma firstn_repeat_le {A : Type} (x : A) k n :
  (k <= n)%nat -> firstn k (repeat x n) = repeat x k.
Proof.
  revert n. induction k as [| k IH]; intros n H; [reflexivity |].
  destruct n as [| n]; [lia |].
  cbn [repeat firstn]. f_equal. apply IH. lia.
Qed.

Lemma padded_short w :
  (List.length w <= 8)%nat ->
  padded w = w ++ repeat " "%char (8 - List.length w).
Proof.
  intros H. unfold padded. rewrite firstn_app.
  rewrite firstn_all2 by exact H.
  rewrite firstn_repeat_le by lia. reflexivity.
Qed.

Lemma In_firstn {A : Type} (x : A) n l : In x (firstn n l) -> In x l.
Proof.
  intros H. rewrite <- (firstn_skipn n l). apply in_or_app. left. exact H.
Qed.

(** [show_line] runs to its end on a terminated string, leaves the
    display showing what [prev_line] remembers, and that is the string,
    cut to eight characters. *)
Lemma show_line_shows s d :
  In NUL s ->
  in_step d ->
  exists d',
    show_line s d = Ok (tt, d') /\
    in_step d' /\
    c_string (prev_line d') = firstn 8 (c_string s) /\
    prev_freq d' = prev_freq d /\
    curr_range d' = curr_range d.
Proof.
  intros Hs (Hlen & Hnul & Hll & Hshown).
  destruct d as [pl pf cr pos ll].
  cbn [prev_line lcd_line] in Hlen, Hnul, Hll, Hshown.
  unfold show_line. unfold bind at 1. unfold rd at 1. cbn [prev_line].
  destruct (strcmp_eq_total s pl Hs Hnul) as [same Hcmp].
  unfold bind at 1. unfold lift. rewrite Hcmp.
  destruct same.
  - eexists. split; [reflexivity |].
    split; [repeat split; assumption |].
    cbn [prev_line prev_freq curr_range].
    split; [| split; reflexivity].
    rewrite (strcmp_eq_true s pl Hcmp).
    symmetry. apply firstn_all2.
    pose proof (c_string_shorter pl Hnul). lia.
  - unfold bind at 1. unfold lcd_home, wr at 1. unfold set_lcd_pos.
    cbn [prev_line prev_freq curr_range lcd_line].
    destruct (show_line_copy_copies line_fuel [] s pl ll pf cr Hs)
      as (w & pr' & lr' & Hw & Hrun & Hpr' & Hlr').
    { cbn [List.length]. lia. }
    { cbn [List.length]. lia. }
    { unfold line_fuel. cbn [List.length]. lia. }
    cbn [app List.length Z.of_nat] in Hrun, Hpr', Hlr', Hw.
    change (8 - 0)%nat with 8%nat in Hw.
    unfold bind at 1. rewrite Hrun.
    unfold bind at 1. unfold rd at 1. cbn [prev_line].
    destruct pr' as [| p0 pr0].
    { cbn [List.length] in Hpr'. pose proof (firstn_le_length 8 (c_string s)).
      rewrite <- Hw in H. lia. }
    unfold bind at 1. unfold lift. rewrite poke_app.
    unfold bind at 1. unfold wr at 1. unfold set_prev_line.
    cbn [prev_line prev_freq curr_range lcd_pos lcd_line].
    rewrite show_line_pad_pads by (unfold line_fuel; lia).
    eexists. split; [reflexivity |].
    assert (Hclean : ~ In NUL w).
    { rewrite Hw. intros Hin. apply In_firstn in Hin.
      exact (c_string_no_NUL s Hin). }
    cbn [prev_line prev_freq curr_range lcd_line].
    split; [| split; [| split; reflexivity]].
    + unfold in_step. cbn [prev_line lcd_line].
      cbn [List.length] in Hpr'.
      split; [rewrite length_app; cbn [List.length]; lia |].
      split; [apply in_or_app; right; left; reflexivity |].
      split; [rewrite length_app, repeat_length; lia |].
      rewrite c_string_app_NUL by exact Hclean.
      rewrite padded_short by lia.
      f_equal. f_equal. lia.
    + rewrite c_string_app_NUL by exact Hclean. exact Hw.
Qed.

(** ** Invariants of commands *)

Section Combinators.

Context {S : Type}.

Lemma keeps_bind {A B} (I : S -> Prop) (c : M S A) (k : A -> M S B) :
  keeps I c -> (forall a, keeps I (k a)) -> keeps I (bind c k).
Proof.
  intros Hc Hk s b s' HI Hrun. unfold bind in Hrun.
  destruct (c s) as [[a s1] | f] eqn:E; [| discriminate].
  exact (Hk a s1 b s' (Hc s a s1 HI E) Hrun).
Qed.

Lemma keeps_ret {A} (I : S -> Prop) (a : A) : keeps I (ret a).
Proof. intros s b s' HI H. injection H as _ <-. exact HI. Qed.

Lemma keeps_rd {A} (I : S -> Prop) (get : S -> A) : keeps I (rd get).
Proof. intros s b s' HI H. injection H as _ <-. exact HI. Qed.

Lemma keeps_lift {A} (I : S -> Prop) (r : result A) : keeps I (lift r).
Proof.
  intros s b s' HI H. unfold lift in H.
  destruct r; [injection H as _ <-; exact HI | discriminate].
Qed.

Lemma keeps_raise {A} (I : S -> Prop) f : keeps I (@raise S A f).
Proof. intros s b s' HI H. discriminate. Qed.

Lemma keeps_wr {A} (I : S -> Prop) (set : A -> S -> S) (v : A) :
  (forall s, I s -> I (set v s)) -> keeps I (wr set v).
Proof. intros Hset s b s' HI H. injection H as _ <-. exact (Hset s HI). Qed.

End Combinators.

(** ** Formatting *)

Lemma nth_error_poke_nat_other i j c : forall buf,
  i <> j -> nth_error (poke_nat i c buf) j = nth_error buf j.
Proof.
  revert j. induction i as [| i IH]; intros j buf H;
    destruct buf as [| x buf]; cbn [poke_nat]; try reflexivity.
  - destruct j as [| j]; [congruence | reflexivity].
  - destruct j as [| j]; [reflexivity |]. cbn [nth_error]. apply IH. congruence.
Qed.

Lemma nth_error_poke_nat_same i c : forall buf,
  (i < List.length buf)%nat -> nth_error (poke_nat i c buf) i = Some c.
Proof.
  induction i as [| i IH]; intros buf H; destruct buf as [| x buf];
    cbn [List.length] in H; try lia; cbn [poke_nat nth_error].
  - reflexivity.
  - apply IH. lia.
Qed.

(** [line[i] = c] anywhere but over the terminator. *)
Lemma poke_line_keeps i c : i <> 8 \/ c = NUL -> keeps terminated (poke_line i c).
Proof.
  intros Hic s a s' [Hnul Hpos] Hrun.
  unfold poke_line, bind, rd, lift, wr, poke in Hrun.
  destruct ((0 <=? i) && (i <? Z.of_nat (List.length (line s)))) eqn:Hb;
    [| discriminate].
  injection Hrun as _ <-. apply andb_prop in Hb as [H0 H1].
  apply Z.leb_le in H0. apply Z.ltb_lt in H1.
  split; [| exact Hpos]. cbn [line set_line].
  destruct (Z.eq_dec i 8) as [-> | Hne].
  - destruct Hic as [Hic | ->]; [congruence |].
    apply nth_error_poke_nat_same. lia.
  - rewrite nth_error_poke_nat_other by lia. exact Hnul.
Qed.

Lemma put_back_keeps c : keeps terminated (put_back c).
Proof.
  intros s a s' [Hnul Hpos] Hrun.
  unfold put_back, poke_line, bind, rd, lift, wr, poke in Hrun.
  cbn [line pos set_pos] in Hrun.
  destruct ((0 <=? pos s) && (pos s <? Z.of_nat (List.length (line s))))
    eqn:Hb; [| discriminate].
  injection Hrun as _ <-. apply andb_prop in Hb as [H0 H1].
  apply Z.leb_le in H0. apply Z.ltb_lt in H1.
  split; cbn [line pos set_line set_pos].
  - rewrite nth_error_poke_nat_other by lia. exact Hnul.
  - rewrite s8_small by lia. lia.
Qed.

Lemma put_digit_keeps : keeps terminated put_digit.
Proof.
  unfold put_digit.
  apply keeps_bind; [apply keeps_rd | intros f].
  apply keeps_bind; [apply put_back_keeps | intros _].
  apply keeps_bind; [apply keeps_rd | intros f'].
  apply keeps_wr. intros s H. exact H.
Qed.

Lemma fraction_digits_keeps fuel p : keeps terminated (fraction_digits fuel p).
Proof.
  induction fuel as [| fuel IH]; cbn [fraction_digits];
    [apply keeps_raise |].
  apply keeps_bind; [apply keeps_rd | intros q].
  destruct (q >? p); [| apply keeps_ret].
  apply keeps_bind; [apply put_digit_keeps | intros _; exact IH].
Qed.

Lemma integer_digits_keeps fuel : keeps terminated (integer_digits fuel).
Proof.
  induction fuel as [| fuel IH]; cbn [integer_digits];
    [apply keeps_raise |].
  apply keeps_bind; [apply keeps_rd | intros f].
  destruct (negb (f =? 0)); [| apply keeps_ret].
  apply keeps_bind; [apply put_digit_keeps | intros _; exact IH].
Qed.

Lemma leading_spaces_keeps fuel : keeps terminated (leading_spaces fuel).
Proof.
  induction fuel as [| fuel IH]; cbn [leading_spaces];
    [apply keeps_raise |].
  apply keeps_bind; [apply keeps_rd | intros q].
  destruct (q >=? 0); [| apply keeps_ret].
  apply keeps_bind; [apply put_back_keeps | intros _; exact IH].
Qed.

(** The columns and the divisor of an entry of the table. *)
Lemma range_at_layout i b :
  range_at i = Ok b -> lsd b <= 5 /\ divisor b <> 0.
Proof.
  intros H. pose proof (range_at_index i b H) as Hi.
  assert (C : i = 0 \/ i = 1 \/ i = 2 \/ i = 3 \/ i = 4) by lia.
  destruct C as [C | [C | [C | [C | C]]]]; subst i;
    injection H as <-; cbn [lsd divisor]; lia.
Qed.

Lemma format_line_keeps b : lsd b <= 5 -> keeps terminated (format_line b).
Proof.
  intros Hlsd. unfold format_line.
  apply keeps_bind; [apply poke_line_keeps; left; lia | intros _].
  apply keeps_bind; [apply poke_line_keeps; left; lia | intros _].
  apply keeps_bind; [apply poke_line_keeps; left; lia | intros _].
  apply keeps_bind; [apply poke_line_keeps; right; reflexivity | intros _].
  apply keeps_bind.
  { apply keeps_wr. intros s [H1 H2]. split; [exact H1 | exact Hlsd]. }
  intros _.
  apply keeps_bind; [apply keeps_rd | intros f].
  apply keeps_bind; [apply keeps_lift | intros q].
  apply keeps_bind.
  { apply keeps_wr. intros s [H1 H2]. split; [exact H1 | exact H2]. }
  intros _.
  apply keeps_bind; [apply fraction_digits_keeps | intros _].
  apply keeps_bind; [apply put_back_keeps | intros _].
  apply keeps_bind; [apply put_digit_keeps | intros _].
  apply keeps_bind; [apply integer_digits_keeps | intros _].
  apply leading_spaces_keeps.
Qed.

(** A line that has been formatted is a terminated string. *)
Lemma format_line_terminates b freq u l :
  lsd b <= 5 ->
  format_line b (mkLocals (repeat NUL 9) 0 freq) = Ok (u, l) ->
  In NUL (line l).
Proof.
  intros Hlsd Hrun.
  assert (H : terminated l).
  { apply (format_line_keeps b Hlsd _ u l) in Hrun; [exact Hrun |].
    split; [reflexivity | cbn [pos]; lia]. }
  destruct H as [H _]. apply (nth_error_In _ _ H).
Qed.

(** ** The placeholder *)

Lemma blank_settled : settled blank.
Proof.
  split; [| split].
  - repeat split. cbn. tauto.
  - cbn [prev_freq blank]. discriminate.
  - cbn [curr_range blank]. lia.
Qed.

Lemma placeholder_shown d :
  in_step d -> c_string (prev_line d) = placeholder ->
  shows d = "---     "%string.
Proof.
  intros (_ & _ & _ & H) Hp. unfold shows. rewrite H, Hp. reflexivity.
Qed.

Lemma show_line_placeholder d :
  in_step d ->
  exists d',
    show_line (literal "---") d = Ok (tt, d') /\
    in_step d' /\
    c_string (prev_line d') = placeholder /\
    prev_freq d' = prev_freq d /\
    curr_range d' = curr_range d.
Proof.
  intros H.
  destruct (show_line_shows (literal "---") d) as (d' & Hrun & H1 & H2 & H3);
    [cbn; tauto | exact H |].
  exists d'. split; [exact Hrun |]. split; [exact H1 |].
  split; [exact H2 | exact H3].
Qed.

(** A frequency of 0 puts the placeholder on the display. *)
Lemma display_freq_zero d :
  settled d ->
  exists d',
    display_freq 0 d = Ok (tt, d') /\
    settled d' /\ shows d' = "---     "%string.
Proof.
  intros (Hstep & Hzero & Hrange). unfold display_freq, bind, rd.
  destruct (Z.eqb_spec 0 (prev_freq d)) as [E | E].
  - exists d. split; [reflexivity |].
    split; [split; [exact Hstep | split; assumption] |].
    apply placeholder_shown; [exact Hstep | apply Hzero; lia].
  - unfold wr. cbn [Z.eqb].
    destruct (show_line_placeholder (set_prev_freq 0 d))
      as (d' & Hrun & H1 & H2 & H3 & H4); [exact Hstep |].
    exists d'. split; [exact Hrun |].
    split; [| apply placeholder_shown; assumption].
    split; [exact H1 |]. split; [intros _; exact H2 |].
    rewrite H4. exact Hrange.
Qed.

Lemma display_freq_keeps freq d d' :
  0 <= freq -> settled d -> display_freq freq d = Ok (tt, d') -> settled d'.
Proof.
  intros Hf (Hstep & Hzero & Hrange) Hrun.
  unfold display_freq in Hrun. unfold bind at 1 in Hrun. unfold rd at 1 in Hrun.
  destruct (Z.eqb_spec freq (prev_freq d)) as [E | E].
  { injection Hrun as <-. split; [exact Hstep | split; assumption]. }
  unfold bind at 1 in Hrun. unfold wr at 1 in Hrun.
  destruct (Z.eqb_spec freq 0) as [E0 | E0].
  - destruct (show_line_placeholder (set_prev_freq freq d))
      as (d1 & Hrun1 & H1 & H2 & H3 & H4); [exact Hstep |].
    rewrite Hrun1 in Hrun. injection Hrun as <-.
    split; [exact H1 |]. split; [intros _; exact H2 |].
    rewrite H4. exact Hrange.
  - unfold bind at 1 in Hrun.
    destruct (Z.le_gt_cases freq 99999999) as [Hle | Hgt].
    2:{ rewrite change_range_leaves_table in Hrun
          by (exact Hgt || exact Hrange). discriminate. }
    destruct (change_range_finds_band freq (set_prev_freq freq d))
      as (i & Hscan & Hi & b & Hb & _); [lia | exact Hrange |].
    rewrite Hscan in Hrun.
    unfold bind at 1 in Hrun. unfold rd at 1 in Hrun.
    cbn [curr_range set_curr_range] in Hrun.
    unfold bind at 1 in Hrun. unfold lift in Hrun. rewrite Hb in Hrun.
    destruct (format_line b (mkLocals (repeat NUL 9) 0 freq))
      as [[u l] | f] eqn:Hfmt; [| discriminate].
    destruct (range_at_layout i b Hb) as [Hlsd _].
    destruct (show_line_shows (line l)
                (set_curr_range i (set_prev_freq freq d)))
      as (d1 & Hrun1 & H1 & _ & H3 & H4).
    { exact (format_line_terminates b freq u l Hlsd Hfmt). }
    { exact Hstep. }
    rewrite Hrun1 in Hrun. injection Hrun as <-.
    split; [exact H1 |]. split.
    + rewrite H3. cbn [prev_freq set_curr_range set_prev_freq]. congruence.
    + rewrite H4. cbn [curr_range set_curr_range]. exact Hi.
Qed.

Lemma frequency_nonneg F_CPU n ticks f :
  0 < ticks -> frequency F_CPU n ticks = Ok f -> 0 <= f.
Proof.
  intros Ht H. unfold frequency, udiv, shl_u64 in H.
  replace (ticks =? 0) with false in H by (symmetry; apply Z.eqb_neq; lia).
  destruct (n <? 11).
  - injection H as <-. apply Z.div_pos; [apply u32_range | exact Ht].
  - destruct ((0 <=? n) && (n <? 64)); [| discriminate].
    injection H as <-. apply u32_range.
Qed.

Lemma display_measurement_keeps F_CPU n ticks d d' :
  0 <= ticks -> settled d ->
  display_measurement F_CPU n ticks d = Ok (tt, d') -> settled d'.
Proof.
  intros Ht Hs Hrun. unfold display_measurement in Hrun.
  destruct (Z.eqb_spec ticks 0) as [E | E].
  - destruct Hs as (Hstep & Hzero & Hrange).
    destruct (show_line_placeholder d Hstep)
      as (d1 & Hrun1 & H1 & H2 & H3 & H4).
    rewrite Hrun1 in Hrun. injection Hrun as <-.
    split; [exact H1 |]. split; [intros _; exact H2 |].
    rewrite H4. exact Hrange.
  - unfold bind, lift in Hrun.
    destruct (frequency F_CPU n ticks) as [f | f] eqn:Hf; [| discriminate].
    apply (display_freq_keeps f d d'); [| exact Hs | exact Hrun].
    apply (frequency_nonneg F_CPU n ticks f); [lia | exact Hf].
Qed.

(** Every display state the program leads to is settled. *)
Lemma displayed_settled F_CPU d : displayed F_CPU d -> settled d.
Proof.
  induction 1 as [| n ticks d d' _ IH Ht Hrun]; [exact blank_settled |].
  exact (display_measurement_keeps F_CPU n ticks d d' Ht IH Hrun).
Qed.

(** C2: the code departs from the claim at the snapshot
    (12, 0xffffffff). A fast signal is measured with 2^12 events to the
    window and stops; the watchdog forces the slow mode; the signal comes
    back and the emergency switch of the edge interrupt makes the fast
    counter the current one, with its period set to the sentinel and its
    reported exponent left at 12. Every edge interrupt of the run is
    served while [GIMSK] enables it. The polling loop then reads
    (12, 0xffffffff), for which the frequency at 20 MHz is 3, and the
    display shows 0.3Hz, not the placeholder. The initialisers and
    [slow_mode] pair the sentinel with exponent 0, for which the display
    shows the placeholder. *)
Theorem sentinel_with_stale_exponent :
  serve stale_exponent started = Some (reach stale_exponent started) /\
  current (reach stale_exponent started) = Fast /\
  first_time (fast_cnt (reach stale_exponent started)) = 1 /\
  (exists s',
      poll (reach stale_exponent started) = Ok ((12, MAX_PERIOD), s')) /\
  frequency F_CPU_20MHz 12 MAX_PERIOD = Ok 3 /\
  (exists d',
      display_measurement F_CPU_20MHz 12 MAX_PERIOD blank = Ok (tt, d') /\
      shows d' = "   0.3Hz"%string) /\
  (exists s', poll started = Ok ((0, MAX_PERIOD), s')) /\
  (exists s1 s2,
      slow_mode (reach stale_exponent started) = Ok (tt, s1) /\
      poll s1 = Ok ((0, MAX_PERIOD), s2)) /\
  (exists d',
      display_measurement F_CPU_20MHz 0 MAX_PERIOD blank = Ok (tt, d') /\
      shows d' = "---     "%string).
Proof.
  split; [vm_compute; reflexivity |].
  split; [vm_compute; reflexivity |].
  split; [vm_compute; reflexivity |].
  split; [eexists; vm_compute; reflexivity |].
  split; [vm_compute; reflexivity |].
  split; [eexists; split; vm_compute; reflexivity |].
  split; [eexists; vm_compute; reflexivity |].
  split; [eexists; eexists; split; vm_compute; reflexivity |].
  eexists; split; vm_compute; reflexivity.
Qed.

(** The first turn of [main] after the start. *)
Example first_turn :
  match main_turn F_CPU_20MHz (started, blank) with
  | Ok (s, d) => fast_wd s = 3 /\ shows d = "---     "%string
  | Fault _ => False
  end.
Proof. vm_compute. split; reflexivity. Qed.

(** The scenario of the formatter: 1234.5 Hz. *)
Example display_freq_12345 :
  option_map shows (exec (display_freq 12345) blank)
  = Some "1.234kHz"%string /\
  option_map shows (exec (display_freq 1000) blank)
  = Some " 100.0Hz"%string.
Proof. vm_compute. split; reflexivity. Qed.

(** ** The downward adjustment *)

(** The downward loop: from an exponent above 1 it stops after [e - e']
    halvings, the first time the period is no longer above three times
    the target or the exponent has come down to 1. *)
Lemma count_fewer_halves fuel : forall e p,
  1 < e < 256 -> e <= Z.of_nat fuel ->
  exists e',
    count_fewer fuel e p = Ok (e', p / 2 ^ (e - e')) /\
    1 <= e' < e /\
    (forall k, 0 < k < e - e' -> MIN_PERIOD * 3 < p / 2 ^ k) /\
    (p / 2 ^ (e - e') <= MIN_PERIOD * 3 \/ e' = 1).
Proof.
  induction fuel as [| fuel IH]; intros e p He Hfuel; [lia |].
  cbn [count_fewer]. rewrite (u8_small (e - 1)) by lia.
  destruct (Z.gtb_spec (p / 2) (MIN_PERIOD * 3)) as [Hgt | Hle];
    [destruct (Z.gtb_spec (e - 1) 1) as [Hgt' | Hle'] |]; cbn [andb].
  - destruct (IH (e - 1) (p / 2)) as (e' & Hrun & He' & Hall & Hstop);
      [lia | lia |].
    exists e'. rewrite Hrun.
    replace (e - e') with (e - 1 - e' + 1) by lia.
    change (p / 2) with (p / 2 ^ 1) in Hrun, Hall, Hstop |- *.
    assert (Hpow : forall j, 0 <= j -> p / 2 ^ 1 / 2 ^ j = p / 2 ^ (j + 1)).
    { intros j Hj. rewrite Z.div_div by (try apply Z.pow_pos_nonneg; lia).
      rewrite <- Z.pow_add_r by lia. f_equal. f_equal. lia. }
    rewrite <- Hpow by lia.
    split; [reflexivity |]. split; [lia |]. split.
    + intros k Hk. destruct (Z.eq_dec k 1) as [-> | Hk1]; [exact Hgt |].
      replace k with (k - 1 + 1) by lia. rewrite <- Hpow by lia.
      apply Hall. lia.
    + rewrite Hpow by lia. rewrite <- Hpow by lia. exact Hstop.
  - exists (e - 1). replace (e - (e - 1)) with 1 by lia. change (2 ^ 1) with 2.
    split; [reflexivity |]. split; [lia |]. split; [intros k Hk; lia |].
    right. lia.
  - exists (e - 1). replace (e - (e - 1)) with 1 by lia. change (2 ^ 1) with 2.
    split; [reflexivity |]. split; [lia |]. split; [intros k Hk; lia |].
    left. exact Hle.
Qed.

(** The adjustment of a window that was too long. *)
Lemma adjust_events_halves e p s :
  1 < e <= 20 -> MIN_PERIOD * 3 < p ->
  exists e',
    adjust_events e p s =
    Ok ((e', p / 2 ^ (e - e')),
        in_fast set_current_log2num_events e' (programmed e' s)) /\
    1 <= e' < e /\
    (forall k, 0 < k < e - e' -> MIN_PERIOD * 3 < p / 2 ^ k) /\
    (p / 2 ^ (e - e') <= MIN_PERIOD * 3 \/ e' = 1).
Proof.
  intros He Hp.
  destruct (count_fewer_halves loop_fuel e p) as (e' & Hrun & He' & Hrest).
  { lia. } { unfold loop_fuel. lia. }
  exists e'. split; [| split; [exact He' | exact Hrest]].
  unfold adjust_events.
  replace ((p <? MIN_PERIOD) && (e <? 20)) with false
    by (symmetry; apply andb_false_intro1; apply Z.ltb_ge;
        unfold MIN_PERIOD in *; lia).
  replace ((p >? MIN_PERIOD * 3) && (e >? 1)) with true
    by (symmetry; apply andb_true_intro; split; apply Z.gtb_lt; lia).
  unfold bind at 1. unfold lift. rewrite Hrun. cbn [fst].
  unfold bind at 1. rewrite set_timer_cmp_reg_programs by lia.
  reflexivity.
Qed.

(** The adjustment of a window that was neither too short nor too
    long. *)
Lemma adjust_events_unchanged e p s :
  (p <? MIN_PERIOD) && (e <? 20) = false ->
  (p >? MIN_PERIOD * 3) && (e >? 1) = false ->
  adjust_events e p s = Ok ((e, p), s).
Proof. intros H1 H2. unfold adjust_events. rewrite H1, H2. reflexivity. Qed.

(** A compare-match that closes a window with a period above three
    times [MIN_PERIOD] while the exponent [e] is above 1 runs the downward
    loop: step [k] has exponent [e - k] and tracked period [p / 2 ^ k], and
    the loop stops at the first step at which that period is no longer
    above three times [MIN_PERIOD] or the exponent has come down to 1. The
    exponent it stops at is stored for the next window and the compare
    registers are programmed for it. *)
Theorem fast_mode_counts_fewer (s : machine) :
  let e := current_log2num_events (fast_cnt s) in
  let p := u32 (ticks_at s - prev_ticks (fast_cnt s)) in
  counter_high s = cmp_high s ->
  first_time (fast_cnt s) = 0 ->
  1 < e <= 20 ->
  MIN_PERIOD * 3 < p ->
  exists e' s1 s',
    adjust_events e p (window_closed s) = Ok ((e', p / 2 ^ (e - e')), s1) /\
    ISR_TIM1_COMPA s = Ok (tt, s') /\
    1 <= e' < e /\
    (forall k, 0 < k < e - e' -> MIN_PERIOD * 3 < p / 2 ^ k) /\
    (p / 2 ^ (e - e') <= MIN_PERIOD * 3 \/ e' = 1) /\
    current_log2num_events (fast_cnt s') = e' /\
    OCR1A s' = (if e' <=? 16 then 2 ^ e' - 1 else 65535) /\
    cmp_high s' = (if e' <=? 16 then 0 else 2 ^ (e' - 16) - 1) /\
    calls s' = SetTimerCmpReg e' :: calls s /\
    log2num_events (fast_cnt s') = e /\
    period (fast_cnt s') = p.
Proof.
  intros e p Hch Hft He Hp.
  destruct (adjust_events_halves e p (window_closed s))
    as (e' & Hadj & He' & Hall & Hstop); [exact He | exact Hp |].
  eexists e', _, _. split; [exact Hadj |].
  split.
  { rewrite ISR_TIM1_COMPA_fires by assumption.
    fold e. fold p. unfold bind. rewrite Hadj. cbn [fst snd].
    apply change_mode_runs. }
  split; [exact He' |]. split; [exact Hall |]. split; [exact Hstop |].
  match goal with
  | |- context [mode_checked ?t ?l ?q ?x] =>
      destruct (mode_checked_frame t l q x) as (F1 & F2 & _ & F4 & F5 & _)
  end.
  rewrite F1, F2, F4, F5.
  unfold programmed. destruct (e' <=? 16); repeat split.
Qed.

(** An instance: a window of 100000 ticks at exponent 5; the loop
    stops at exponent 3, with 25000 ticks. *)
Lemma fast_mode_counts_fewer_witness :
  let e := current_log2num_events (fast_cnt long_window) in
  let p := u32 (ticks_at long_window - prev_ticks (fast_cnt long_window)) in
  exists e' s1 s',
    adjust_events e p (window_closed long_window)
    = Ok ((e', p / 2 ^ (e - e')), s1) /\
    ISR_TIM1_COMPA long_window = Ok (tt, s') /\
    1 <= e' < e /\
    (forall k, 0 < k < e - e' -> MIN_PERIOD * 3 < p / 2 ^ k) /\
    (p / 2 ^ (e - e') <= MIN_PERIOD * 3 \/ e' = 1) /\
    current_log2num_events (fast_cnt s') = e' /\
    OCR1A s' = (if e' <=? 16 then 2 ^ e' - 1 else 65535) /\
    cmp_high s' = (if e' <=? 16 then 0 else 2 ^ (e' - 16) - 1) /\
    calls s' = SetTimerCmpReg e' :: calls long_window /\
    log2num_events (fast_cnt s') = e /\
    period (fast_cnt s') = p.
Proof.
  apply (fast_mode_counts_fewer long_window).
  - reflexivity.
  - reflexivity.
  - vm_compute. split; [reflexivity | discriminate].
  - vm_compute. reflexivity.
Defined.

Example long_window_result :
  ticks_at long_window = 100000 /\
  match exec ISR_TIM1_COMPA long_window with
  | Some s' => current_log2num_events (fast_cnt s') = 3 /\ current s' = Fast
  | None => False
  end.
Proof. vm_compute. repeat split. Qed.

(** One adjustment is enough: the period the next window is expected to
    have lies within [MIN_PERIOD .. 3 * MIN_PERIOD], unless the exponent
    has hit the end of its range on the way (20 with the period still
    short, 1 with the period still long). *)
Theorem adjustment_lands_in_target (e p : Z) (s : machine) :
  1 <= e <= 20 ->
  0 <= p ->
  exists e' p' s',
    adjust_events e p s = Ok ((e', p'), s') /\
    1 <= e' <= 20 /\
    (e <= e' -> p' = p * 2 ^ (e' - e)) /\
    (e' <= e -> p' = p / 2 ^ (e - e')) /\
    (MIN_PERIOD <= p' <= MIN_PERIOD * 3 \/
     (p' < MIN_PERIOD /\ e' = 20) \/
     (MIN_PERIOD * 3 < p' /\ e' = 1)).
Proof.
  intros He Hp. unfold MIN_PERIOD.
  destruct ((p <? MIN_PERIOD) && (e <? 20)) eqn:Hup.
  - apply andb_prop in Hup as [H1 H2].
    apply Z.ltb_lt in H1. apply Z.ltb_lt in H2.
    destruct (adjust_events_more e p s) as (e' & Hrun & He' & Hall & Hstop);
      [lia | lia |].
    unfold MIN_PERIOD in *.
    assert (Hsmall : p * 2 ^ (e' - e) < 20000).
    { destruct (Z.eq_dec (e' - e) 1) as [E | E].
      - rewrite E. change (2 ^ 1) with 2. lia.
      - specialize (Hall (e' - e - 1)).
        replace (e' - e) with (e' - e - 1 + 1) by lia.
        rewrite Z.pow_add_r by lia. change (2 ^ 1) with 2. lia. }
    eexists e', _, _. split; [exact Hrun |]. split; [lia |].
    split; [reflexivity |]. split; [lia |].
    destruct Hstop as [Hstop | Hstop]; [left; lia |].
    destruct (Z.lt_ge_cases (p * 2 ^ (e' - e)) 10000); [right; left | left];
      lia.
  - destruct ((p >? MIN_PERIOD * 3) && (e >? 1)) eqn:Hdown.
    + apply andb_prop in Hdown as [H1 H2].
      apply Z.gtb_lt in H1. apply Z.gtb_lt in H2.
      destruct (adjust_events_halves e p s) as (e' & Hrun & He' & Hall & Hstop);
        [lia | exact H1 |].
      unfold MIN_PERIOD in *.
      assert (Hbig : 15000 <= p / 2 ^ (e - e')).
      { destruct (Z.eq_dec (e - e') 1) as [E | E].
        - rewrite E. change (2 ^ 1) with 2.
          apply Z.div_le_lower_bound; lia.
        - specialize (Hall (e - e' - 1)).
          replace (e - e') with (e - e' - 1 + 1) by lia.
          rewrite Z.pow_add_r by lia. change (2 ^ 1) with 2.
          rewrite <- Z.div_div by (try apply Z.pow_pos_nonneg; lia).
          apply Z.div_le_lower_bound; lia. }
      eexists e', _, _. split; [exact Hrun |]. split; [lia |].
      split; [lia |]. split; [reflexivity |].
      destruct Hstop as [Hstop | Hstop]; [left; lia |].
      destruct (Z.le_gt_cases (p / 2 ^ (e - e')) 30000);
        [left | right; right]; lia.
    + exists e, p, s.
      split; [apply adjust_events_unchanged; assumption |].
      split; [lia |].
      replace (e - e) with 0 by lia. change (2 ^ 0) with 1.
      split; [intros _; lia |].
      split; [intros _; symmetry; apply Z.div_1_r |].
      unfold MIN_PERIOD in *.
      apply andb_false_iff in Hup. apply andb_false_iff in Hdown.
      rewrite !Z.ltb_ge in Hup. rewrite !Z.gtb_ltb, !Z.ltb_ge in Hdown.
      lia.
Qed.

(** An instance: 100000 ticks at exponent 5. *)
Lemma adjustment_lands_in_target_witness :
  exists e' p' s',
    adjust_events 5 100000 started = Ok ((e', p'), s') /\
    1 <= e' <= 20 /\
    (5 <= e' -> p' = 100000 * 2 ^ (e' - 5)) /\
    (e' <= 5 -> p' = 100000 / 2 ^ (5 - e')) /\
    (MIN_PERIOD <= p' <= MIN_PERIOD * 3 \/
     (p' < MIN_PERIOD /\ e' = 20) \/
     (MIN_PERIOD * 3 < p' /\ e' = 1)).
Proof. apply (adjustment_lands_in_target 5 100000 started); lia. Defined.

(** ** Changing the mode *)

Lemma halving_antitone p a b :
  0 <= p -> 0 <= a <= b -> p / 2 ^ b <= p / 2 ^ a.
Proof.
  intros Hp Hab. apply Z.div_le_compat_l; [exact Hp |].
  split; [apply Z.pow_pos_nonneg; lia | apply Z.pow_le_mono_r; lia].
Qed.

(** While the fast counter is the current one, a window that is still
    longer than three times [MIN_PERIOD] when counted for two events
    hands over to the slow mode: the edge interrupt is enabled, the slow
    counter starts a new epoch at the current tick, with half the
    two-event period as its period until its first measurement. *)
Theorem fast_hands_over_to_slow (s : machine) :
  let e := current_log2num_events (fast_cnt s) in
  let p := u32 (ticks_at s - prev_ticks (fast_cnt s)) in
  counter_high s = cmp_high s ->
  first_time (fast_cnt s) = 0 ->
  current s = Fast ->
  1 <= e <= 20 ->
  MIN_PERIOD * 3 < p / 2 ^ (e - 1) ->
  exists s',
    ISR_TIM1_COMPA s = Ok (tt, s') /\
    current s' = Slow /\
    GIMSK s' = _BV INT0 /\
    period (slow_cnt s') = p / 2 ^ (e - 1) / 2 /\
    prev_ticks (slow_cnt s') = ticks_at s /\
    first_time (slow_cnt s') = 1 /\
    current_log2num_events (fast_cnt s') = 1.
Proof.
  intros e p Hch Hft Hcur He Hp.
  assert (Hp0 : 0 <= p) by (subst p; apply u32_range).
  rewrite ISR_TIM1_COMPA_fires by assumption. fold e. fold p. unfold bind.
  destruct (Z.eq_dec e 1) as [E1 | E1].
  - rewrite E1 in Hp. change (2 ^ (1 - 1)) with 1 in Hp.
    rewrite Z.div_1_r in Hp.
    rewrite adjust_events_unchanged.
    + cbn [fst snd]. rewrite change_mode_runs. eexists. split; [reflexivity |].
      unfold mode_checked. cbn [window_closed current]. rewrite Hcur.
      cbn [which_eqb].
      replace (p >? MIN_PERIOD * 3) with true
        by (symmetry; apply Z.gtb_lt; exact Hp).
      rewrite E1. change (2 ^ (1 - 1)) with 1. rewrite Z.div_1_r.
      cbn [Z.eqb andb]. repeat split. cbn. exact E1.
    + apply andb_false_intro1. apply Z.ltb_ge. unfold MIN_PERIOD in *. lia.
    + apply andb_false_intro2. rewrite E1. reflexivity.
  - destruct (adjust_events_halves e p (window_closed s))
      as (e' & Hadj & He' & Hall & Hstop); [lia | |].
    { pose proof (halving_antitone p 0 (e - 1) Hp0) as H.
      change (2 ^ 0) with 1 in H. rewrite Z.div_1_r in H. lia. }
    assert (He1 : e' = 1).
    { destruct Hstop as [Hstop | Hstop]; [| exact Hstop].
      pose proof (halving_antitone p (e - e') (e - 1) Hp0). lia. }
    subst e'. rewrite Hadj. cbn [fst snd]. rewrite change_mode_runs.
    eexists. split; [reflexivity |].
    unfold mode_checked.
    replace (current (in_fast set_current_log2num_events 1
                        (programmed 1 (window_closed s)))) with Fast
      by (symmetry; exact Hcur).
    cbn [which_eqb].
    replace (p / 2 ^ (e - 1) >? MIN_PERIOD * 3) with true
      by (symmetry; apply Z.gtb_lt; exact Hp).
    cbn [Z.eqb andb]. repeat split.
Qed.

(** An instance: a window of 100000 ticks for two events. *)
Lemma fast_hands_over_to_slow_witness :
  let e := current_log2num_events (fast_cnt slow_signal) in
  let p := u32 (ticks_at slow_signal - prev_ticks (fast_cnt slow_signal)) in
  exists s',
    ISR_TIM1_COMPA slow_signal = Ok (tt, s') /\
    current s' = Slow /\
    GIMSK s' = _BV INT0 /\
    period (slow_cnt s') = p / 2 ^ (e - 1) / 2 /\
    prev_ticks (slow_cnt s') = ticks_at slow_signal /\
    first_time (slow_cnt s') = 1 /\
    current_log2num_events (fast_cnt s') = 1.
Proof.
  apply (fast_hands_over_to_slow slow_signal).
  - reflexivity.
  - reflexivity.
  - reflexivity.
  - vm_compute. split; discriminate.
  - vm_compute. reflexivity.
Defined.

(** The mode check while the slow counter is the current one. *)
Lemma mode_checked_slow t l p s :
  current s = Slow ->
  mode_checked t l p s =
  if period (slow_cnt s) <? MIN_PERIOD
  then set_current Fast (set_GIMSK 0 s) else s.
Proof. intros H. unfold mode_checked. rewrite H. reflexivity. Qed.

(** While the slow counter is the current one, a compare-match that
    closes a window makes the fast counter the current one exactly when
    the fast window was shorter than [MIN_PERIOD] with the exponent below
    20, or the last period of the slow counter is below [MIN_PERIOD]; it
    then disables the edge interrupt. The slow counter is left as it
    was. *)
Theorem fast_takes_over_from_slow (s : machine) :
  let e := current_log2num_events (fast_cnt s) in
  let p := u32 (ticks_at s - prev_ticks (fast_cnt s)) in
  counter_high s = cmp_high s ->
  first_time (fast_cnt s) = 0 ->
  current s = Slow ->
  1 <= e <= 20 ->
  exists s',
    ISR_TIM1_COMPA s = Ok (tt, s') /\
    (current s' = Fast <->
     (p < MIN_PERIOD /\ e < 20) \/ period (slow_cnt s) < MIN_PERIOD) /\
    (current s' = Fast -> GIMSK s' = 0) /\
    (current s' = Slow -> GIMSK s' = GIMSK s) /\
    slow_cnt s' = slow_cnt s.
Proof.
  intros e p Hch Hft Hcur He.
  assert (Hp0 : 0 <= p) by (subst p; apply u32_range).
  rewrite ISR_TIM1_COMPA_fires by assumption. fold e. fold p. unfold bind.
  destruct ((p <? MIN_PERIOD) && (e <? 20)) eqn:Hup.
  - apply andb_prop in Hup as [H1 H2].
    apply Z.ltb_lt in H1. apply Z.ltb_lt in H2.
    destruct (adjust_events_more e p (window_closed s))
      as (e' & Hadj & He' & Hall & Hstop); [lia | lia |].
    assert (Hsmall : p * 2 ^ (e' - e) <= MIN_PERIOD * 3).
    { unfold MIN_PERIOD in *.
      destruct (Z.eq_dec (e' - e) 1) as [E | E].
      - rewrite E. change (2 ^ 1) with 2. lia.
      - specialize (Hall (e' - e - 1)).
        replace (e' - e) with (e' - e - 1 + 1) by lia.
        rewrite Z.pow_add_r by lia. change (2 ^ 1) with 2. lia. }
    rewrite Hadj. cbn [fst snd]. rewrite change_mode_runs.
    eexists. split; [reflexivity |].
    unfold mode_checked. cbn [in_fast set_fast_cnt set_current current].
    cbn [which_eqb].
    replace (p * 2 ^ (e' - e) >? MIN_PERIOD * 3) with false
      by (symmetry; rewrite Z.gtb_ltb; apply Z.ltb_ge; lia).
    cbn [andb].
    split; [split; [intros _; left; lia | reflexivity] |].
    split; [reflexivity |]. split; [discriminate |].
    destruct (programmed_frame e' (window_closed s)) as (F & _). exact F.
  - assert (Hadj : exists e' p',
               adjust_events e p (window_closed s)
               = Ok ((e', p'), in_fast set_current_log2num_events e'
                                 (programmed e' (window_closed s)))
               \/ adjust_events e p (window_closed s)
                  = Ok ((e', p'), window_closed s)).
    { destruct ((p >? MIN_PERIOD * 3) && (e >? 1)) eqn:Hdown.
      - apply andb_prop in Hdown as [H1 H2].
        apply Z.gtb_lt in H1. apply Z.gtb_lt in H2.
        destruct (adjust_events_halves e p (window_closed s))
          as (e' & Hrun & _); [lia | exact H1 |].
        eexists e', _. left. exact Hrun.
      - exists e, p. right. apply adjust_events_unchanged; assumption. }
    assert (Hnot : ~ (p < MIN_PERIOD /\ e < 20)).
    { intros [A B]. apply andb_false_iff in Hup.
      rewrite !Z.ltb_ge in Hup. lia. }
    assert (Hx : exists e' p' x,
               adjust_events e p (window_closed s) = Ok ((e', p'), x) /\
               current x = Slow /\ slow_cnt x = slow_cnt s /\
               GIMSK x = GIMSK s).
    { destruct Hadj as (e' & p' & [Hadj | Hadj]); eexists e', p', _;
        (split; [exact Hadj |]).
      - destruct (programmed_frame e' (window_closed s))
          as (F1 & _ & F3 & _).
        cbn [in_fast set_fast_cnt current slow_cnt GIMSK].
        rewrite F1, F3. cbn [window_closed current slow_cnt].
        split; [exact Hcur |]. split; [reflexivity |].
        unfold programmed. destruct (e' <=? 16); reflexivity.
      - cbn [window_closed current slow_cnt GIMSK].
        split; [exact Hcur |]. split; reflexivity. }
    destruct Hx as (e' & p' & x & Hrun & Hx1 & Hx2 & Hx3).
    rewrite Hrun. cbn [fst snd]. rewrite change_mode_runs.
    eexists. split; [reflexivity |].
    rewrite (mode_checked_slow _ _ _ x Hx1). rewrite Hx2.
    destruct (Z.ltb_spec (period (slow_cnt s)) MIN_PERIOD) as [Hlt | Hge].
    + cbn [set_current set_GIMSK current GIMSK slow_cnt].
      split; [split; [intros _; right; exact Hlt | reflexivity] |].
      split; [reflexivity |]. split; [discriminate | exact Hx2].
    + rewrite Hx1.
      split; [split; [discriminate | intros [A | A]; [tauto | lia]] |].
      split; [discriminate |]. split; [intros _; exact Hx3 | exact Hx2].
Qed.

(** An instance: the slow counter is the current one, with its
    period at the sentinel, and a fast window of 100000 ticks at exponent 5
    closes. *)
Lemma fast_takes_over_from_slow_witness :
  let s := set_current Slow long_window in
  let e := current_log2num_events (fast_cnt s) in
  let p := u32 (ticks_at s - prev_ticks (fast_cnt s)) in
  exists s',
    ISR_TIM1_COMPA s = Ok (tt, s') /\
    (current s' = Fast <->
     (p < MIN_PERIOD /\ e < 20) \/ period (slow_cnt s) < MIN_PERIOD) /\
    (current s' = Fast -> GIMSK s' = 0) /\
    (current s' = Slow -> GIMSK s' = GIMSK s) /\
    slow_cnt s' = slow_cnt s.
Proof.
  apply (fast_takes_over_from_slow (set_current Slow long_window)).
  - reflexivity.
  - reflexivity.
  - reflexivity.
  - vm_compute. split; discriminate.
Defined.

(** ** What the handlers keep between them *)

(** A run of events, each served while enabled, stays within the states
    the machine can be in. *)
Lemma serve_in_service es : forall s s',
  in_service s -> serve es s = Some s' -> in_service s'.
Proof.
  induction es as [| e es IH]; intros s s' Hs Hrun; cbn [serve] in Hrun.
  - injection Hrun as <-. exact Hs.
  - destruct (can_be_served e s) eqn:Hen; [| discriminate].
    destruct (exec (handle e) s) as [s1 |] eqn:Hstep; [| discriminate].
    apply (IH s1 s'); [| exact Hrun].
    exact (in_service_step e s s1 Hs Hen Hstep).
Qed.

Lemma started_arbitrated : arbitrated started.
Proof. vm_compute. repeat split; discriminate. Qed.

(** Programming the compare registers for an exponent and storing it
    for the next window go together. *)
Lemma arbitrated_programmed e s :
  1 <= e <= 20 ->
  let s' := in_fast set_current_log2num_events e (programmed e s) in
  1 <= current_log2num_events (fast_cnt s') <= 20 /\
  OCR1A s' = (if current_log2num_events (fast_cnt s') <=? 16
              then 2 ^ current_log2num_events (fast_cnt s') - 1 else 65535) /\
  cmp_high s' = (if current_log2num_events (fast_cnt s') <=? 16 then 0
                 else 2 ^ (current_log2num_events (fast_cnt s') - 16) - 1) /\
  slow_cnt s' = slow_cnt s /\ current s' = current s /\ GIMSK s' = GIMSK s.
Proof.
  intros He. cbv zeta. unfold programmed.
  destruct (e <=? 16) eqn:E; cbn; rewrite E; repeat split; lia.
Qed.

(** The mode check keeps the arbitration, when it is given the exponent
    of the next window. *)
Lemma mode_checked_arbitrated t p s :
  arbitrated s ->
  arbitrated (mode_checked t (current_log2num_events (fast_cnt s)) p s).
Proof.
  intros HA. pose proof HA as (H1 & H2 & H3 & H4 & H5 & H6).
  unfold mode_checked.
  destruct (which_eqb (current s) Fast) eqn:Hc.
  - destruct (Z.gtb_spec p (MIN_PERIOD * 3)) as [Hp | Hp]; cbn [andb];
      [destruct (Z.eqb_spec (current_log2num_events (fast_cnt s)) 1)
         as [E | E] |]; try exact HA.
    unfold arbitrated. cbn.
    split; [reflexivity |]. split; [intros _; exact E |].
    split; [exact H3 |]. split; [exact H4 |]. split; [exact H5 | exact H6].
  - destruct (period (slow_cnt s) <? MIN_PERIOD); [| exact HA].
    unfold arbitrated. cbn.
    split; [reflexivity |]. split; [discriminate |].
    split; [exact H3 |]. split; [exact H4 |]. split; [exact H5 | exact H6].
Qed.

Lemma ISR_TIM1_COMPA_arbitrated s :
  arbitrated s ->
  exists s', ISR_TIM1_COMPA s = Ok (tt, s') /\ arbitrated s'.
Proof.
  intros HA. pose proof HA as (H1 & H2 & H3 & H4 & H5 & H6).
  destruct (Z.eq_dec (counter_high s) (cmp_high s)) as [Hch | Hch].
  2:{ eexists. split; [apply ISR_TIM1_COMPA_waits; exact Hch |]. exact HA. }
  destruct (Z.eq_dec (first_time (fast_cnt s)) 0) as [Hft | Hft].
  2:{ eexists. split; [apply ISR_TIM1_COMPA_first; assumption |]. exact HA. }
  rewrite ISR_TIM1_COMPA_fires by assumption.
  set (e := current_log2num_events (fast_cnt s)) in *.
  set (p := u32 (ticks_at s - prev_ticks (fast_cnt s))).
  assert (Hp : 0 <= p) by apply u32_range.
  assert (HW : arbitrated (window_closed s)).
  { unfold arbitrated. cbn [window_closed GIMSK current fast_cnt
      current_log2num_events OCR1A cmp_high slow_cnt]. exact HA. }
  unfold bind.
  destruct ((p <? MIN_PERIOD) && (e <? 20)) eqn:Hup.
  - apply andb_prop in Hup as [U1 U2].
    apply Z.ltb_lt in U1. apply Z.ltb_lt in U2.
    destruct (adjust_events_more e p (window_closed s))
      as (e' & Hadj & He' & _); [lia | lia |].
    rewrite Hadj. cbn [fst snd]. rewrite change_mode_runs.
    eexists. split; [reflexivity |].
    destruct (arbitrated_programmed e' (window_closed s))
      as (A1 & A2 & A3 & A4 & A5 & A6); [lia |]. cbv zeta in *.
    set (x := in_fast set_current_log2num_events e'
                (set_current Fast (set_GIMSK 0
                   (programmed e' (window_closed s))))).
    assert (Hx : arbitrated x).
    { unfold arbitrated. subst x.
      cbn [in_fast set_fast_cnt set_current set_GIMSK GIMSK current fast_cnt
           slow_cnt OCR1A cmp_high current_log2num_events
           set_current_log2num_events edge_mask] in *.
      split; [reflexivity |]. split; [discriminate |].
      split; [lia |]. split; [exact A2 |]. split; [exact A3 |].
      rewrite A4. exact H6. }
    replace e' with (current_log2num_events (fast_cnt x)) at 1
      by reflexivity.
    apply mode_checked_arbitrated. exact Hx.
  - destruct ((p >? MIN_PERIOD * 3) && (e >? 1)) eqn:Hdown.
    + apply andb_prop in Hdown as [D1 D2].
      apply Z.gtb_lt in D1. apply Z.gtb_lt in D2.
      destruct (adjust_events_halves e p (window_closed s))
        as (e' & Hadj & He' & _); [lia | exact D1 |].
      rewrite Hadj. cbn [fst snd]. rewrite change_mode_runs.
      eexists. split; [reflexivity |].
      destruct (arbitrated_programmed e' (window_closed s))
        as (A1 & A2 & A3 & A4 & A5 & A6); [lia |]. cbv zeta in *.
      set (x := in_fast set_current_log2num_events e'
                  (programmed e' (window_closed s))) in *.
      assert (Hfast : current s = Fast).
      { destruct (current s) eqn:Hc; [| reflexivity].
        specialize (H2 eq_refl). lia. }
      assert (Hx : arbitrated x).
      { unfold arbitrated. rewrite A5, A6, A4.
        cbn [window_closed current GIMSK slow_cnt]. rewrite Hfast.
        split; [rewrite H1, Hfast; reflexivity |].
        split; [discriminate |].
        split; [exact A1 |]. split; [exact A2 |]. split; [exact A3 |].
        exact H6. }
      replace e' with (current_log2num_events (fast_cnt x)) at 1
        by reflexivity.
      apply mode_checked_arbitrated. exact Hx.
    + rewrite adjust_events_unchanged by assumption.
      cbn [fst snd]. rewrite change_mode_runs.
      eexists. split; [reflexivity |].
      replace e with (current_log2num_events (fast_cnt (window_closed s)))
        by reflexivity.
      apply mode_checked_arbitrated. exact HW.
Qed.

Lemma INT0_enabled_iff w :
  Z.testbit (edge_mask w) INT0 = true <-> w = Slow.
Proof. destruct w; cbn; split; (reflexivity || discriminate). Qed.

(** The edge interrupt, served while enabled. The emergency switch
    writes [OCR1A] alone: the limit of the extended counter is 0 already,
    the slow counter being the current one. *)
Lemma ISR_EXT_INT0_arbitrated s :
  arbitrated s -> Z.testbit (GIMSK s) INT0 = true ->
  exists s', ISR_EXT_INT0 s = Ok (tt, s') /\ arbitrated s'.
Proof.
  intros HA Hen. pose proof HA as (H1 & H2 & H3 & H4 & H5 & H6).
  assert (Hslow : current s = Slow).
  { apply INT0_enabled_iff. rewrite <- H1. exact Hen. }
  specialize (H2 Hslow).
  destruct (Z.eq_dec (first_time (slow_cnt s)) 0) as [E | E].
  - destruct (Z.lt_ge_cases (u32 (ticks_at s - prev_ticks (slow_cnt s))) 100).
    + eexists. split; [apply ISR_EXT_INT0_escalates; assumption |].
      unfold arbitrated.
      cbn [escalated GIMSK current fast_cnt slow_cnt OCR1A cmp_high
           current_log2num_events log2num_events set_prev_ticks set_period
           edge_mask].
      rewrite H5, H2. cbn.
      split; [reflexivity |]. split; [discriminate |].
      split; [lia |]. split; [reflexivity |]. split; [reflexivity | exact H6].
    + eexists. split; [apply ISR_EXT_INT0_next; assumption |]. exact HA.
  - eexists. split; [apply ISR_EXT_INT0_first; assumption |]. exact HA.
Qed.

Lemma polled_arbitrated s : arbitrated s -> arbitrated (polled s).
Proof.
  intros HA. pose proof HA as (H1 & H2 & H3 & H4 & H5 & H6). unfold polled.
  destruct (watchdog_expired s).
  - unfold arbitrated. cbn.
    split; [reflexivity |]. split; [reflexivity |].
    split; [lia |]. split; [reflexivity |]. split; [reflexivity | exact H6].
  - exact HA.
Qed.

Lemma handle_arbitrated e s :
  arbitrated s -> can_be_served e s = true ->
  exists s', handle e s = Ok (tt, s') /\ arbitrated s'.
Proof.
  intros HA Hen. destruct e; cbn [handle].
  - apply ISR_EXT_INT0_arbitrated; assumption.
  - apply ISR_TIM1_COMPA_arbitrated; assumption.
  - eexists. split; [reflexivity | exact HA].
  - unfold bind. rewrite poll_runs. eexists. split; [reflexivity |].
    apply polled_arbitrated. exact HA.
  - eexists. split; [reflexivity | exact HA].
  - eexists. split; [reflexivity | exact HA].
Qed.

Lemma in_service_arbitrated s : in_service s -> arbitrated s.
Proof.
  induction 1 as [| e s s' _ IH Hen Hstep].
  - exact started_arbitrated.
  - destruct (handle_arbitrated e s IH Hen) as (s1 & Hrun & HA).
    unfold exec in Hstep. rewrite Hrun in Hstep.
    injection Hstep as <-. exact HA.
Qed.

Lemma served_in_service es s : in_service s -> in_service (served es s).
Proof.
  intros Hs. unfold served. destruct (serve es s) as [s' |] eqn:E.
  - exact (serve_in_service es s s' Hs E).
  - exact Hs.
Qed.

Lemma mid_window_in_service : in_service mid_window.
Proof. apply served_in_service. exact in_service_started. Qed.

Lemma silenced_in_service : in_service silenced.
Proof. apply served_in_service. exact mid_window_in_service. Qed.

Example mid_window_state :
  current mid_window = Fast /\
  current_log2num_events (fast_cnt mid_window) = 20 /\
  counter_high mid_window = 3 /\ cmp_high mid_window = 15 /\
  current silenced = Slow /\
  current_log2num_events (fast_cnt silenced) = 1 /\
  counter_high silenced = 3 /\ cmp_high silenced = 0.
Proof. vm_compute. repeat split. Qed.

(** In every state the machine reaches, the edge interrupt is enabled
    exactly while the slow counter is the current one. *)
Theorem edge_interrupt_follows_mode (s : machine) :
  in_service s ->
  GIMSK s = edge_mask (current s) /\
  (Z.testbit (GIMSK s) INT0 = true <-> current s = Slow).
Proof.
  intros Hs. destruct (in_service_arbitrated s Hs) as (H1 & _).
  split; [exact H1 |]. rewrite H1. apply INT0_enabled_iff.
Qed.

(** An instance: the fast counter is the current one, the edge
    interrupt is disabled. *)
Lemma edge_interrupt_follows_mode_witness :
  GIMSK mid_window = edge_mask (current mid_window) /\
  (Z.testbit (GIMSK mid_window) INT0 = true <-> current mid_window = Slow).
Proof.
  apply (edge_interrupt_follows_mode mid_window).
  exact mid_window_in_service.
Defined.

Lemma pow2_split e : 16 < e -> 65536 * 2 ^ (e - 16) = 2 ^ e.
Proof.
  intros He. change 65536 with (2 ^ 16).
  rewrite <- Z.pow_add_r by lia. f_equal. lia.
Qed.

(** In every state the machine reaches, the compare register of timer 1
    and the limit of the extended counter are those of the exponent of
    the next window, [e]: together they let [2 ^ e] events pass per
    window. The emergency switch, which writes the compare register
    alone, finds the limit already at 0. *)
Theorem compare_registers_follow_exponent (s : machine) :
  in_service s ->
  let e := current_log2num_events (fast_cnt s) in
  1 <= e <= 20 /\
  OCR1A s = (if e <=? 16 then 2 ^ e - 1 else 65535) /\
  cmp_high s = (if e <=? 16 then 0 else 2 ^ (e - 16) - 1) /\
  events_per_window s = 2 ^ e.
Proof.
  intros Hs e.
  destruct (in_service_arbitrated s Hs) as (_ & _ & H3 & H4 & H5 & _).
  fold e in H3, H4, H5.
  split; [exact H3 |]. split; [exact H4 |]. split; [exact H5 |].
  unfold events_per_window. rewrite H4, H5.
  destruct (Z.leb_spec e 16) as [Hlo | Hhi].
  - lia.
  - replace (65535 + 1) with 65536 by lia.
    replace (2 ^ (e - 16) - 1 + 1) with (2 ^ (e - 16)) by lia.
    apply pow2_split. exact Hhi.
Qed.

(** An instance: exponent 20, with [OCR1A] at 65535 and the limit
    of the extended counter at 15. *)
Lemma compare_registers_follow_exponent_witness :
  let e := current_log2num_events (fast_cnt mid_window) in
  1 <= e <= 20 /\
  OCR1A mid_window = (if e <=? 16 then 2 ^ e - 1 else 65535) /\
  cmp_high mid_window = (if e <=? 16 then 0 else 2 ^ (e - 16) - 1) /\
  events_per_window mid_window = 2 ^ e.
Proof.
  apply (compare_registers_follow_exponent mid_window).
  exact mid_window_in_service.
Defined.

(** While the slow counter is the current one, the polling loop reads
    exponent 0 with the period of the slow counter, and the fast counter
    is set to two events per window. *)
Theorem slow_mode_snapshot (s : machine) :
  in_service s ->
  current s = Slow ->
  (exists s', poll s = Ok ((0, period (slow_cnt s)), s')) /\
  current_log2num_events (fast_cnt s) = 1 /\
  events_per_window s = 2.
Proof.
  intros Hs Hc.
  destruct (in_service_arbitrated s Hs) as (_ & H2 & _ & H4 & H5 & H6).
  specialize (H2 Hc). rewrite H2 in H4, H5.
  split; [| split; [exact H2 |]].
  - eexists. rewrite poll_runs. rewrite Hc. cbn [counter_of].
    rewrite H6. reflexivity.
  - unfold events_per_window. rewrite H4, H5. reflexivity.
Qed.

(** An instance: after the watchdog has forced the slow mode. *)
Lemma slow_mode_snapshot_witness :
  (exists s', poll silenced = Ok ((0, period (slow_cnt silenced)), s')) /\
  current_log2num_events (fast_cnt silenced) = 1 /\
  events_per_window silenced = 2.
Proof.
  apply (slow_mode_snapshot silenced).
  - exact silenced_in_service.
  - reflexivity.
Defined.

(** ** The extended counter *)






Example window_start_state :
  current_log2num_events (fast_cnt window_start) = 20 /\
  cmp_high window_start = 15 /\ OCR1A window_start = 65535.
Proof. vm_compute. repeat split. Qed.



(** ** The tick clock across an overflow of timer 0 *)

(** The race the flag test of [cli_ticks] settles: with an overflow of
    timer 0 pending and the hardware count below 255, [cli_ticks] reads
    the same whether the overflow interrupt has been served yet or not. *)
Theorem pending_overflow_is_counted (s : machine) :
  Z.testbit (TIFR0 s) TOV0 = true ->
  TCNT0 s < 255 ->
  (exists u, ISR_TIM0_OVF (timer0_runs (TCNT0 s) (Z.clearbit (TIFR0 s) TOV0) s)
             = Ok (u, overflow_served s)) /\
  ticks_at (overflow_served s) = ticks_at s.
Proof.
  intros Hflag Ht. split; [eexists; reflexivity |].
  rewrite !ticks_at_value.
  cbn [overflow_served set_timer0_overflow_count timer0_runs TIFR0 TCNT0
       timer0_overflow_count].
  unfold TOV0 in *. rewrite Z.clearbit_eq, Hflag. cbn [andb].
  replace (TCNT0 s <? 255) with true by (symmetry; apply Z.ltb_lt; exact Ht).
  rewrite u32_mul_u32_l. reflexivity.
Qed.

(** An instance: 41 overflows counted, one pending, timer 0 at 7. *)
Lemma pending_overflow_is_counted_witness :
  (exists u,
      ISR_TIM0_OVF (timer0_runs (TCNT0 overflow_pending)
                      (Z.clearbit (TIFR0 overflow_pending) TOV0)
                      overflow_pending)
      = Ok (u, overflow_served overflow_pending)) /\
  ticks_at (overflow_served overflow_pending) = ticks_at overflow_pending.
Proof.
  apply (pending_overflow_is_counted overflow_pending).
  - reflexivity.
  - vm_compute. reflexivity.
Defined.

Example overflow_pending_ticks :
  ticks_at overflow_pending = 42 * 256 + 7 /\
  ticks_at (overflow_served overflow_pending) = 42 * 256 + 7.
Proof. vm_compute. split; reflexivity. Qed.

(** Across a wrap of timer 0 the reading goes up by one tick, before the
    overflow interrupt is served: no tick is lost or counted twice. *)
Theorem reading_steps_over_wrap (s : machine) :
  0 <= timer0_overflow_count s < 2 ^ 24 - 1 ->
  TCNT0 s = 255 ->
  Z.testbit (TIFR0 s) TOV0 = false ->
  ticks_at (timer0_wraps s) = ticks_at s + 1.
Proof.
  intros Hm Ht Hflag.
  rewrite (cli_ticks_exact s) by (rewrite ?Ht; lia).
  rewrite (cli_ticks_exact (timer0_wraps s))
    by (cbn [timer0_wraps timer0_runs timer0_overflow_count TCNT0]; lia).
  cbn [timer0_wraps timer0_runs timer0_overflow_count TCNT0 TIFR0].
  rewrite Hflag, Ht. unfold TOV0. rewrite Z.setbit_eq by lia.
  cbn [andb Z.ltb Z.compare Pos.compare Pos.compare_cont]. lia.
Qed.

(** An instance: 41 overflows counted, timer 0 at 255. *)
Lemma reading_steps_over_wrap_witness :
  ticks_at (timer0_wraps about_to_wrap) = ticks_at about_to_wrap + 1.
Proof.
  apply (reading_steps_over_wrap about_to_wrap).
  - vm_compute. split; [discriminate | reflexivity].
  - reflexivity.
  - reflexivity.
Defined.

(** ** The digits of the line *)

(** [freq % 10 + 48] is the code of a decimal digit. *)
Lemma digit_char_code f :
  Z.of_N (N_of_ascii (digit_char f)) = f mod 10 + 48.
Proof.
  unfold digit_char.
  pose proof (Z.mod_pos_bound f 10 ltac:(lia)) as Hm.
  rewrite u8_small by lia.
  rewrite N_ascii_embedding.
  - apply Z2N.id. lia.
  - change 256%N with (Z.to_N 256). apply Z2N.inj_lt; lia.
Qed.

Lemma digit_of_digit_char f : digit_of (digit_char f) = Some (f mod 10).
Proof.
  unfold digit_of. rewrite digit_char_code.
  pose proof (Z.mod_pos_bound f 10 ltac:(lia)) as Hm.
  replace ((48 <=? f mod 10 + 48) && (f mod 10 + 48 <=? 57)) with true
    by (symmetry; apply andb_true_intro; split; apply Z.leb_le; lia).
  f_equal. lia.
Qed.

Lemma digit_char_not_NUL f : Ascii.eqb (digit_char f) NUL = false.
Proof.
  apply Ascii.eqb_neq. intros E.
  apply (f_equal (fun c => Z.of_N (N_of_ascii c))) in E.
  rewrite digit_char_code in E. cbn in E.
  pose proof (Z.mod_pos_bound f 10 ltac:(lia)). lia.
Qed.

(** The steps of the formatter on explicit locals. *)
Lemma poke_line_run i c ln p f :
  0 <= i < Z.of_nat (List.length ln) ->
  poke_line i c (mkLocals ln p f)
  = Ok (tt, mkLocals (poke_nat (Z.to_nat i) c ln) p f).
Proof.
  intros Hi. unfold poke_line, bind, rd, lift, wr, poke. cbn [line].
  replace ((0 <=? i) && (i <? Z.of_nat (List.length ln))) with true
    by (symmetry; apply andb_true_intro; split;
        [apply Z.leb_le | apply Z.ltb_lt]; lia).
  reflexivity.
Qed.

Lemma put_back_run c ln p f :
  0 <= p < Z.of_nat (List.length ln) -> p < 128 ->
  put_back c (mkLocals ln p f)
  = Ok (tt, mkLocals (poke_nat (Z.to_nat p) c ln) (p - 1) f).
Proof.
  intros Hp Hs. unfold put_back, bind, rd, wr, set_pos.
  cbn [pos line freq_left].
  rewrite poke_line_run by exact Hp. rewrite s8_small by lia. reflexivity.
Qed.

Lemma put_digit_run ln p f :
  0 <= p < Z.of_nat (List.length ln) -> p < 128 ->
  put_digit (mkLocals ln p f)
  = Ok (tt, mkLocals (poke_nat (Z.to_nat p) (digit_char f) ln) (p - 1)
              (f / 10)).
Proof.
  intros Hp Hs. unfold put_digit, bind, rd, wr. cbn [freq_left].
  fold (digit_char f). rewrite put_back_run by assumption.
  unfold set_freq_left. reflexivity.
Qed.

Lemma fraction_digits_step fuel pt ln p f :
  fraction_digits (S fuel) pt (mkLocals ln p f) =
  if p >? pt
  then (put_digit ;; fraction_digits fuel pt) (mkLocals ln p f)
  else Ok (tt, mkLocals ln p f).
Proof. cbn [fraction_digits]. unfold bind at 1. unfold rd. cbn [pos].
  destruct (p >? pt); reflexivity. Qed.

Lemma integer_digits_step fuel ln p f :
  integer_digits (S fuel) (mkLocals ln p f) =
  if f =? 0
  then Ok (tt, mkLocals ln p f)
  else (put_digit ;; integer_digits fuel) (mkLocals ln p f).
Proof. cbn [integer_digits]. unfold bind at 1. unfold rd. cbn [freq_left].
  destruct (f =? 0); reflexivity. Qed.

Lemma leading_spaces_step fuel ln p f :
  leading_spaces (S fuel) (mkLocals ln p f) =
  if p >=? 0
  then (put_back " "%char ;; leading_spaces fuel) (mkLocals ln p f)
  else Ok (tt, mkLocals ln p f).
Proof. cbn [leading_spaces]. unfold bind at 1. unfold rd. cbn [pos].
  destruct (p >=? 0); reflexivity. Qed.

Lemma digit_of_other :
  digit_of " "%char = None /\ digit_of "."%char = None /\
  digit_of "H"%char = None /\ digit_of "z"%char = None /\
  digit_of "k"%char = None /\ digit_of "M"%char = None.
Proof. vm_compute. repeat split. Qed.

Lemma snoc8 {A : Type} (a b c d e f g h i : A) :
  [a; b; c; d; e; f; g; h; i] = [a; b; c; d; e; f; g; h] ++ [i].
Proof. reflexivity. Qed.

(** Symbolic execution of [format_line]: the positions are numbers, the
    digits stay symbolic. [fmt_side] settles the bounds of a position. *)
Ltac fmt_side :=
  vm_compute; first [reflexivity | split; [discriminate | reflexivity]].

(** Evaluates the closed positions and tests a step leaves behind. *)
Ltac fmt_eval :=
  repeat match goal with
         | |- context [Z.to_nat (Zpos ?p)] =>
             let n := eval vm_compute in (Z.to_nat (Zpos p)) in
             change (Z.to_nat (Zpos p)) with n
         | |- context [Z.to_nat 0] => change (Z.to_nat 0) with 0%nat
         | |- context [Zpos ?p - 1] =>
             let n := eval vm_compute in (Zpos p - 1) in
             change (Zpos p - 1) with n
         | |- context [0 - 1] => change (0 - 1) with (-1)
         | |- context [Zpos ?a >? ?b] =>
             let n := eval vm_compute in (Zpos a >? b) in
             change (Zpos a >? b) with n
         | |- context [0 >? ?b] =>
             let n := eval vm_compute in (0 >? b) in
             change (0 >? b) with n
         | |- context [Zpos ?a >=? 0] => change (Zpos a >=? 0) with true
         | |- context [0 >=? 0] => change (0 >=? 0) with true
         | |- context [-1 >=? 0] => change (-1 >=? 0) with false
         end;
  cbn [poke_nat repeat]; cbn beta iota.

(** One step of the formatter. *)
Ltac fmt_step :=
  first
    [ rewrite fraction_digits_step
    | rewrite integer_digits_step
    | rewrite leading_spaces_step
    | unfold bind at 1;
      first [ rewrite fraction_digits_step
            | rewrite integer_digits_step
            | rewrite leading_spaces_step
            | rewrite poke_line_run by fmt_side
            | rewrite put_digit_run by fmt_side
            | rewrite put_back_run by fmt_side ] ];
  fmt_eval.

(** The end of the line, the first position and the division by the
    divisor of the range. *)
Ltac fmt_prologue :=
  unfold format_line, format_fuel; cbn [prefix lsd point divisor];
  do 4 fmt_step;
  unfold bind at 1; unfold wr at 1; unfold set_pos; cbn [line pos freq_left];
  unfold bind at 1; unfold rd at 1; cbn [freq_left];
  unfold bind at 1; unfold lift, udiv; cbn [Z.eqb];
  unfold bind at 1; unfold wr at 1; unfold set_freq_left; cbn [line pos].

(** The loops, with a case split on each test of the digits left. *)
Ltac fmt_run :=
  repeat first
    [ fmt_step
    | match goal with
      | |- context [if ?f =? 0 then _ else _] =>
          destruct (Z.eqb_spec f 0); cbn beta iota
      end ].

(** A run that wrote before the line has more digits than the range
    allows; one that ended has laid out the line. *)
Ltac fmt_done :=
  first
    [ exfalso; Z.div_mod_to_equations; lia
    | eexists; eexists; split; [reflexivity |];
      split; [cbn [line]; apply snoc8 |];
      split; [reflexivity |];
      split; [cbn [forallb]; rewrite ?digit_char_not_NUL; reflexivity |];
      split;
      [ destruct digit_of_other as (D1 & D2 & D3 & D4 & D5 & D6);
        cbn [number_shown];
        rewrite ?digit_of_digit_char, ?D1, ?D2, ?D3, ?D4, ?D5, ?D6;
        cbn beta iota; Z.div_mod_to_equations; lia
      | split; [reflexivity |]; split; [reflexivity |];
        first [intros _; reflexivity | intros H; discriminate H] ] ].

(** In each range [display_freq] formats a line that shows the
    frequency divided by the divisor of the range. *)
Lemma format_line_renders i b freq :
  range_at i = Ok b ->
  0 <= freq <= max b ->
  exists l w,
    format_line b (mkLocals (repeat NUL 9) 0 freq) = Ok (tt, l) /\
    line l = w ++ [NUL] /\
    rendered b freq w.
Proof.
  intros Hb Hf. pose proof (range_at_index i b Hb) as Hi.
  assert (Hq : 0 <= freq / divisor b <= 9999).
  { destruct (range_at_layout i b Hb) as [_ Hd].
    assert (C : i = 0 \/ i = 1 \/ i = 2 \/ i = 3 \/ i = 4) by lia.
    destruct C as [C | [C | [C | [C | C]]]]; subst i;
      injection Hb as <-; cbn [divisor max] in *;
      (split; [apply Z.div_pos | apply Z.lt_succ_r, Z.div_lt_upper_bound];
       lia). }
  assert (C : i = 0 \/ i = 1 \/ i = 2 \/ i = 3 \/ i = 4) by lia.
  destruct C as [C | [C | [C | [C | C]]]]; subst i;
    injection Hb as <-; cbn [divisor max] in Hq, Hf;
    unfold rendered; cbn [point lsd prefix divisor];
    fmt_prologue;
    match type of Hq with
    | 0 <= ?t <= _ => generalize dependent t; intros q Hq
    end;
    fmt_run; fmt_done.
Qed.

(** ** The line on the display *)

Lemma forallb_no_NUL w :
  forallb (fun c => negb (Ascii.eqb c NUL)) w = true -> ~ In NUL w.
Proof.
  intros H Hin. rewrite forallb_forall in H. specialize (H NUL Hin).
  rewrite Ascii.eqb_refl in H. discriminate.
Qed.

(** [strcmp] finds two buffers that hold the same string equal. *)
Lemma strcmp_eq_same a : forall b,
  In NUL a -> In NUL b -> c_string a = c_string b -> strcmp_eq a b = Ok true.
Proof.
  induction a as [| x a IH]; intros b Ha Hb H; [destruct Ha |].
  destruct b as [| y b]; [destruct Hb |].
  cbn [strcmp_eq]. cbn [c_string] in H.
  destruct (Ascii.eqb_spec x NUL) as [Nx | Nx];
    destruct (Ascii.eqb_spec y NUL) as [Ny | Ny]; try discriminate.
  - subst x y. rewrite Ascii.eqb_refl. reflexivity.
  - injection H as -> H. rewrite Ascii.eqb_refl. apply IH.
    + destruct Ha as [Ha | Ha]; [congruence | exact Ha].
    + destruct Hb as [Hb | Hb]; [congruence | exact Hb].
    + exact H.
Qed.

(** Cutting a text to eight characters before padding it changes
    nothing. *)
Lemma padded_firstn w : padded (firstn 8 w) = padded w.
Proof.
  unfold padded.
  destruct (Nat.le_gt_cases (List.length w) 8) as [H | H].
  - rewrite (firstn_all2 w H). reflexivity.
  - rewrite !firstn_app.
    rewrite length_firstn.
    replace (8 - Nat.min 8 (List.length w))%nat with 0%nat by lia.
    replace (8 - List.length w)%nat with 0%nat by lia.
    rewrite firstn_firstn. reflexivity.
Qed.

(** [show_line] runs to its end on every terminated string and leaves
    the string on the display, cut to eight characters or filled up with
    spaces to eight, provided the display shows what [prev_line]
    remembers; and that still holds afterwards. *)
Theorem show_line_displays s d :
  In NUL s ->
  in_step d ->
  exists d',
    show_line s d = Ok (tt, d') /\
    lcd_line d' = padded (c_string s) /\
    List.length (lcd_line d') = 8%nat /\
    in_step d'.
Proof.
  intros Hs Hd.
  destruct (show_line_shows s d Hs Hd) as (d' & Hrun & Hstep & Hpl & _).
  exists d'. split; [exact Hrun |].
  destruct Hstep as (H1 & H2 & H3 & H4).
  split; [| split; [exact H3 | repeat split; assumption]].
  rewrite H4, Hpl. apply padded_firstn.
Qed.

(** An instance: a line of seven characters on the blank display. *)
Lemma show_line_displays_witness :
  exists d',
    show_line (literal "12.3 Hz") blank = Ok (tt, d') /\
    lcd_line d' = padded (c_string (literal "12.3 Hz")) /\
    List.length (lcd_line d') = 8%nat /\
    in_step d'.
Proof.
  apply (show_line_displays (literal "12.3 Hz") blank).
  - vm_compute. tauto.
  - repeat split. vm_compute. tauto.
Defined.

(** [show_line] called again with the same string, of at most eight
    characters, finds it equal to [prev_line] and changes nothing: not
    the display, not its write position, not the statics. *)
Theorem show_line_twice s d d' :
  In NUL s ->
  (List.length (c_string s) <= 8)%nat ->
  in_step d ->
  show_line s d = Ok (tt, d') ->
  show_line s d' = Ok (tt, d').
Proof.
  intros Hs Hlen Hd Hrun.
  destruct (show_line_shows s d Hs Hd) as (d1 & Hrun1 & Hstep & Hpl & _).
  rewrite Hrun1 in Hrun. injection Hrun as <-.
  destruct Hstep as (H1 & H2 & H3 & H4).
  unfold show_line. unfold bind at 1. unfold rd at 1.
  unfold bind at 1. unfold lift.
  rewrite (strcmp_eq_same s (prev_line d1) Hs H2).
  - reflexivity.
  - rewrite Hpl. symmetry. apply firstn_all2. exact Hlen.
Qed.

(** An instance: the same line of seven characters, shown again. *)
Lemma show_line_twice_witness :
  show_line (literal "12.3 Hz") shown_once = Ok (tt, shown_once).
Proof.
  apply (show_line_twice (literal "12.3 Hz") blank shown_once).
  - vm_compute. tauto.
  - vm_compute. lia.
  - repeat split. vm_compute. tauto.
  - vm_compute. reflexivity.
Defined.

(** A frequency that is not 0 and not the one remembered is formatted
    in the range the scan selects and put on the display. *)
Lemma display_freq_formats freq d :
  settled d ->
  0 < freq <= 99999999 ->
  freq <> prev_freq d ->
  exists d' b,
    display_freq freq d = Ok (tt, d') /\
    range_at (curr_range d') = Ok b /\
    min b <= freq <= max b /\
    rendered b freq (lcd_line d') /\
    prev_freq d' = freq.
Proof.
  intros (Hstep & Hzero & Hrange) Hf Hne.
  unfold display_freq. unfold bind at 1. unfold rd at 1.
  destruct (Z.eqb_spec freq (prev_freq d)) as [E | _]; [contradiction |].
  unfold bind at 1. unfold wr at 1.
  destruct (Z.eqb_spec freq 0) as [E | _]; [lia |].
  unfold bind at 1.
  destruct (change_range_finds_band freq (set_prev_freq freq d))
    as (i & Hscan & Hi & b & Hb & Hband); [lia | exact Hrange |].
  rewrite Hscan.
  unfold bind at 1. unfold rd at 1. cbn [curr_range set_curr_range].
  unfold bind at 1. unfold lift. rewrite Hb.
  destruct (format_line_renders i b freq Hb) as (l & w & Hfmt & Hline & Hw);
    [lia |].
  rewrite Hfmt.
  pose proof Hw as (Hlen & Hnn & _).
  apply forallb_no_NUL in Hnn.
  destruct (show_line_shows (line l)
              (set_curr_range i (set_prev_freq freq d)))
    as (d1 & Hrun1 & H1 & H2 & H3 & H4).
  { rewrite Hline. apply in_or_app. right. left. reflexivity. }
  { exact Hstep. }
  exists d1, b. split; [exact Hrun1 |].
  rewrite H4, H3. cbn [curr_range prev_freq set_curr_range set_prev_freq].
  split; [exact Hb |]. split; [exact Hband |]. split; [| reflexivity].
  destruct H1 as (_ & _ & _ & Hshown).
  rewrite Hshown, H2, Hline.
  rewrite c_string_app_NUL by exact Hnn.
  rewrite firstn_all2 by lia.
  rewrite padded_short by lia. rewrite Hlen. cbn [Nat.sub repeat].
  rewrite app_nil_r. exact Hw.
Qed.

(** A frequency within 1..99999999 that is not the one remembered is
    shown: [display_freq] runs to its end, [curr_range] is at a range of
    the table that contains the frequency, and the display holds eight
    characters, none of them NUL: the decimal point in the column of the
    range, "Hz" at the end, the prefix of the range before it (the last
    digit in the first range), and digits that read, without the point,
    as the frequency divided by the divisor of the range. The frequency
    is remembered in [prev_freq]. *)
Theorem display_freq_shows_number freq d :
  settled d ->
  0 < freq <= 99999999 ->
  freq <> prev_freq d ->
  exists d' b,
    display_freq freq d = Ok (tt, d') /\
    range_at (curr_range d') = Ok b /\
    min b <= freq <= max b /\
    rendered b freq (lcd_line d') /\
    prev_freq d' = freq /\
    settled d'.
Proof.
  intros Hs Hf Hne.
  destruct (display_freq_formats freq d Hs Hf Hne)
    as (d' & b & Hrun & Hb & Hband & Hw & Hpf).
  exists d', b. repeat (split; [assumption |]).
  apply (display_freq_keeps freq d d'); [lia | exact Hs | exact Hrun].
Qed.

(** An instance: 12345.6 Hz on the blank display. *)
Lemma display_freq_shows_number_witness :
  exists d' b,
    display_freq 123456 blank = Ok (tt, d') /\
    range_at (curr_range d') = Ok b /\
    min b <= 123456 <= max b /\
    rendered b 123456 (lcd_line d') /\
    prev_freq d' = 123456 /\
    settled d'.
Proof.
  apply (display_freq_shows_number 123456 blank).
  - exact blank_settled.
  - lia.
  - cbn [prev_freq blank]. lia.
Defined.

(** It is shown in the third range, as 12.34kHz. *)
Example display_freq_12345_6_Hz :
  exists d', display_freq 123456 blank = Ok (tt, d') /\
             shows d' = "12.34kHz"%string.
Proof. eexists. split; vm_compute; reflexivity. Qed.

(** [display_measurement] with zero ticks shows the placeholder through
    [show_line] and leaves [prev_freq] as it was. A measurement that
    follows and gives the frequency [prev_freq] remembers is taken as
    already shown: the placeholder stays on the display. *)
Theorem placeholder_hides_repeated_frequency F_CPU n n' ticks' d :
  settled d ->
  ticks' <> 0 ->
  frequency F_CPU n' ticks' = Ok (prev_freq d) ->
  exists d1,
    display_measurement F_CPU n 0 d = Ok (tt, d1) /\
    display_measurement F_CPU n' ticks' d1 = Ok (tt, d1) /\
    shows d1 = "---     "%string.
Proof.
  intros (Hstep & _ & _) Ht Hf.
  unfold display_measurement at 1. cbn [Z.eqb].
  destruct (show_line_placeholder d Hstep)
    as (d1 & Hrun & H1 & H2 & H3 & _).
  exists d1. split; [exact Hrun |].
  split; [| apply placeholder_shown; assumption].
  unfold display_measurement.
  destruct (Z.eqb_spec ticks' 0) as [E | _]; [contradiction |].
  unfold bind at 1. unfold lift. rewrite Hf.
  unfold display_freq. unfold bind at 1. unfold rd at 1.
  rewrite H3, Z.eqb_refl. reflexivity.
Qed.

(** An instance: 1 kHz is shown, a measurement of zero ticks puts
    the placeholder on the display, and the next measurement of 1 kHz
    leaves it there. *)
Lemma placeholder_hides_repeated_frequency_witness :
  exists d1,
    display_measurement F_CPU_20MHz 4 0 showing_1kHz = Ok (tt, d1) /\
    display_measurement F_CPU_20MHz 4 5000 d1 = Ok (tt, d1) /\
    shows d1 = "---     "%string.
Proof.
  apply (placeholder_hides_repeated_frequency F_CPU_20MHz 4 4 5000
           showing_1kHz).
  - apply (display_measurement_keeps F_CPU_20MHz 4 5000 blank);
      [lia | exact blank_settled | vm_compute; reflexivity].
  - lia.
  - vm_compute. reflexivity.
Defined.

Example showing_1kHz_shows : shows showing_1kHz = "1.000kHz"%string.
Proof. vm_compute. reflexivity. Qed.

(** Within what the table covers [display_freq] runs to its end. *)
Lemma display_freq_runs freq d :
  settled d ->
  0 <= freq <= 99999999 ->
  exists d', display_freq freq d = Ok (tt, d') /\ settled d'.
Proof.
  intros Hs Hf.
  destruct (Z.eq_dec freq (prev_freq d)) as [E | E].
  { exists d. split; [| exact Hs].
    unfold display_freq, bind, rd. rewrite E, Z.eqb_refl. reflexivity. }
  destruct (Z.eq_dec freq 0) as [-> | E0].
  { destruct (display_freq_zero d Hs) as (d' & Hrun & Hs' & _).
    exists d'. split; assumption. }
  destruct (display_freq_formats freq d Hs) as (d' & b & Hrun & _);
    [lia | exact E |].
  exists d'. split; [exact Hrun |].
  apply (display_freq_keeps freq d d'); [lia | exact Hs | exact Hrun].
Qed.

(** Up to a clock of 20 MHz the largest period gives a frequency of at
    most 763, and of 0 up to exponent 9. *)
Lemma frequency_of_MAX_PERIOD_bound F_CPU n :
  0 <= F_CPU <= F_CPU_20MHz ->
  0 <= n <= 20 ->
  exists f,
    frequency F_CPU n MAX_PERIOD = Ok f /\
    0 <= f <= 763 /\
    (n <= 9 -> f = 0).
Proof.
  unfold F_CPU_20MHz. intros HF Hn.
  unfold frequency, udiv, shl_u64, MAX_PERIOD.
  change (4294967295 / 2) with 2147483647.
  change (4294967295 =? 0) with false. cbn iota.
  assert (Ha : 0 <= 10 * F_CPU / 64 <= 3125000).
  { split; [apply Z.div_pos; lia |].
    apply Z.lt_succ_r. apply Z.div_lt_upper_bound; lia. }
  destruct (Z.ltb_spec n 11) as [Hlt | Hge].
  - rewrite (u32_small (10 * F_CPU)) by lia.
    assert (Hpow : 1 <= 2 ^ n <= 2 ^ 10).
    { split.
      - apply (Z.pow_le_mono_r 2 0 n); lia.
      - apply Z.pow_le_mono_r; lia. }
    change (2 ^ 10) with 1024 in Hpow.
    rewrite (u32_small (10 * F_CPU / 64 * 2 ^ n)) by nia.
    eexists. split; [reflexivity |].
    pose proof (u32_range (10 * F_CPU / 64 * 2 ^ n + 2147483647)) as Hr.
    split.
    + split; [apply Z.div_pos; lia |].
      apply Z.lt_succ_r. apply Z.div_lt_upper_bound; lia.
    + intros H9.
      assert (Hpow9 : 2 ^ n <= 2 ^ 9) by (apply Z.pow_le_mono_r; lia).
      change (2 ^ 9) with 512 in Hpow9.
      rewrite u32_small by nia. apply Z.div_small. nia.
  - replace ((0 <=? n) && (n <? 64)) with true
      by (symmetry; apply andb_true_intro; split;
          [apply Z.leb_le | apply Z.ltb_lt]; lia).
    rewrite (u64_small (10 * F_CPU)) by lia.
    assert (Hpow : 1 <= 2 ^ n <= 2 ^ 20).
    { split.
      - apply (Z.pow_le_mono_r 2 0 n); lia.
      - apply Z.pow_le_mono_r; lia. }
    change (2 ^ 20) with 1048576 in Hpow.
    rewrite (u64_small (10 * F_CPU / 64 * 2 ^ n)) by nia.
    rewrite u64_small by nia.
    assert (Hq : 0 <= (10 * F_CPU / 64 * 2 ^ n + 2147483647) / 4294967295
                 <= 763).
    { split; [apply Z.div_pos; nia |].
      apply Z.lt_succ_r. apply Z.div_lt_upper_bound; nia. }
    eexists. split; [reflexivity |].
    rewrite u32_small by lia. split; [exact Hq | lia].
Qed.

(** With zero ticks [display_measurement] runs to its end, whatever the
    exponent and the clock, and leaves the placeholder on the display; the
    remembered frequency and the range are as they were. *)
Theorem zero_ticks_show_placeholder F_CPU n d :
  settled d ->
  exists d',
    display_measurement F_CPU n 0 d = Ok (tt, d') /\
    shows d' = "---     "%string /\
    prev_freq d' = prev_freq d /\
    curr_range d' = curr_range d /\
    in_step d'.
Proof.
  intros (Hstep & _ & _). unfold display_measurement. cbn [Z.eqb].
  destruct (show_line_placeholder d Hstep)
    as (d' & Hrun & H1 & H2 & H3 & H4).
  exists d'. split; [exact Hrun |].
  split; [apply placeholder_shown; assumption |].
  split; [exact H3 |]. split; [exact H4 | exact H1].
Qed.

(** An instance: exponent 255, with 1 kHz on the display. *)
Lemma zero_ticks_show_placeholder_witness :
  exists d',
    display_measurement F_CPU_20MHz 255 0 showing_1kHz = Ok (tt, d') /\
    shows d' = "---     "%string /\
    prev_freq d' = prev_freq showing_1kHz /\
    curr_range d' = curr_range showing_1kHz /\
    in_step d'.
Proof.
  apply (zero_ticks_show_placeholder F_CPU_20MHz 255 showing_1kHz).
  apply (display_measurement_keeps F_CPU_20MHz 4 5000 blank);
    [lia | exact blank_settled | vm_compute; reflexivity].
Defined.

(** With the largest period, 0xffffffff, an exponent within 0..20 and
    a clock of at most 20 MHz, [display_measurement] runs to its end: the
    frequency is at most 763, inside the first range. Up to exponent 9 the
    frequency is 0 and the display shows the placeholder. *)
Theorem largest_period_is_displayed F_CPU n d :
  settled d ->
  0 <= F_CPU <= F_CPU_20MHz ->
  0 <= n <= 20 ->
  exists d',
    display_measurement F_CPU n MAX_PERIOD d = Ok (tt, d') /\
    settled d' /\
    (n <= 9 -> shows d' = "---     "%string).
Proof.
  intros Hs HF Hn.
  destruct (frequency_of_MAX_PERIOD_bound F_CPU n HF Hn)
    as (f & Hfreq & Hf & Hzero).
  unfold display_measurement. change (MAX_PERIOD =? 0) with false.
  cbn iota. unfold bind at 1. unfold lift. rewrite Hfreq.
  destruct (Z.le_gt_cases n 9) as [H9 | H9].
  - rewrite (Hzero H9).
    destruct (display_freq_zero d Hs) as (d' & Hrun & Hs' & Hshow).
    exists d'. split; [exact Hrun |]. split; [exact Hs' |].
    intros _. exact Hshow.
  - destruct (display_freq_runs f d Hs) as (d' & Hrun & Hs'); [lia |].
    exists d'. split; [exact Hrun |]. split; [exact Hs' |]. lia.
Qed.

(** An instance: exponent 20 at 20 MHz, on the blank display. *)
Lemma largest_period_is_displayed_witness :
  exists d',
    display_measurement F_CPU_20MHz 20 MAX_PERIOD blank = Ok (tt, d') /\
    settled d' /\
    (20 <= 9 -> shows d' = "---     "%string).
Proof.
  apply (largest_period_is_displayed F_CPU_20MHz 20 blank).
  - exact blank_settled.
  - unfold F_CPU_20MHz. lia.
  - lia.
Defined.
